(** * Cognify: the normative-comparison and clinical-scoring engine

    A shallow embedding of the computational core of [src/atrophy/main.js]:
    intracranial-volume estimation, residual normalisation, z-score
    interpretation, the HOC biomarker, the MTA scale, clinical-pattern
    detection and the atrophy-risk cascade, followed by the properties
    the specification states about them.

    Numbers.  A JavaScript number is modelled as an exact rational [Q]
    (every finite double is one); arithmetic is exact, equality of numbers
    is [Qeq], and there is no NaN or infinity: the properties below are
    stated where no division by zero occurs.  [Math.exp] is
    implementation-approximated in ECMAScript and enters as a function
    [Math_exp : Q -> Q] of the section that needs it.  [undefined] and
    [null] are [None].  Region labels are ASCII strings.

    The normal CDF is embedded a second time over binary64 numbers
    (module [Binary64], primitive floats), for the property that rounding
    decides. *)

From Stdlib Require Import QArith Qround Qminmax Qabs Lqa.
From Stdlib Require Import ZArith Lia Bool List String Ascii.
From Stdlib Require PrimFloat FloatOps SpecFloat.
Import ListNotations.

Open Scope string_scope.
Open Scope Q_scope.

(** ** JavaScript primitives used by the engine *)

Module JS.

(** [x < y] and [x >= y] on numbers. *)
Definition lt (x y : Q) : bool := if Qlt_le_dec x y then true else false.
Definition ge (x y : Q) : bool := negb (lt x y).
Definition gt (x y : Q) : bool := lt y x.
Definition le (x y : Q) : bool := negb (lt y x).

(** [x === 0] on a number. *)
Definition isZero (x : Q) : bool := Qeq_bool x 0.

(** Truthiness of a number that may be [undefined]/[null]: zero is falsy. *)
Definition truthy (o : option Q) : bool :=
  match o with
  | Some x => negb (isZero x)
  | None => false
  end.

(** [o || d] for a number-or-undefined [o]. *)
Definition orElse (o : option Q) (d : Q) : Q :=
  match o with
  | Some x => if isZero x then d else x
  | None => d
  end.

(** [Math.round]: nearest integer, ties towards +infinity. *)
Definition Math_round (x : Q) : Z := Qfloor (x + 0.5).
Definition Math_floor (x : Q) : Z := Qfloor x.
Definition Math_max (x y : Q) : Q := Qmax x y.
Definition Math_min (x y : Q) : Q := Qmin x y.
Definition Math_abs (x : Q) : Q := Qabs x.

(** [Math.sqrt(2)]: the double nearest to the square root of two. *)
Definition Math_sqrt2 : Q := 6369051672525773 # 4503599627370496.

(** [String.prototype.toLowerCase] on ASCII text. *)
Definition lowerChar (c : ascii) : ascii :=
  let n := nat_of_ascii c in
  if (Nat.leb 65 n && Nat.leb n 90)%bool then ascii_of_nat (n + 32) else c.

Fixpoint toLowerCase (s : string) : string :=
  match s with
  | EmptyString => EmptyString
  | String c s' => String (lowerChar c) (toLowerCase s')
  end.

(** [hay.includes(needle)]. *)
Fixpoint includes (hay needle : string) : bool :=
  (String.prefix needle hay ||
   match hay with
   | EmptyString => false
   | String _ hay' => includes hay' needle
   end)%bool.

(** The regular-expression class [\s], on ASCII text. *)
Definition isSpace (c : ascii) : bool :=
  let n := nat_of_ascii c in
  ((Nat.leb 9 n && Nat.leb n 13) || Nat.eqb n 32)%bool.

(** [s.replace(/\s+/g, '-')]: every run of white space becomes one hyphen. *)
Fixpoint hyphenateSpaces (s : string) : string :=
  match s with
  | EmptyString => EmptyString
  | String c s' =>
      if isSpace c then
        match s' with
        | String c' _ =>
            if isSpace c' then hyphenateSpaces s'
            else String "-" (hyphenateSpaces s')
        | EmptyString => String "-" EmptyString
        end
      else String c (hyphenateSpaces s')
  end.

(** [s.replace(/[-_\s]+/g, '')]: hyphens, underscores and white space are
    dropped. *)
Fixpoint dropSeparators (s : string) : string :=
  match s with
  | EmptyString => EmptyString
  | String c s' =>
      if (Ascii.eqb c "-" || Ascii.eqb c "_" || isSpace c)%bool
      then dropSeparators s'
      else String c (dropSeparators s')
  end.

(** [obj[key]] on an object held as its entries, in insertion order. *)
Fixpoint get {A : Type} (obj : list (string * A)) (key : string) : option A :=
  match obj with
  | [] => None
  | (k, v) :: rest => if String.eqb k key then Some v else get rest key
  end.

(** [obj[key] = v]: an existing key keeps its place, a new one is
    appended. *)
Fixpoint set {A : Type} (obj : list (string * A)) (key : string) (v : A)
    : list (string * A) :=
  match obj with
  | [] => [(key, v)]
  | (k, w) :: rest =>
      if String.eqb k key then (k, v) :: rest else (k, w) :: set rest key v
  end.

End JS.

(** ** Reference data *)

Inductive Sex : Type := male | female.

Record Norm : Type := { mean : Q; sd : Q }.

Module ICV_REFERENCE.
Definition mean (s : Sex) : Q :=
  match s with male => 1550000 | female => 1350000 end.
Definition sd (s : Sex) : Q :=
  match s with male => 130000 | female => 110000 end.
End ICV_REFERENCE.

(** [ICV_REGRESSION_COEFFICIENTS]: the slope [b] per region. *)
Definition ICV_REGRESSION_COEFFICIENTS : list (string * Q) :=
  [ ("Hippocampus", 0.0037); ("Thalamus", 0.0082); ("Caudate", 0.0045);
    ("Putamen", 0.0058); ("Pallidum", 0.0019); ("Amygdala", 0.0018);
    ("Accumbens-area", 0.0006); ("Lateral-Ventricle", 0.0085);
    ("Inferior-Lateral-Ventricle", 0.0008);
    ("Cerebral-White-Matter", 0.28); ("Cerebral-Cortex", 0.32);
    ("Cerebellum-Cortex", 0.055); ("Cerebellum-White-Matter", 0.015);
    ("Brain-Stem", 0.012); ("VentralDC", 0.0042) ].

(** An entry of [NORMATIVE_DATA.regions]: means at ages 20, 40, 60, 80 and
    the SD per sex, the inversion flag (absent is false) and the clinical
    significance. *)
Module NormData.
Record t : Type := {
  mean : Sex -> list Q;
  sd : Sex -> Q;
  invertZscore : bool;
  clinicalSignificance : string
}.

Definition make (maleMean femaleMean : list Q) (maleSd femaleSd : Q)
    (invert : bool) (significance : string) : t :=
  {| mean := fun s => match s with male => maleMean | female => femaleMean end;
     sd := fun s => match s with male => maleSd | female => femaleSd end;
     invertZscore := invert;
     clinicalSignificance := significance |}.
End NormData.

Module NORMATIVE_DATA.
Definition regions : list (string * NormData.t) :=
  [ ("Cerebral-White-Matter",
     NormData.make [470000; 460000; 440000; 400000]
       [420000; 410000; 390000; 355000] 45000 40000 false "low");
    ("Cerebral-Cortex",
     NormData.make [520000; 500000; 470000; 420000]
       [470000; 450000; 420000; 380000] 50000 45000 false "medium");
    ("Lateral-Ventricle",
     NormData.make [14000; 18000; 28000; 45000]
       [12000; 15000; 24000; 38000] 8000 7000 true "high");
    ("Inferior-Lateral-Ventricle",
     NormData.make [600; 900; 1500; 2800]
       [500; 750; 1300; 2400] 500 450 true "high");
    ("Cerebellum-White-Matter",
     NormData.make [28000; 27000; 25000; 22000]
       [25000; 24000; 22000; 19000] 3500 3000 false "low");
    ("Cerebellum-Cortex",
     NormData.make [105000; 100000; 92000; 82000]
       [95000; 90000; 83000; 74000] 12000 10000 false "low");
    ("Thalamus",
     NormData.make [16400; 15600; 14400; 12800]
       [14800; 14000; 13000; 11600] 1400 1200 false "medium");
    ("Caudate",
     NormData.make [8000; 7400; 6600; 5600]
       [7200; 6600; 5800; 5000] 900 800 false "medium");
    ("Putamen",
     NormData.make [11600; 10800; 9600; 8200]
       [10400; 9600; 8600; 7400] 1100 1000 false "medium");
    ("Pallidum",
     NormData.make [3800; 3600; 3300; 2900]
       [3400; 3200; 2900; 2560] 380 340 false "medium");
    ("Hippocampus",
     NormData.make [8600; 8200; 7400; 6400]
       [7800; 7400; 6700; 5800] 700 650 false "critical");
    ("Amygdala",
     NormData.make [3400; 3240; 2960; 2600]
       [3100; 2940; 2700; 2360] 360 320 false "high");
    ("Accumbens-area",
     NormData.make [1200; 1120; 980; 820]
       [1080; 1000; 880; 740] 160 140 false "low");
    ("Brain-Stem",
     NormData.make [22000; 21500; 20500; 19000]
       [19500; 19000; 18000; 16700] 2200 2000 false "low");
    ("VentralDC",
     NormData.make [8400; 8000; 7400; 6600]
       [7600; 7200; 6600; 6000] 800 700 false "low");
    ("3rd-Ventricle",
     NormData.make [800; 1000; 1400; 2000]
       [700; 900; 1200; 1700] 350 300 true "medium");
    ("4th-Ventricle",
     NormData.make [1400; 1500; 1700; 2000]
       [1200; 1300; 1500; 1800] 500 450 true "low") ].
End NORMATIVE_DATA.

Module BPF_NORMATIVE.
Definition byAge (decade : Z) : option Norm :=
  match decade with
  | 20%Z => Some {| mean := 0.88; sd := 0.03 |}
  | 30%Z => Some {| mean := 0.86; sd := 0.03 |}
  | 40%Z => Some {| mean := 0.84; sd := 0.03 |}
  | 50%Z => Some {| mean := 0.82; sd := 0.04 |}
  | 60%Z => Some {| mean := 0.79; sd := 0.04 |}
  | 70%Z => Some {| mean := 0.76; sd := 0.05 |}
  | 80%Z => Some {| mean := 0.72; sd := 0.05 |}
  | _ => None
  end.
Definition thresholds_normal : Q := -1.0.
Definition thresholds_mild : Q := -1.5.
Definition thresholds_moderate : Q := -2.0.
Definition thresholds_severe : Q := -2.5.
End BPF_NORMATIVE.

Module HOC_NORMATIVE.
Definition byAge (decade : Z) : option Norm :=
  match decade with
  | 50%Z => Some {| mean := 0.92; sd := 0.04 |}
  | 60%Z => Some {| mean := 0.88; sd := 0.05 |}
  | 70%Z => Some {| mean := 0.82; sd := 0.06 |}
  | 80%Z => Some {| mean := 0.75; sd := 0.08 |}
  | _ => None
  end.

Record Band : Type := { min : Q; label : string; description : string }.
Record Risk : Type := { risk : string; conversionRate : string }.

Module interpretation.
Definition normal : Band :=
  {| min := 0.80; label := "Normal";
     description := "No significant medial temporal atrophy" |}.
Definition mild : Band :=
  {| min := 0.70; label := "Mild";
     description := "Mild medial temporal atrophy" |}.
Definition moderate : Band :=
  {| min := 0.60; label := "Moderate";
     description := "Moderate medial temporal atrophy - consider MCI" |}.
(** The severe band has no [min]; the field is never read. *)
Definition severe : Band :=
  {| min := 0; label := "Severe";
     description := "Severe medial temporal atrophy - consistent with AD" |}.
End interpretation.

Module conversionRisk.
Definition low : Risk :=
  {| risk := "Low"; conversionRate := "~10% at 3 years" |}.
Definition moderate : Risk :=
  {| risk := "Moderate"; conversionRate := "~25% at 3 years" |}.
Definition high : Risk :=
  {| risk := "High"; conversionRate := "~50% at 3 years" |}.
Definition veryHigh : Risk :=
  {| risk := "Very High"; conversionRate := "~75% at 3 years" |}.
End conversionRisk.
End HOC_NORMATIVE.

(** ** Result records *)

(** The object [calculateBPF] returns. *)
Module BPF.
Record t : Type := {
  value : Q;
  zscore : Q;
  percentile : Z;
  interpretation : string;
  expected : Q;
  brainVolume : Q;
  icv : Q
}.
End BPF.

(** The object [calculateHOC] returns; a field the object does not carry
    is [None]. *)
Module HOC.
Record t : Type := {
  value : option Q;
  zscore : option Q;
  percentile : option Z;
  interpretation : string;
  description : option string;
  conversionRisk : option string;
  conversionRate : option string;
  hippoVolume : option Q;
  ilvVolume : option Q;
  expected : option Q
}.
End HOC.

(** A [VolumeObservation]: region label to volume in mm3, as the entries of
    the JavaScript object in insertion order. *)
Definition Volumes : Type := list (string * Q).

(** ** ICV estimation and normalisation *)

(** The age decade of the normative tables:
    [Math.min(80, Math.max(lo, Math.round(age / 10) * 10))]. *)
Definition ageDecade (lo : Z) (age : Q) : Z :=
  Z.min 80 (Z.max lo (JS.Math_round (age / 10) * 10)).

(** The loop of [estimateICV] over [Object.entries(volumes)]; the state is
    [(brainVolume, ventricleVolume)]. *)
Definition accumulateVolumes (volumes : Volumes) : Q * Q :=
  fold_left
    (fun (acc : Q * Q) (entry : string * Q) =>
       let '(brainVolume, ventricleVolume) := acc in
       let '(region, volume) := entry in
       if JS.includes (JS.toLowerCase region) "ventricle"
       then (brainVolume, ventricleVolume + volume)
       else (brainVolume + volume, ventricleVolume))
    volumes (0, 0).

Definition estimateICV (volumes : Volumes) (age : Q) (sex : Sex) : Z :=
  let '(brainVolume, ventricleVolume) := accumulateVolumes volumes in
  let segmentedTotal := brainVolume + ventricleVolume in
  let expectedBPF :=
    JS.orElse (option_map mean (BPF_NORMATIVE.byAge (ageDecade 20 age))) 0.76 in
  let icvFromBPF := brainVolume / expectedBPF in
  let anatomicalScaleFactor := 1.12 in
  let icvFromAnatomical := segmentedTotal * anatomicalScaleFactor in
  let refICV := ICV_REFERENCE.mean sex in
  let refSD := ICV_REFERENCE.sd sex in
  let estimatedICV := icvFromBPF in
  let minICV := refICV - 3 * refSD in
  let maxICV := refICV + 3 * refSD in
  let estimatedICV :=
    if (JS.lt estimatedICV minICV || JS.gt estimatedICV maxICV)%bool
    then (icvFromBPF + icvFromAnatomical) / 2
    else estimatedICV in
  let estimatedICV := JS.Math_max estimatedICV (segmentedTotal * 1.05) in
  let estimatedICV := JS.Math_min estimatedICV maxICV in
  let estimatedICV := JS.Math_max estimatedICV minICV in
  JS.Math_round estimatedICV.

Definition applyICVNormalization (volume : Q) (region : string) (icv : Q)
    (sex : Sex) : Q :=
  match JS.get ICV_REGRESSION_COEFFICIENTS region with
  | None => volume
  | Some b =>
      let icvMean := ICV_REFERENCE.mean sex in
      let adjustedVolume := volume - b * (icv - icvMean) in
      JS.Math_max 0 adjustedVolume
  end.

(** ** Region lookup, age interpolation and z-scores *)

Definition getAgeAdjustedSD (baseSd age : Q) : Q :=
  let ageFactor := if JS.gt age 50 then 1 + (age - 50) / 100 * 0.1 else 1 in
  baseSd * ageFactor.

(** [while (i < 3 && ages[i + 1] < age) i++]; the loop runs at most three
    times. *)
Fixpoint bracket (fuel : nat) (ages : list Q) (age : Q) (i : nat) : nat :=
  match fuel with
  | O => i
  | S fuel' =>
      if ((i <? 3)%nat && JS.lt (nth (i + 1) ages 0) age)%bool
      then bracket fuel' ages age (i + 1)%nat
      else i
  end.

Definition interpolateByAge (ageValues : list Q) (age : Q) : Q :=
  let ages := [20; 40; 60; 80] in
  if JS.le age 20 then nth 0 ageValues 0
  else if JS.ge age 80 then nth 3 ageValues 0
  else
    let i := bracket 3 ages age 0 in
    let t := (age - nth i ages 0) / (nth (i + 1) ages 0 - nth i ages 0) in
    nth i ageValues 0 + t * (nth (i + 1) ageValues 0 - nth i ageValues 0).

(** The alias table of [findNormativeData]. *)
Definition aliases : list (string * string) :=
  [ ("accumbens", "Accumbens-area");
    ("nucleusaccumbens", "Accumbens-area");
    ("ventraldc", "VentralDC");
    ("ventraldiencephalon", "VentralDC");
    ("brainstem", "Brain-Stem");
    ("inflatventricle", "Inferior-Lateral-Ventricle");
    ("inferiorlateralventricle", "Inferior-Lateral-Ventricle");
    ("lateralventricle", "Lateral-Ventricle");
    ("cerebralwhitematter", "Cerebral-White-Matter");
    ("cerebralcortex", "Cerebral-Cortex");
    ("cerebellumwhitematter", "Cerebellum-White-Matter");
    ("cerebellumcortex", "Cerebellum-Cortex");
    ("3rdventricle", "3rd-Ventricle");
    ("thirdventricle", "3rd-Ventricle");
    ("4thventricle", "4th-Ventricle");
    ("fourthventricle", "4th-Ventricle") ].

(** The normative entry for a region label and the key it matched:
    exact key, then white space turned into hyphens, then the first key
    that equals, contains or is contained in the label once case and
    separators are dropped, then the alias table. *)
Definition findNormativeData (regionName : string)
    : option (NormData.t * string) :=
  match JS.get NORMATIVE_DATA.regions regionName with
  | Some data => Some (data, regionName)
  | None =>
      let normalizedName := JS.hyphenateSpaces regionName in
      match JS.get NORMATIVE_DATA.regions normalizedName with
      | Some data => Some (data, normalizedName)
      | None =>
          let lowerName := JS.dropSeparators (JS.toLowerCase regionName) in
          match
            find
              (fun entry : string * NormData.t =>
                 let lowerKey :=
                   JS.dropSeparators (JS.toLowerCase (fst entry)) in
                 (String.eqb lowerName lowerKey ||
                  JS.includes lowerName lowerKey ||
                  JS.includes lowerKey lowerName)%bool)
              NORMATIVE_DATA.regions
          with
          | Some (key, data) => Some (data, key)
          | None =>
              let aliasKey := JS.dropSeparators lowerName in
              match JS.get aliases aliasKey with
              | Some key =>
                  match JS.get NORMATIVE_DATA.regions key with
                  | Some data => Some (data, key)
                  | None => None
                  end
              | None => None
              end
          end
      end
  end.

(** ** Z-score interpretation and the normal CDF *)

Definition interpretZScore (zscore : Q) (invertZscore : bool) : string :=
  let effectiveZ := if invertZscore then - zscore else zscore in
  if JS.ge effectiveZ (-1.0) then "normal"
  else if JS.ge effectiveZ (-1.5) then "low-normal"
  else if JS.ge effectiveZ (-2.0) then "mild"
  else if JS.ge effectiveZ (-2.5) then "moderate"
  else "severe".

Section Engine.

(** [Math.exp], as the host implements it. *)
Variable Math_exp : Q -> Q.

Definition normalCDF (z : Q) : Q :=
  let a1 := 0.254829592 in
  let a2 := -0.284496736 in
  let a3 := 1.421413741 in
  let a4 := -1.453152027 in
  let a5 := 1.061405429 in
  let p := 0.3275911 in
  let sign := if JS.lt z 0 then -1 else 1 in
  let z := JS.Math_abs z / JS.Math_sqrt2 in
  let t := 1.0 / (1.0 + p * z) in
  let y := 1.0 - (((((a5 * t + a4) * t) + a3) * t + a2) * t + a1) * t
                 * Math_exp (- z * z) in
  0.5 * (1.0 + sign * y).

(** ** Biomarkers *)

Definition calculateBPF (volumes : Volumes) (icv : Q) (age : Q) : BPF.t :=
  let brainVolume :=
    fold_left
      (fun (brainVolume : Q) (entry : string * Q) =>
         let '(region, volume) := entry in
         if negb (JS.includes (JS.toLowerCase region) "ventricle")
         then brainVolume + volume else brainVolume)
      volumes 0 in
  let bpf := brainVolume / icv in
  let normative :=
    match BPF_NORMATIVE.byAge (ageDecade 20 age) with
    | Some n => n
    | None => {| mean := 0.76; sd := 0.05 |}
    end in
  let zscore := (bpf - mean normative) / sd normative in
  let percentile := JS.Math_round (normalCDF zscore * 100) in
  let interpretation :=
    if JS.ge zscore BPF_NORMATIVE.thresholds_normal then "Normal"
    else if JS.ge zscore BPF_NORMATIVE.thresholds_mild then "Low-Normal"
    else if JS.ge zscore BPF_NORMATIVE.thresholds_moderate then "Mild Atrophy"
    else if JS.ge zscore BPF_NORMATIVE.thresholds_severe
         then "Moderate Atrophy"
    else "Severe Atrophy" in
  {| BPF.value := inject_Z (JS.Math_round (bpf * 1000)) / 1000;
     BPF.zscore := inject_Z (JS.Math_round (zscore * 100)) / 100;
     BPF.percentile := percentile;
     BPF.interpretation := interpretation;
     BPF.expected := mean normative;
     BPF.brainVolume := brainVolume;
     BPF.icv := icv |}.

Definition calculateHOC (volumes : Volumes) (age : Q) : HOC.t :=
  let hippoVol := JS.orElse (JS.get volumes "Hippocampus") 0 in
  let ilvVol := JS.orElse (JS.get volumes "Inferior-Lateral-Ventricle") 0 in
  if JS.isZero hippoVol then
    {| HOC.value := None;
       HOC.zscore := None;
       HOC.percentile := None;
       HOC.interpretation :=
         "Unable to calculate - hippocampus not segmented";
       HOC.description := None;
       HOC.conversionRisk := None;
       HOC.conversionRate := None;
       HOC.hippoVolume := None;
       HOC.ilvVolume := None;
       HOC.expected := None |}
  else
    let hoc := hippoVol / (hippoVol + ilvVol) in
    let normative :=
      match HOC_NORMATIVE.byAge (ageDecade 50 age) with
      | Some n => n
      | None => {| mean := 0.82; sd := 0.06 |}
      end in
    let zscore := (hoc - mean normative) / sd normative in
    let percentile := JS.Math_round (normalCDF zscore * 100) in
    let '(interpretation, conversionRisk) :=
      if JS.ge hoc (HOC_NORMATIVE.min HOC_NORMATIVE.interpretation.normal)
      then (HOC_NORMATIVE.interpretation.normal,
            HOC_NORMATIVE.conversionRisk.low)
      else if JS.ge hoc (HOC_NORMATIVE.min HOC_NORMATIVE.interpretation.mild)
      then (HOC_NORMATIVE.interpretation.mild,
            HOC_NORMATIVE.conversionRisk.moderate)
      else if JS.ge hoc
                (HOC_NORMATIVE.min HOC_NORMATIVE.interpretation.moderate)
      then (HOC_NORMATIVE.interpretation.moderate,
            HOC_NORMATIVE.conversionRisk.high)
      else (HOC_NORMATIVE.interpretation.severe,
            HOC_NORMATIVE.conversionRisk.veryHigh) in
    {| HOC.value := Some (inject_Z (JS.Math_round (hoc * 1000)) / 1000);
       HOC.zscore := Some (inject_Z (JS.Math_round (zscore * 100)) / 100);
       HOC.percentile := Some percentile;
       HOC.interpretation := HOC_NORMATIVE.label interpretation;
       HOC.description := Some (HOC_NORMATIVE.description interpretation);
       HOC.conversionRisk := Some (HOC_NORMATIVE.risk conversionRisk);
       HOC.conversionRate :=
         Some (HOC_NORMATIVE.conversionRate conversionRisk);
       HOC.hippoVolume := Some hippoVol;
       HOC.ilvVolume := Some ilvVol;
       HOC.expected := Some (mean normative) |}.

End Engine.

(** ** The normal CDF over binary64 *)

Module Binary64.
Import PrimFloat FloatOps SpecFloat.
#[local] Set Warnings "-inexact-float".

Section Host.

(** [Math.exp] on doubles, as the host implements it. *)
Variable Math_exp : float -> float.

(** [normalCDF] with every operation rounded to binary64, as the engine
    evaluates it; a decimal literal denotes the nearest double, as in the
    source. *)
Definition normalCDF (z : float) : float :=
  (let a1 := 0.254829592 in
   let a2 := -0.284496736 in
   let a3 := 1.421413741 in
   let a4 := -1.453152027 in
   let a5 := 1.061405429 in
   let p := 0.3275911 in
   let sign := if z <? 0 then -1 else 1 in
   let z := abs z / sqrt 2 in
   let t := 1.0 / (1.0 + p * z) in
   let y := 1.0 - (((((a5 * t + a4) * t) + a3) * t + a2) * t + a1) * t
                  * Math_exp (- z * z) in
   0.5 * (1.0 + sign * y))%float.

End Host.

(** A host whose [Math.exp] rounds correctly.  The exponential is summed
    in fixed point with [bits] fractional bits, far more than a double
    holds: the argument is halved [k] times to at most 1/2 in size, 50
    terms of the series are added, and the sum is squared [k] times; the
    result is rounded to the nearest double. *)

(** [term + term * r / i + ...]: the series [1 + r + r^2/2! + ...]
    started from [term = 1] and [i = 1]. *)
Fixpoint series (terms : nat) (bits r term i : Z) : Z :=
  match terms with
  | O => 0%Z
  | S terms' =>
      (term + series terms' bits r (Z.shiftr (term * r) bits / i) (i + 1))%Z
  end.

Fixpoint squarings (k : nat) (bits s : Z) : Z :=
  match k with
  | O => s
  | S k' => squarings k' bits (Z.shiftr (s * s) bits)
  end.

(** The exponential of [m * 2^e], rounded to the nearest double. *)
Definition exp_fixed (m e : Z) : float :=
  let magnitude := (Z.shiftl (Z.abs m) e + 1)%Z in
  let bits := (256 + Z.max 0 (- e) + 2 * magnitude)%Z in
  let k := (Z.log2_up magnitude + 1)%Z in
  let r := Z.shiftr (Z.shiftl m (bits + e)) k in
  let s :=
    squarings (Z.to_nat k) bits (series 50 bits r (Z.shiftl 1 bits) 1) in
  SF2Prim (binary_normalize prec emax s (- bits) false).

Definition Math_exp (x : float) : float :=
  match Prim2SF x with
  | S754_nan => nan
  | S754_infinity false => infinity
  | S754_infinity true => zero
  | S754_zero _ => one
  | S754_finite s m e =>
      if (710 <? x)%float then infinity
      else if (x <? -746)%float then zero
      else exp_fixed (if s then Zneg m else Zpos m) e
  end.

End Binary64.

(** ** Standardized scales: the MTA score *)

Module STANDARDIZED_SCALES.
Module MTA.
Definition reference : string := "Scheltens Scale".

(** [scores[k]]: label and description. *)
Definition scores (k : Z) : option (string * string) :=
  match k with
  | 0%Z => Some ("Normal",
      "No visible CSF around hippocampus, normal hippocampal height")
  | 1%Z => Some ("Minimal",
      "Slight widening of choroidal fissure, normal hippocampus")
  | 2%Z => Some ("Mild",
      "Mild temporal horn enlargement, mild hippocampal height loss")
  | 3%Z => Some ("Moderate",
      "Moderate temporal horn enlargement, moderate hippocampal atrophy")
  | 4%Z => Some ("Severe",
      "Marked temporal horn enlargement, severe hippocampal atrophy")
  | _ => None
  end.

(** [Object.entries(ageThresholds)] sorted by key: integer keys already
    come out ascending, so the sort leaves them as listed. *)
Definition ageThresholds : list (Z * Q) :=
  [ (65%Z, 1.0); (75%Z, 1.5); (85%Z, 2.0); (100%Z, 2.5) ].

(** [maxRatio] and [score]; [None] is [Infinity]. *)
Definition qmtaToScore : list (option Q * Q) :=
  [ (Some 0.10, 0); (Some 0.20, 1); (Some 0.35, 2); (Some 0.55, 3);
    (None, 4) ].

(** [minZ] and [score]; [None] is [-Infinity]. *)
Definition zscoreToScore : list (option Q * Q) :=
  [ (Some (-0.5), 0); (Some (-1.0), 1); (Some (-1.5), 2);
    (Some (-2.0), 3); (None, 4) ].
End MTA.
End STANDARDIZED_SCALES.

(** [for (const e of table) { if (test(e)) { x = pick(e); break; } }]
    started with [x = init]. *)
Fixpoint forBreak {A B : Type} (test : A -> bool) (pick : A -> B)
    (table : list A) (init : B) : B :=
  match table with
  | [] => init
  | e :: rest => if test e then pick e else forBreak test pick rest init
  end.

(** The object [calculateMTAScore] returns. *)
Module MTAResult.
Record t : Type := {
  score : Q;
  maxScore : Q;
  label : string;
  description : string;
  qmtaRatio : Q;
  mtaFromRatio : Q;
  mtaFromZscore : Q;
  ageThreshold : Q;
  isAbnormal : bool;
  interpretation : string;
  reference : string
}.
End MTAResult.

Definition calculateMTAScore (volumes : Volumes) (hippoZscore : option Q)
    (age : Q) : MTAResult.t :=
  let hippoVol := JS.orElse (JS.get volumes "Hippocampus") 0 in
  let ilvVol := JS.orElse (JS.get volumes "Inferior-Lateral-Ventricle") 0 in
  let '(qmtaRatio, mtaFromRatio) :=
    if JS.gt hippoVol 0 then
      let qmtaRatio := ilvVol / hippoVol in
      (qmtaRatio,
       forBreak
         (fun threshold : option Q * Q =>
            match fst threshold with
            | Some maxRatio => JS.le qmtaRatio maxRatio
            | None => true
            end)
         snd STANDARDIZED_SCALES.MTA.qmtaToScore 0)
    else (0, 0) in
  let mtaFromZscore :=
    match hippoZscore with
    | Some hippoZscore =>
        forBreak
          (fun threshold : option Q * Q =>
             match fst threshold with
             | Some minZ => JS.ge hippoZscore minZ
             | None => true
             end)
          snd STANDARDIZED_SCALES.MTA.zscoreToScore 0
    | None => 0
    end in
  let mtaScore :=
    inject_Z (JS.Math_round ((mtaFromRatio + mtaFromZscore) / 2 * 2)) / 2 in
  let ageThreshold :=
    forBreak
      (fun entry : Z * Q => JS.lt age (inject_Z (fst entry)))
      snd STANDARDIZED_SCALES.MTA.ageThresholds 2.0 in
  let isAbnormal := JS.gt mtaScore ageThreshold in
  let scoreInfo :=
    match STANDARDIZED_SCALES.MTA.scores (JS.Math_floor mtaScore) with
    | Some info => Some info
    | None => STANDARDIZED_SCALES.MTA.scores (JS.Math_round mtaScore)
    end in
  {| MTAResult.score := mtaScore;
     MTAResult.maxScore := 4;
     MTAResult.label :=
       match scoreInfo with Some info => fst info | None => "Unknown" end;
     MTAResult.description :=
       match scoreInfo with Some info => snd info | None => EmptyString end;
     MTAResult.qmtaRatio := inject_Z (JS.Math_round (qmtaRatio * 100)) / 100;
     MTAResult.mtaFromRatio := mtaFromRatio;
     MTAResult.mtaFromZscore := mtaFromZscore;
     MTAResult.ageThreshold := ageThreshold;
     MTAResult.isAbnormal := isAbnormal;
     MTAResult.interpretation :=
       if isAbnormal then "Abnormal for age" else "Normal for age";
     MTAResult.reference := STANDARDIZED_SCALES.MTA.reference |}.

(** ** Analysis results, as far as pattern detection and the risk verdict
    read them *)

(** An entry of [analysisResults.regions]. *)
Module Region.
Record t : Type := {
  zscore : Q;
  effectiveZscore : Q;
  interpretation : string
}.
End Region.

Module Results.
Record t : Type := {
  regions : list (string * Region.t);
  hoc : option HOC.t;
  bpf : option BPF.t
}.
End Results.

(** An entry of the list [detectClinicalPatterns] returns. *)
Module Pattern.
Record t : Type := {
  pattern : string;
  confidence : string;
  indicators : list string;
  recommendation : string
}.
End Pattern.

Module CLINICAL_PATTERNS.
Definition alzheimerDisease_name : string := "Alzheimer's Disease Pattern".
Definition frontotemporalDementia_name : string :=
  "Frontotemporal Dementia Pattern".
Definition normalAging_name : string := "Normal Aging Pattern".
Definition vascularDementia_name : string := "Vascular Dementia Pattern".
End CLINICAL_PATTERNS.

(** [x !== undefined && test(x)] (also [x !== null && test(x)]). *)
Definition definedAnd (x : option Q) (test : Q -> bool) : bool :=
  match x with Some v => test v | None => false end.

(** [x && test(x)]: a zero [x] is falsy. *)
Definition truthyAnd (x : option Q) (test : Q -> bool) : bool :=
  (JS.truthy x && definedAnd x test)%bool.

(** [!x || test(x)]. *)
Definition falsyOr (x : option Q) (test : Q -> bool) : bool :=
  (negb (JS.truthy x) || definedAnd x test)%bool.

Definition earlyMCI_name : string :=
  "Early MCI / Subtle Medial Temporal Changes".

(** [results.regions[name]?.effectiveZscore], [results.regions[name]?.zscore],
    [results.hoc?.value] and [results.bpf?.zscore]. *)
Definition effectiveZscoreOf (results : Results.t) (name : string) : option Q :=
  option_map Region.effectiveZscore (JS.get (Results.regions results) name).

Definition zscoreOf (results : Results.t) (name : string) : option Q :=
  option_map Region.zscore (JS.get (Results.regions results) name).

Definition hocValueOf (results : Results.t) : option Q :=
  match Results.hoc results with Some h => HOC.value h | None => None end.

Definition bpfZscoreOf (results : Results.t) : option Q :=
  option_map BPF.zscore (Results.bpf results).

(** The [if] statements of [detectClinicalPatterns], one definition each,
    in source order; each takes the [patterns] array built so far. *)

(** Alzheimer's disease pattern. *)
Definition alzheimerBlock (results : Results.t) (patterns : list Pattern.t)
    : list Pattern.t :=
  let hippoZ := effectiveZscoreOf results "Hippocampus" in
  let amygZ := effectiveZscoreOf results "Amygdala" in
  let hoc := hocValueOf results in
  if definedAnd hippoZ (fun z => JS.lt z (-1.5)) then
    let '(adScore, adIndicators) := (0%nat, @nil string) in
    let '(adScore, adIndicators) :=
      if definedAnd hippoZ (fun z => JS.lt z (-2.0))
      then ((adScore + 3)%nat,
            (adIndicators ++ ["significant hippocampal atrophy"])%list)
      else if definedAnd hippoZ (fun z => JS.lt z (-1.5))
      then ((adScore + 2)%nat,
            (adIndicators ++ ["mild hippocampal atrophy"])%list)
      else (adScore, adIndicators) in
    let '(adScore, adIndicators) :=
      if truthyAnd hoc (fun h => JS.lt h 0.75)
      then ((adScore + 2)%nat, (adIndicators ++ ["low HOC score"])%list)
      else (adScore, adIndicators) in
    let '(adScore, adIndicators) :=
      if truthyAnd amygZ (fun z => JS.lt z (-1.5))
      then ((adScore + 1)%nat, (adIndicators ++ ["amygdala atrophy"])%list)
      else (adScore, adIndicators) in
    if (3 <=? adScore)%nat then
      (patterns ++
       [ {| Pattern.pattern := CLINICAL_PATTERNS.alzheimerDisease_name;
            Pattern.confidence :=
              if (5 <=? adScore)%nat then "High" else "Moderate";
            Pattern.indicators := adIndicators;
            Pattern.recommendation :=
              "Consider clinical correlation for Alzheimer's disease. Recommend neuropsychological testing if not already performed." |} ])%list
    else patterns
  else patterns.

(** Frontotemporal pattern. *)
Definition frontotemporalBlock (results : Results.t)
    (patterns : list Pattern.t) : list Pattern.t :=
  let hippoZ := effectiveZscoreOf results "Hippocampus" in
  let caudateZ := effectiveZscoreOf results "Caudate" in
  if truthyAnd caudateZ
       (fun c => JS.lt c (-2.0) &&
                 falsyOr hippoZ (fun h => JS.gt h (c + 0.5)))%bool
  then
    (patterns ++
     [ {| Pattern.pattern := CLINICAL_PATTERNS.frontotemporalDementia_name;
          Pattern.confidence := "Low-Moderate";
          Pattern.indicators :=
            ["caudate atrophy exceeds hippocampal atrophy"];
          Pattern.recommendation :=
            "Pattern may suggest frontotemporal involvement. Consider behavioral assessment." |} ])%list
  else patterns.

(** Vascular pattern. *)
Definition vascularBlock (results : Results.t) (patterns : list Pattern.t)
    : list Pattern.t :=
  let wmZ := effectiveZscoreOf results "Cerebral-White-Matter" in
  if truthyAnd wmZ (fun z => JS.lt z (-2.0)) then
    (patterns ++
     [ {| Pattern.pattern := CLINICAL_PATTERNS.vascularDementia_name;
          Pattern.confidence := "Moderate";
          Pattern.indicators := ["significant white matter volume loss"];
          Pattern.recommendation :=
            "White matter atrophy detected. Consider vascular risk factors and MRA if not performed." |} ])%list
  else patterns.

(** Early MCI / subtle medial temporal changes. *)
Definition earlyMCIBlock (results : Results.t) (patterns : list Pattern.t)
    : list Pattern.t :=
  let hippoZ := effectiveZscoreOf results "Hippocampus" in
  let hoc := hocValueOf results in
  if (truthyAnd hoc (fun h => JS.lt h 0.80) &&
      falsyOr hippoZ (fun z => JS.ge z (-1.5)))%bool
  then
    let '(mciIndicators, confidence) := (@nil string, "Low-Moderate") in
    let '(mciIndicators, confidence) :=
      if definedAnd hoc (fun h => JS.lt h 0.70)
      then ((mciIndicators ++ ["moderate HOC reduction"])%list, "Moderate")
      else if definedAnd hoc (fun h => JS.lt h 0.75)
      then ((mciIndicators ++ ["mild-moderate HOC reduction"])%list,
            "Low-Moderate")
      else ((mciIndicators ++ ["mild HOC reduction"])%list, "Low") in
    let ilvZ := zscoreOf results "Inferior-Lateral-Ventricle" in
    let '(mciIndicators, confidence) :=
      if truthyAnd ilvZ (fun z => JS.gt z 0.5)
      then ((mciIndicators ++ ["temporal horn enlargement"])%list,
            if String.eqb confidence "Low" then "Low-Moderate"
            else "Moderate")
      else (mciIndicators, confidence) in
    (patterns ++
     [ {| Pattern.pattern := earlyMCI_name;
          Pattern.confidence := confidence;
          Pattern.indicators := mciIndicators;
          Pattern.recommendation :=
            "HOC indicates subtle medial temporal changes despite preserved hippocampal volume. Consider neuropsychological testing to evaluate for early MCI. Follow-up imaging in 12-18 months may be informative." |} ])%list
  else patterns.

(** Normal aging, when nothing else was detected and HOC is normal. *)
Definition normalAgingBlock (results : Results.t) (patterns : list Pattern.t)
    : list Pattern.t :=
  let hippoZ := effectiveZscoreOf results "Hippocampus" in
  let hoc := hocValueOf results in
  let bpfZ := bpfZscoreOf results in
  if ((List.length patterns =? 0)%nat &&
      truthyAnd bpfZ (fun z => JS.ge z (-1.5)) &&
      falsyOr hippoZ (fun z => JS.ge z (-1.5)) &&
      falsyOr hoc (fun h => JS.ge h 0.80))%bool
  then
    (patterns ++
     [ {| Pattern.pattern := CLINICAL_PATTERNS.normalAging_name;
          Pattern.confidence := "High";
          Pattern.indicators := ["volumes within expected range for age"];
          Pattern.recommendation :=
            "Findings consistent with normal age-related changes." |} ])%list
  else patterns.

(** Normal aging with the cautionary note, when still nothing was added. *)
Definition cautionaryBlock (patterns : list Pattern.t) : list Pattern.t :=
  if (List.length patterns =? 0)%nat then
    (patterns ++
     [ {| Pattern.pattern := CLINICAL_PATTERNS.normalAging_name;
          Pattern.confidence := "Moderate";
          Pattern.indicators := ["volumes largely within expected range"];
          Pattern.recommendation :=
            "Overall volumes appear normal. Continue routine monitoring." |} ])%list
  else patterns.

Definition detectClinicalPatterns (results : Results.t) : list Pattern.t :=
  let patterns : list Pattern.t := [] in
  let patterns := alzheimerBlock results patterns in
  let patterns := frontotemporalBlock results patterns in
  let patterns := vascularBlock results patterns in
  let patterns := earlyMCIBlock results patterns in
  let patterns := normalAgingBlock results patterns in
  let patterns := cautionaryBlock patterns in
  patterns.

(** ** The atrophy-risk verdict of [analyzeAtrophy] (steps 3 and 4) *)

(** A region for which [findNormativeData] resolved, with the z-score the
    loop computed for it, rounded to two decimals, and the [invertZscore]
    flag of its normative entry. *)
Record ScoredRegion : Type := {
  region : string;
  roundedZscore : Q;
  invertZscore : bool
}.

(** The first half of the loop body: normalisation and z-score of one
    entry of [regionVolumes]; [None] when no normative data is found. *)
Definition scoreRegion (age : Q) (sex : Sex) (estimatedICV : Q)
    (entry : string * Q) : option ScoredRegion :=
  let '(region, volume) := entry in
  match findNormativeData region with
  | None => None
  | Some (normData, _) =>
      let normalizedVolume :=
        applyICVNormalization volume region estimatedICV sex in
      let baseSd := NormData.sd normData sex in
      let adjustedSd := getAgeAdjustedSD baseSd age in
      let expectedMean := interpolateByAge (NormData.mean normData sex) age in
      let zscore := (normalizedVolume - expectedMean) / adjustedSd in
      let roundedZscore := inject_Z (JS.Math_round (zscore * 100)) / 100 in
      Some {| region := region;
              roundedZscore := roundedZscore;
              invertZscore := NormData.invertZscore normData |}
  end.

(** The regions that resolve, in entry order. *)
Definition scoredRegions (regionVolumes : Volumes) (age : Q) (sex : Sex)
    (estimatedICV : Q) : list ScoredRegion :=
  flat_map
    (fun entry =>
       match scoreRegion age sex estimatedICV entry with
       | Some r => [r]
       | None => []
       end)
    regionVolumes.

(** The variables the region loop updates. *)
Module Loop.
Record t : Type := {
  regions : list (string * Region.t);
  criticalAtrophyCount : nat;
  moderateAtrophyCount : nat;
  mildAtrophyCount : nat;
  hippocampusZscore : option Q
}.

Definition init : t :=
  {| regions := [];
     criticalAtrophyCount := 0;
     moderateAtrophyCount := 0;
     mildAtrophyCount := 0;
     hippocampusZscore := None |}.
End Loop.

(** The second half of the loop body, for a region that resolved: the
    entry of [analysisResults.regions], the hippocampal z-score and the
    severity counters. *)
Definition regionStep (st : Loop.t) (r : ScoredRegion) : Loop.t :=
  let interpretation := interpretZScore (roundedZscore r) (invertZscore r) in
  let effectiveZ :=
    if invertZscore r then - roundedZscore r else roundedZscore r in
  let regions :=
    JS.set (Loop.regions st) (region r)
      {| Region.zscore := roundedZscore r;
         Region.effectiveZscore :=
           inject_Z (JS.Math_round (effectiveZ * 100)) / 100;
         Region.interpretation := interpretation |} in
  let hippocampusZscore :=
    if JS.includes (JS.toLowerCase (region r)) "hippocampus"
    then Some effectiveZ else Loop.hippocampusZscore st in
  let critical := Loop.criticalAtrophyCount st in
  let moderate := Loop.moderateAtrophyCount st in
  let mild := Loop.mildAtrophyCount st in
  let '(critical, moderate, mild) :=
    if JS.lt effectiveZ (-2.5) then (S critical, moderate, mild)
    else if JS.lt effectiveZ (-2.0) then (critical, S moderate, mild)
    else if JS.lt effectiveZ (-1.5) then (critical, moderate, S mild)
    else (critical, moderate, mild) in
  {| Loop.regions := regions;
     Loop.criticalAtrophyCount := critical;
     Loop.moderateAtrophyCount := moderate;
     Loop.mildAtrophyCount := mild;
     Loop.hippocampusZscore := hippocampusZscore |}.

Definition regionLoop (scored : list ScoredRegion) : Loop.t :=
  fold_left regionStep scored Loop.init.

(** The loop of step 3 over [Object.entries(regionVolumes)]. *)
Definition analyzeRegions (regionVolumes : Volumes) (age : Q) (sex : Sex)
    (estimatedICV : Q) : Loop.t :=
  fold_left
    (fun st entry =>
       match scoreRegion age sex estimatedICV entry with
       | Some r => regionStep st r
       | None => st
       end)
    regionVolumes Loop.init.

(** Step 4: [(atrophyRisk, riskDescription)]. *)
Definition atrophyRisk (st : Loop.t) (hocValue bpfZscore : option Q)
    : string * string :=
  let criticalAtrophyCount := Loop.criticalAtrophyCount st in
  let moderateAtrophyCount := Loop.moderateAtrophyCount st in
  let mildAtrophyCount := Loop.mildAtrophyCount st in
  let hippocampusZscore := Loop.hippocampusZscore st in
  if ((2 <=? criticalAtrophyCount)%nat ||
      definedAnd hippocampusZscore (fun z => JS.lt z (-2.5)) ||
      truthyAnd hocValue (fun h => JS.lt h 0.60))%bool
  then ("High",
        "Significant atrophy detected - clinical correlation strongly recommended")
  else if ((1 <=? moderateAtrophyCount)%nat ||
           (1 <=? criticalAtrophyCount)%nat ||
           definedAnd hippocampusZscore (fun z => JS.lt z (-2.0)) ||
           truthyAnd hocValue (fun h => JS.lt h 0.70))%bool
  then ("Moderate",
        "Notable atrophy present - consider neuropsychological evaluation")
  else if ((2 <=? mildAtrophyCount)%nat ||
           definedAnd hippocampusZscore (fun z => JS.lt z (-1.5)) ||
           truthyAnd bpfZscore (fun z => JS.lt z (-1.5)) ||
           truthyAnd hocValue (fun h => JS.lt h 0.75))%bool
  then ("Mild",
        if truthyAnd hocValue (fun h => JS.lt h 0.75)
        then "Subtle medial temporal changes detected (HOC reduced) - neuropsychological evaluation recommended"
        else "Mild volume reductions detected - monitoring recommended")
  else if ((1 <=? mildAtrophyCount)%nat ||
           definedAnd hippocampusZscore (fun z => JS.lt z (-1.0)) ||
           truthyAnd hocValue (fun h => JS.lt h 0.80))%bool
  then ("Low-Normal",
        if truthyAnd hocValue (fun h => JS.lt h 0.80)
        then "HOC in low-normal range - consider baseline for future comparison"
        else "Volumes in low-normal range for age")
  else ("Normal", "Volumes within expected range for age and sex").

(** [analyzeAtrophy], steps 1 to 5: the fields of [analysisResults] that
    the ICV estimate, the two biomarkers, the region loop, the risk verdict
    and the pattern detection fill, and the MTA score of the standardized
    scores.  Age, sex and the region volumes, which the source reads from
    the page and a module variable, are parameters. *)
Module Report.
Record t : Type := {
  icv : Z;
  totalBrainVolume : Q;
  results : Results.t;
  atrophyRisk : string;
  riskDescription : string;
  clinicalPatterns : list Pattern.t;
  mta : MTAResult.t
}.
End Report.

Section Pipeline.

Variable Math_exp : Q -> Q.

Definition analyzeAtrophy (regionVolumes : Volumes) (age : Q) (sex : Sex)
    : Report.t :=
  let estimatedICV := estimateICV regionVolumes age sex in
  let totalVolume :=
    fold_left
      (fun (totalVolume : Q) (entry : string * Q) =>
         let '(region, volume) := entry in
         if negb (JS.includes (JS.toLowerCase region) "ventricle")
         then totalVolume + volume else totalVolume)
      regionVolumes 0 in
  let bpf := calculateBPF Math_exp regionVolumes (inject_Z estimatedICV) age in
  let hoc := calculateHOC Math_exp regionVolumes age in
  let st := analyzeRegions regionVolumes age sex (inject_Z estimatedICV) in
  let hocValue := HOC.value hoc in
  let bpfZscore := Some (BPF.zscore bpf) in
  let verdict := atrophyRisk st hocValue bpfZscore in
  let results :=
    {| Results.regions := Loop.regions st;
       Results.hoc := Some hoc;
       Results.bpf := Some bpf |} in
  {| Report.icv := estimatedICV;
     Report.totalBrainVolume := totalVolume;
     Report.results := results;
     Report.atrophyRisk := fst verdict;
     Report.riskDescription := snd verdict;
     Report.clinicalPatterns := detectClinicalPatterns results;
     Report.mta :=
       calculateMTAScore regionVolumes (zscoreOf results "Hippocampus") age |}.

End Pipeline.

(** ** Standardized scales: GCA, Koedam and the Evans index *)

Module STANDARDIZED_SCALES_GCA.
Definition reference : string := "Pasquier Scale".

Definition scores (k : Z) : option (string * string) :=
  match k with
  | 0%Z => Some ("Normal", "No cortical atrophy")
  | 1%Z => Some ("Mild", "Opening of sulci")
  | 2%Z => Some ("Moderate", "Volume loss of gyri")
  | 3%Z => Some ("Severe", "Knife-blade atrophy")
  | _ => None
  end.

(** [Object.entries(ageThresholds)], in key order. *)
Definition ageThresholds : list (Z * Q) := [ (75%Z, 1); (100%Z, 2) ].

(** [minZ] and [score]; [None] is [-Infinity]. *)
Definition zscoreToScore : list (option Q * Z) :=
  [ (Some (-0.5), 0%Z); (Some (-1.5), 1%Z); (Some (-2.5), 2%Z); (None, 3%Z) ].
End STANDARDIZED_SCALES_GCA.

Module STANDARDIZED_SCALES_Koedam.
Definition reference : string := "Koedam Scale".

Definition scores (k : Z) : option (string * string) :=
  match k with
  | 0%Z => Some ("Normal", "No parietal atrophy")
  | 1%Z => Some ("Mild",
      "Slight widening of posterior cingulate and parieto-occipital sulcus")
  | 2%Z => Some ("Moderate",
      "Significant sulcal widening, moderate parietal atrophy")
  | 3%Z => Some ("Severe",
      "Severe parietal atrophy (knife-blade appearance)")
  | _ => None
  end.

Definition zscoreToScore : list (option Q * Z) :=
  [ (Some (-0.5), 0%Z); (Some (-1.5), 1%Z); (Some (-2.5), 2%Z); (None, 3%Z) ].
End STANDARDIZED_SCALES_Koedam.

(** The loop over a [zscoreToScore] table: the score of the first row whose
    [minZ] the z-score reaches; 0 for an undefined z-score. *)
Definition scoreFromZscore (table : list (option Q * Z)) (zscore : option Q)
    : Z :=
  match zscore with
  | Some z =>
      forBreak
        (fun threshold : option Q * Z =>
           match fst threshold with
           | Some minZ => JS.ge z minZ
           | None => true
           end)
        snd table 0%Z
  | None => 0%Z
  end.

(** The object [calculateGCAScore] returns. *)
Module GCAResult.
Record t : Type := {
  score : Z;
  maxScore : Z;
  label : string;
  description : string;
  ageThreshold : Q;
  isAbnormal : bool;
  interpretation : string;
  reference : string
}.
End GCAResult.

Definition calculateGCAScore (cortexZscore : option Q) (age : Q)
    : GCAResult.t :=
  let gcaScore :=
    scoreFromZscore STANDARDIZED_SCALES_GCA.zscoreToScore cortexZscore in
  let ageThreshold :=
    forBreak
      (fun entry : Z * Q => JS.lt age (inject_Z (fst entry)))
      snd STANDARDIZED_SCALES_GCA.ageThresholds 2 in
  let isAbnormal := JS.gt (inject_Z gcaScore) ageThreshold in
  let scoreInfo := STANDARDIZED_SCALES_GCA.scores gcaScore in
  {| GCAResult.score := gcaScore;
     GCAResult.maxScore := 3;
     GCAResult.label :=
       match scoreInfo with Some info => fst info | None => "Unknown" end;
     GCAResult.description :=
       match scoreInfo with Some info => snd info | None => EmptyString end;
     GCAResult.ageThreshold := ageThreshold;
     GCAResult.isAbnormal := isAbnormal;
     GCAResult.interpretation :=
       if isAbnormal then "Abnormal for age" else "Normal for age";
     GCAResult.reference := STANDARDIZED_SCALES_GCA.reference |}.

(** The object [calculateKoedamScore] returns. *)
Module KoedamResult.
Record t : Type := {
  score : Z;
  maxScore : Z;
  label : string;
  description : string;
  note : string;
  reference : string
}.
End KoedamResult.

Definition calculateKoedamScore (cortexZscore : option Q) : KoedamResult.t :=
  let paScore :=
    scoreFromZscore STANDARDIZED_SCALES_Koedam.zscoreToScore cortexZscore in
  let scoreInfo := STANDARDIZED_SCALES_Koedam.scores paScore in
  {| KoedamResult.score := paScore;
     KoedamResult.maxScore := 3;
     KoedamResult.label :=
       match scoreInfo with Some info => fst info | None => "Unknown" end;
     KoedamResult.description :=
       match scoreInfo with Some info => snd info | None => EmptyString end;
     KoedamResult.note :=
       "Estimated from global cortical volume (parietal-specific segmentation not available)";
     KoedamResult.reference := STANDARDIZED_SCALES_Koedam.reference |}.

(** The object [calculateEvansIndex] returns; a field the object does not
    carry is [None]. *)
Module EvansResult.
Record t : Type := {
  value : option Q;
  label : option string;
  interpretation : string;
  volumeRatio : option Q;
  thresholds : option (string * string * string);
  note : option string;
  reference : option string
}.
End EvansResult.

Section Evans.

(** [Math.pow], as the host implements it. *)
Variable Math_pow : Q -> Q -> Q.

Definition calculateEvansIndex (volumes : Volumes) (icv : Q) : EvansResult.t :=
  let lvVol := JS.orElse (JS.get volumes "Lateral-Ventricle") 0 in
  if (JS.isZero lvVol || JS.isZero icv)%bool then
    {| EvansResult.value := None;
       EvansResult.label := None;
       EvansResult.interpretation := "Unable to calculate";
       EvansResult.volumeRatio := None;
       EvansResult.thresholds := None;
       EvansResult.note := None;
       EvansResult.reference := None |}
  else
    let volumeRatio := lvVol / icv in
    let evansIndex := 0.42 * Math_pow volumeRatio 0.30 in
    let roundedEI := inject_Z (JS.Math_round (evansIndex * 100)) / 100 in
    let '(interpretation, label) :=
      if JS.le roundedEI 0.25
      then ("No significant ventricular enlargement", "Normal")
      else if JS.le roundedEI 0.30
      then ("Borderline ventricular enlargement", "Borderline")
      else ("Ventricular enlargement present - consider hydrocephalus vs ex-vacuo dilation",
            "Enlarged") in
    {| EvansResult.value := Some roundedEI;
       EvansResult.label := Some label;
       EvansResult.interpretation := interpretation;
       EvansResult.volumeRatio :=
         Some (inject_Z (JS.Math_round (volumeRatio * 1000)) / 1000);
       EvansResult.thresholds := Some ("≤0.25", "0.25-0.30", ">0.30");
       EvansResult.note :=
         Some "Estimated from volumetric data (not direct linear measurement)";
       EvansResult.reference := Some "Evans (1942)" |}.

End Evans.

(** ** Findings: the severity sort of [analyzeAtrophy] *)

Module Finding.
Record t : Type := {
  severity : string;
  text : string;
  type : string
}.
End Finding.

(** [severityOrder[s] || 3] for [severityOrder = { danger: 0, warning: 1,
    info: 2 }]. *)
Definition severityRank (severity : string) : Q :=
  JS.orElse
    (JS.get [ ("danger", 0); ("warning", 1); ("info", 2) ] severity)
    3.

(** The comparator handed to [sort]. *)
Definition compareFindings (a b : Finding.t) : Q :=
  severityRank (Finding.severity a) - severityRank (Finding.severity b).

(** [Array.prototype.sort] with a comparator: the sort is stable, so the
    result is the ordered arrangement that keeps elements the comparator
    does not separate in their original order; insertion from the left
    computes it. *)
Fixpoint insertSorted {A : Type} (compare : A -> A -> Q) (x : A)
    (sorted : list A) : list A :=
  match sorted with
  | [] => [x]
  | y :: rest =>
      if JS.lt (compare x y) 0 then x :: y :: rest
      else y :: insertSorted compare x rest
  end.

Definition Array_sort {A : Type} (compare : A -> A -> Q) (array : list A)
    : list A :=
  fold_left (fun sorted x => insertSorted compare x sorted) array [].

Definition sortFindings (findings : list Finding.t) : list Finding.t :=
  Array_sort compareFindings findings.

(** ** Result validation *)

(** The fields of an entry of [results.regions] that
    [validateAnalysisResults] reads. *)
Module RegionEntry.
Record t : Type := {
  volume : Q;
  zscore : Q;
  effectiveZscore : Q
}.
End RegionEntry.

(** The fields of [results] that [validateAnalysisResults] reads. *)
Module Assembled.
Record t : Type := {
  regions : list (string * RegionEntry.t);
  bpf : option BPF.t;
  totalBrainVolume : Q
}.
End Assembled.

(** The object [validateAnalysisResults] returns. *)
Module Validation.
Record t : Type := {
  isValid : bool;
  warnings : list string;
  overallQuality : string;
  possibleIssues : list string;
  recommendedAction : string
}.
End Validation.

(** The variables the checks update: [warnings], [flags.overallQuality] and
    [flags.possibleIssues]. *)
Module Checks.
Record t : Type := {
  warnings : list string;
  overallQuality : string;
  possibleIssues : list string
}.

Definition init : t :=
  {| warnings := []; overallQuality := "good"; possibleIssues := [] |}.

Definition warn (message : string) (st : t) : t :=
  {| warnings := (warnings st ++ [message])%list;
     overallQuality := overallQuality st;
     possibleIssues := possibleIssues st |}.

Definition flag (issue : string) (st : t) : t :=
  {| warnings := warnings st;
     overallQuality := overallQuality st;
     possibleIssues := (possibleIssues st ++ [issue])%list |}.

Definition review (st : t) : t :=
  {| warnings := warnings st;
     overallQuality := "review_recommended";
     possibleIssues := possibleIssues st |}.
End Checks.

Section Validator.

(** [Number.prototype.toFixed] and the conversion of a number to a string
    in a template literal. *)
Variable toFixed : Q -> nat -> string.
Variable numberToString : Q -> string.

(** Check 1: extreme z-scores; the state carries [extremeZscoreCount]. *)
Definition checkExtremeZscores (regions : list (string * RegionEntry.t))
    (st : Checks.t) : Checks.t :=
  let '(extremeZscoreCount, st) :=
    fold_left
      (fun (acc : nat * Checks.t) (entry : string * RegionEntry.t) =>
         let '(count, st) := acc in
         let '(region, data) := entry in
         if JS.gt (JS.Math_abs (RegionEntry.zscore data)) 3.5
         then (S count,
               Checks.warn
                 (region ++ ": z-score of "
                  ++ numberToString (RegionEntry.zscore data)
                  ++ " is statistically unusual (>3.5 SD from mean)") st)
         else (count, st))
      regions (0%nat, st) in
  if (3 <=? extremeZscoreCount)%nat
  then Checks.review (Checks.flag "multiple_extreme_zscores" st)
  else st.

(** Check 2: BPF outside the physiological range. *)
Definition checkBPF (bpf : option BPF.t) (st : Checks.t) : Checks.t :=
  match bpf with
  | None => st
  | Some bpf =>
      if JS.gt (BPF.value bpf) 0.92 then
        Checks.review
          (Checks.flag "bpf_too_high"
             (Checks.warn
                ("BPF of " ++ toFixed (BPF.value bpf * 100) 1
                 ++ "% exceeds typical upper limit (92%). May indicate ICV underestimation.")
                st))
      else if JS.lt (BPF.value bpf) 0.55 then
        Checks.flag "bpf_very_low"
          (Checks.warn
             ("BPF of " ++ toFixed (BPF.value bpf * 100) 1
              ++ "% is below typical range. May indicate severe atrophy or measurement error.")
             st)
      else st
  end.

(** Check 3: implausible hippocampus/amygdala ratio. *)
Definition checkVolumeRatio (regions : list (string * RegionEntry.t))
    (st : Checks.t) : Checks.t :=
  let hippoVol :=
    JS.orElse (option_map RegionEntry.volume (JS.get regions "Hippocampus")) 0 in
  let amygVol :=
    JS.orElse (option_map RegionEntry.volume (JS.get regions "Amygdala")) 0 in
  if (JS.gt hippoVol 0 && JS.gt amygVol 0)%bool then
    let ratio := hippoVol / amygVol in
    if (JS.lt ratio 1.2 || JS.gt ratio 4.5)%bool then
      Checks.flag "unusual_volume_ratio"
        (Checks.warn
           ("Hippocampus/Amygdala ratio (" ++ toFixed ratio 1
            ++ ") is outside typical range (1.8-3.0). May indicate segmentation variability.")
           st)
    else st
  else st.

(** Check 4: total brain volume plausibility. *)
Definition checkTotalBrain (totalBrainVolume : Q) (st : Checks.t)
    : Checks.t :=
  let totalBrain := JS.orElse (Some totalBrainVolume) 0 in
  if JS.gt totalBrain 0 then
    if JS.lt totalBrain 800000 then
      Checks.flag "brain_volume_low"
        (Checks.warn
           ("Total brain volume (" ++ toFixed (totalBrain / 1000) 0
            ++ " cm³) is below typical adult range.") st)
    else if JS.gt totalBrain 1700000 then
      Checks.flag "brain_volume_high"
        (Checks.warn
           ("Total brain volume (" ++ toFixed (totalBrain / 1000) 0
            ++ " cm³) exceeds typical adult range.") st)
    else st
  else st.

(** Check 5: hippocampal atrophy without enlarged ventricles. *)
Definition checkDiscordance (regions : list (string * RegionEntry.t))
    (st : Checks.t) : Checks.t :=
  let lvZ :=
    option_map RegionEntry.zscore (JS.get regions "Lateral-Ventricle") in
  let hippoZ :=
    option_map RegionEntry.effectiveZscore (JS.get regions "Hippocampus") in
  match lvZ, hippoZ with
  | Some lvZ, Some hippoZ =>
      if (JS.lt hippoZ (-2.0) && JS.lt lvZ (-1.0))%bool then
        Checks.flag "discordant_atrophy_pattern"
          (Checks.warn
             ("Discordant finding: significant hippocampal atrophy (z="
              ++ toFixed hippoZ 1
              ++ ") with relatively small ventricles (z=" ++ toFixed lvZ 1
              ++ "). Consider early-stage disease or measurement variability.")
             st)
      else st
  | _, _ => st
  end.

Definition validateAnalysisResults (results : Assembled.t) : Validation.t :=
  let st := Checks.init in
  let st := checkExtremeZscores (Assembled.regions results) st in
  let st := checkBPF (Assembled.bpf results) st in
  let st := checkVolumeRatio (Assembled.regions results) st in
  let st := checkTotalBrain (Assembled.totalBrainVolume results) st in
  let st := checkDiscordance (Assembled.regions results) st in
  {| Validation.isValid := (List.length (Checks.warnings st) =? 0)%nat;
     Validation.warnings := Checks.warnings st;
     Validation.overallQuality := Checks.overallQuality st;
     Validation.possibleIssues := Checks.possibleIssues st;
     Validation.recommendedAction :=
       if String.eqb (Checks.overallQuality st) "review_recommended"
       then "Results may require clinical review due to unusual findings"
       else "Results appear consistent with expected values" |}.

End Validator.

(** ** Display helpers *)

(** [str.length > len ? str.substring(0, len - 3) + "..." : str] on ASCII
    text, where a character is one code unit; [substring] takes a negative
    end as 0. *)
Definition truncate (str : string) (len : Z) : string :=
  if (len <? Z.of_nat (String.length str))%Z
  then String.substring 0 (Z.to_nat (len - 3)) str ++ "..."
  else str.

(** The colour of the overall risk. *)
Definition getRiskColor (risk : string) : string :=
  if String.eqb risk "High" then "#ef4444"
  else if String.eqb risk "Moderate" then "#f97316"
  else if String.eqb risk "Mild" then "#f59e0b"
  else if String.eqb risk "Low-Normal" then "#84cc16"
  else if String.eqb risk "Normal" then "#22c55e"
  else "#a1a1aa".

(** The colour of a region's interpretation. *)
Definition getInterpretationColor (interpretation : string) : string :=
  if String.eqb interpretation "severe" then "#ef4444"
  else if String.eqb interpretation "moderate" then "#f97316"
  else if String.eqb interpretation "mild" then "#f59e0b"
  else if String.eqb interpretation "low-normal" then "#84cc16"
  else if String.eqb interpretation "normal" then "#22c55e"
  else "#a1a1aa".

(** ** The specification's wording, for comparison with the code *)

Module Spec.

(** A region is ventricular iff its label contains "ventricle",
    case-insensitively. *)
Definition isVentricular (label : string) : bool :=
  JS.includes (JS.toLowerCase label) "ventricle".

Definition total (volumes : Volumes) : Q :=
  fold_right (fun entry acc => snd entry + acc) 0 volumes.

Definition ventricular (volumes : Volumes) : Q :=
  total (filter (fun entry => isVentricular (fst entry)) volumes).

Definition parenchymal (volumes : Volumes) : Q :=
  total (filter (fun entry => negb (isVentricular (fst entry))) volumes).

(** Age clamped into the range of the anchors, then rounded to the
    nearest ten. *)
Definition clampAge (age : Q) : Q :=
  if JS.lt age 20 then 20 else if JS.gt age 80 then 80 else age.

Definition ageAnchor (age : Q) : Z :=
  (JS.Math_round (clampAge age / 10) * 10)%Z.

Definition BPF_anchors : list (Z * Q) :=
  [ (20%Z, 0.88); (30%Z, 0.86); (40%Z, 0.84); (50%Z, 0.82);
    (60%Z, 0.79); (70%Z, 0.76); (80%Z, 0.72) ].

Definition expectedBPF (age : Q) : option Q :=
  option_map snd
    (find (fun anchor => Z.eqb (fst anchor) (ageAnchor age)) BPF_anchors).

Definition floorAt (bound x : Q) : Q := if JS.lt x bound then bound else x.
Definition ceilingAt (bound x : Q) : Q := if JS.gt x bound then bound else x.

(** The estimate before the final rounding, given the expected BPF. *)
Definition icvBeforeRounding (volumes : Volumes) (bpf : Q) (sex : Sex) : Q :=
  let segmentedTotal := parenchymal volumes + ventricular volumes in
  let icv_A := parenchymal volumes / bpf in
  let icv_B := segmentedTotal * 1.12 in
  let lower := ICV_REFERENCE.mean sex - 3 * ICV_REFERENCE.sd sex in
  let upper := ICV_REFERENCE.mean sex + 3 * ICV_REFERENCE.sd sex in
  let primary :=
    if (JS.le lower icv_A && JS.le icv_A upper)%bool
    then icv_A else (icv_A + icv_B) / 2 in
  floorAt lower (ceilingAt upper (floorAt (segmentedTotal * 1.05) primary)).

(** [n] is [x] rounded to the nearest integer (a tie goes up). *)
Definition nearestInteger (x : Q) (n : Z) : Prop :=
  inject_Z n - 0.5 <= x /\ x < inject_Z n + 0.5.

(** The ordinal confidence scale Low < Low-Moderate < Moderate < High. *)
Definition confidenceScale : list string :=
  [ "Low"; "Low-Moderate"; "Moderate"; "High" ].

Fixpoint rank (scale : list string) (c : string) : nat :=
  match scale with
  | [] => 0
  | c' :: rest => if String.eqb c' c then 0 else S (rank rest c)
  end.

(** One level up on the scale (the top level has none above it). *)
Definition raiseOneLevel (c : string) : string :=
  nth (S (rank confidenceScale c)) confidenceScale c.

(** Base confidence of the Early-MCI pattern from the HOC value. *)
Definition earlyMCI_base (hoc : Q) : string :=
  if JS.lt hoc 0.70 then "Moderate"
  else if JS.lt hoc 0.75 then "Low-Moderate"
  else "Low".

(** The claim as the specification words it: raised one level whenever
    the inferior-lateral-ventricle z-score exceeds 0.5. *)
Definition earlyMCI_confidence (hoc : Q) (ilvZ : option Q) : string :=
  if definedAnd ilvZ (fun z => JS.gt z 0.5)
  then raiseOneLevel (earlyMCI_base hoc)
  else earlyMCI_base hoc.

(** What the code does: raised one level, but never above Moderate. *)
Definition earlyMCI_confidence_capped (hoc : Q) (ilvZ : option Q) : string :=
  if definedAnd ilvZ (fun z => JS.gt z 0.5)
  then (if String.eqb (earlyMCI_base hoc) "Moderate" then "Moderate"
        else raiseOneLevel (earlyMCI_base hoc))
  else earlyMCI_base hoc.

(** [x < bound] for a value that may be undefined. *)
Definition below (x : option Q) (bound : Q) : bool :=
  definedAnd x (fun v => JS.lt v bound).

(** Regions per severity bucket, each region in the most severe bucket
    it qualifies for. *)
Definition effectiveZ (r : ScoredRegion) : Q :=
  if invertZscore r then - roundedZscore r else roundedZscore r.

Definition criticalRegions (scored : list ScoredRegion) : nat :=
  List.length (filter (fun r => JS.lt (effectiveZ r) (-2.5)) scored).

Definition moderateRegions (scored : list ScoredRegion) : nat :=
  List.length
    (filter (fun r => JS.ge (effectiveZ r) (-2.5) &&
                      JS.lt (effectiveZ r) (-2.0))%bool scored).

Definition mildRegions (scored : list ScoredRegion) : nat :=
  List.length
    (filter (fun r => JS.ge (effectiveZ r) (-2.0) &&
                      JS.lt (effectiveZ r) (-1.5))%bool scored).

(** The hippocampal effective z: that of the last scored region whose
    label contains "hippocampus", case-insensitively. *)
Definition isHippocampal (r : ScoredRegion) : bool :=
  JS.includes (JS.toLowerCase (region r)) "hippocampus".

Definition hippocampalZ (scored : list ScoredRegion) : option Q :=
  option_map effectiveZ (find isHippocampal (rev scored)).

(** The inputs of the verdict. *)
Record Evidence : Type := {
  critical : nat;
  moderate : nat;
  mild : nat;
  hippoZ : option Q;
  hoc : option Q;
  bpfZ : option Q
}.

Definition highRule (e : Evidence) : bool :=
  ((2 <=? critical e)%nat || below (hippoZ e) (-2.5) ||
   below (hoc e) 0.60)%bool.

Definition moderateRule (e : Evidence) : bool :=
  ((1 <=? moderate e)%nat || (1 <=? critical e)%nat ||
   below (hippoZ e) (-2.0) || below (hoc e) 0.70)%bool.

Definition mildRule (e : Evidence) : bool :=
  ((2 <=? mild e)%nat || below (hippoZ e) (-1.5) ||
   below (bpfZ e) (-1.5) || below (hoc e) 0.75)%bool.

Definition lowNormalRule (e : Evidence) : bool :=
  ((1 <=? mild e)%nat || below (hippoZ e) (-1.0) ||
   below (hoc e) 0.80)%bool.

(** The rules in their fixed order; the first that matches wins. *)
Definition rules : list ((Evidence -> bool) * string) :=
  [ (highRule, "High"); (moderateRule, "Moderate"); (mildRule, "Mild");
    (lowNormalRule, "Low-Normal") ].

Definition verdict (e : Evidence) : string :=
  match find (fun rule => fst rule e) rules with
  | Some rule => snd rule
  | None => "Normal"
  end.

(** The evidence a list of scored regions and the two biomarkers give. *)
Definition evidenceOf (scored : list ScoredRegion)
    (hocValue bpfZscore : option Q) : Evidence :=
  {| critical := criticalRegions scored;
     moderate := moderateRegions scored;
     mild := mildRegions scored;
     hippoZ := hippocampalZ scored;
     hoc := hocValue;
     bpfZ := bpfZscore |}.

End Spec.

(** ** Auxiliary quantities for the analysis of [normalCDF] *)

Module Erfc.

(** The polynomial factor of [normalCDF], in the code's Horner form. *)
Definition poly (t : Q) : Q :=
  (((((1.061405429 * t + -1.453152027) * t) + 1.421413741) * t
    + -0.284496736) * t + 0.254829592) * t.

(** The term subtracted from one: the polynomial at [1 / (1 + p x)] times
    the exponential of [- x * x]. *)
Definition tail (Math_exp : Q -> Q) (x : Q) : Q :=
  poly (1.0 / (1.0 + 0.3275911 * x)) * Math_exp (- x * x).

(** The derivative of [poly] is
    [(t + a2)^2 + r1 + 5 a5 (t^2 + m t)^2 + r2 t^2]
    with [m = 2 a4 / (5 a5)] and positive remainders [r1], [r2]. *)
Definition m : Q := -2906304054 # 5307027145.
Definition r1 : Q := 0.254829592 - 0.284496736 * 0.284496736.
Definition r2 : Q := 3 * 1.421413741 - 1 - 5 * 1.061405429 * m * m.

(** The mean of that derivative between [v] and [u], written as a sum of
    squares and positive forms. *)
Definition meanSlope (u v : Q) : Q :=
  let k := -0.284496736 in
  let d := u - v in
  let A := v * v + m * v in
  let B := d * (2 * v + m) in
  let C := d * d in
  ((u + k) * (u + k) + (u + k) * (v + k) + (v + k) * (v + k)) * (1 # 3)
  + r1
  + 5 * 1.061405429 *
      ((A + B * (1 # 2) + C * (1 # 3)) * (A + B * (1 # 2) + C * (1 # 3))
       + (B + C) * (B + C) * (1 # 12) + C * C * (1 # 180))
  + r2 * (u * u + u * v + v * v) * (1 # 3).

End Erfc.

(** ** Concrete inputs used to exercise the definitions *)

Module Sample.

(** A monotone rational stand-in for [Math.exp]: [1 / (1 - x)] below
    zero, [1 + x] from zero on. *)
Definition Math_exp (x : Q) : Q :=
  if JS.lt x 0 then 1 / (1 - x) else 1 + x.

(** A rational stand-in for [Math.pow] with an exponent between 0 and 1:
    the tangent of the power at base 1. *)
Definition Math_pow (x e : Q) : Q := 1 + e * (x - 1).

(** A scan whose hippocampus was not segmented. *)
Definition noHippocampus : Volumes :=
  [ ("Cerebral-Cortex", 483000); ("Inferior-Lateral-Ventricle", 1000) ].

(** The parenchymal regions of a 70-year-old male at their expected means,
    with small temporal horns. *)
Definition typical : Volumes :=
  [ ("Cerebral-White-Matter", 420000); ("Cerebral-Cortex", 445000);
    ("Lateral-Ventricle", 36500); ("Inferior-Lateral-Ventricle", 1000);
    ("Cerebellum-White-Matter", 23500); ("Cerebellum-Cortex", 87000);
    ("Thalamus", 13600); ("Caudate", 6100); ("Putamen", 8900);
    ("Pallidum", 3100); ("3rd-Ventricle", 1700); ("4th-Ventricle", 1850);
    ("Brain-Stem", 19750); ("Hippocampus", 6900); ("Amygdala", 2780);
    ("Accumbens-area", 900); ("VentralDC", 7000) ].

(** [typical] with the two medial temporal volumes replaced. *)
Definition withMedialTemporal (hippocampus ilv : Q) : Volumes :=
  map
    (fun entry : string * Q =>
       if String.eqb (fst entry) "Hippocampus" then (fst entry, hippocampus)
       else if String.eqb (fst entry) "Inferior-Lateral-Ventricle"
       then (fst entry, ilv)
       else entry)
    typical.

(** A smaller hippocampus with enlarged temporal horns: HOC is 0.65. *)
Definition horns : Volumes := withMedialTemporal 6500 3500.

(** A hippocampus well below its expected volume: HOC is 0.811. *)
Definition shrunken : Volumes := withMedialTemporal 4300 1000.

(** A hippocampus of ordinary size beside temporal horns labelled over
    most of the conformed grid (256^3 mm3): the occupancy ratio is below
    0.0005 and the reported HOC is 0. *)
Definition flooded : Volumes :=
  [ ("Hippocampus", 6600); ("Inferior-Lateral-Ventricle", 13300000) ].

(** Hippocampus and temporal horns of a scan with medial temporal loss. *)
Definition atrophic : Volumes :=
  [ ("Hippocampus", 6000); ("Inferior-Lateral-Ventricle", 1800) ].

(** The report for a male of 70 with the given volumes. *)
Definition report (volumes : Volumes) : Report.t :=
  analyzeAtrophy Math_exp volumes 70 male.

(** The regions of that report's loop. *)
Definition scored (volumes : Volumes) : list ScoredRegion :=
  scoredRegions volumes 70 male (inject_Z (estimateICV volumes 70 male)).

End Sample.

(** ** Notions used in the statements *)

(** What a block of [detectClinicalPatterns] does to the array: nothing, or
    one entry pushed at the end. *)
Definition pushes (name : string) (before after : list Pattern.t) : Prop :=
  after = before \/
  exists p, after = (before ++ [p])%list /\ Pattern.pattern p = name.

(** The patterns other than Normal Aging. *)
Definition isDisease (p : Pattern.t) : Prop :=
  Pattern.pattern p <> CLINICAL_PATTERNS.normalAging_name.

(** The findings of one severity, in their order in the array. *)
Definition bySeverity (severity : string) (findings : list Finding.t)
    : list Finding.t :=
  filter (fun f => String.eqb (Finding.severity f) severity) findings.

(** Warnings first, then notes, then the findings marked danger. *)
Definition arranged (findings : list Finding.t) : list Finding.t :=
  (bySeverity "warning" findings ++ bySeverity "info" findings
   ++ bySeverity "danger" findings)%list.

(** The severities [analyzeAtrophy] and [generateFinding] give a finding. *)
Definition knownSeverity (f : Finding.t) : Prop :=
  In (Finding.severity f) ["danger"; "warning"; "info"].

(** The entries of [results.regions] whose z-score is more than 3.5 standard
    deviations from the mean. *)
Definition extremeZscores (regions : list (string * RegionEntry.t))
    : list (string * RegionEntry.t) :=
  filter
    (fun entry => JS.gt (JS.Math_abs (RegionEntry.zscore (snd entry))) 3.5)
    regions.

(** What the checks of [validateAnalysisResults] keep true of their
    variables: an issue is never flagged without a warning, and a review is
    never recommended without an issue. *)
Definition consistent (st : Checks.t) : Prop :=
  (List.length (Checks.possibleIssues st)
   <= List.length (Checks.warnings st))%nat /\
  (Checks.overallQuality st = "good" \/
   (Checks.overallQuality st = "review_recommended" /\
    Checks.possibleIssues st <> [])).

(** The property names every object inherits from [Object.prototype]:
    indexing an object literal with one of them yields the inherited
    property, which [JS.get] (own properties) does not model. *)
Definition Object_prototype_names : list string :=
  [ "constructor"; "hasOwnProperty"; "isPrototypeOf"; "propertyIsEnumerable";
    "toLocaleString"; "toString"; "valueOf"; "__proto__";
    "__defineGetter__"; "__defineSetter__"; "__lookupGetter__";
    "__lookupSetter__" ].

(** A label that names no inherited property. *)
Definition ownName (name : string) : Prop :=
  ~ In name Object_prototype_names.

(** ** Properties *)

(** *** Comparisons and rounding *)

Lemma lt_true_iff (x y : Q) : JS.lt x y = true <-> x < y.
Proof.
  unfold JS.lt. destruct (Qlt_le_dec x y) as [H | H]; split; intro G;
    try reflexivity; try discriminate; try assumption.
  exfalso. apply (Qlt_not_le _ _ G H).
Qed.

Lemma lt_false_iff (x y : Q) : JS.lt x y = false <-> y <= x.
Proof.
  unfold JS.lt. destruct (Qlt_le_dec x y) as [H | H]; split; intro G;
    try reflexivity; try discriminate; try assumption.
  exfalso. apply (Qlt_not_le _ _ H G).
Qed.

Lemma ge_true_iff (x y : Q) : JS.ge x y = true <-> y <= x.
Proof.
  unfold JS.ge. rewrite negb_true_iff. apply lt_false_iff.
Qed.

Lemma ge_false_iff (x y : Q) : JS.ge x y = false <-> x < y.
Proof.
  unfold JS.ge. rewrite negb_false_iff. apply lt_true_iff.
Qed.

Lemma gt_true_iff (x y : Q) : JS.gt x y = true <-> y < x.
Proof. apply lt_true_iff. Qed.

Lemma gt_false_iff (x y : Q) : JS.gt x y = false <-> x <= y.
Proof. apply lt_false_iff. Qed.

Lemma le_true_iff (x y : Q) : JS.le x y = true <-> x <= y.
Proof. apply ge_true_iff. Qed.

Lemma le_false_iff (x y : Q) : JS.le x y = false <-> y < x.
Proof. apply ge_false_iff. Qed.

Lemma isZero_true_iff (x : Q) : JS.isZero x = true <-> x == 0.
Proof. apply Qeq_bool_iff. Qed.

Lemma isZero_false_iff (x : Q) : JS.isZero x = false <-> ~ x == 0.
Proof.
  rewrite <- isZero_true_iff. destruct (JS.isZero x); split; intro H;
    try reflexivity; try discriminate.
  - exfalso. apply H. reflexivity.
Qed.

(** Case analysis on a comparison, leaving the order fact in the context. *)
Ltac case_lt x y :=
  let H := fresh "Hcmp" in
  destruct (JS.lt x y) eqn:H;
  [ apply lt_true_iff in H | apply lt_false_iff in H ];
  cbn [negb andb orb].

(** Division by a numeral, turned into a product for [lra]. *)
Ltac qdiv_consts :=
  unfold Qdiv in *;
  repeat match goal with
         | |- context [Qinv (Qmake ?n ?d)] =>
             let r := eval cbv in (Qinv (Qmake n d)) in
             change (Qinv (Qmake n d)) with r
         | H : context [Qinv (Qmake ?n ?d)] |- _ =>
             let r := eval cbv in (Qinv (Qmake n d)) in
             change (Qinv (Qmake n d)) with r in H
         end.

Ltac case_cmp :=
  repeat match goal with
  | |- context [JS.ge ?x ?y] => unfold JS.ge
  | |- context [JS.gt ?x ?y] => unfold JS.gt
  | |- context [JS.le ?x ?y] => unfold JS.le
  | |- context [JS.lt ?x ?y] => case_lt x y
  end.

#[local] Instance lt_compat : Proper (Qeq ==> Qeq ==> eq) JS.lt.
Proof.
  intros x x' Hx y y' Hy.
  case_lt x y; case_lt x' y'; try reflexivity; exfalso; lra.
Qed.

Lemma Math_round_compat (x y : Q) : x == y -> JS.Math_round x = JS.Math_round y.
Proof.
  intro H. unfold JS.Math_round. apply Qfloor_comp. rewrite H. reflexivity.
Qed.

Lemma Math_round_nearest (x : Q) : Spec.nearestInteger x (JS.Math_round x).
Proof.
  unfold Spec.nearestInteger, JS.Math_round.
  pose proof (Qfloor_le (x + 0.5)) as Hlo.
  pose proof (Qlt_floor (x + 0.5)) as Hhi.
  rewrite inject_Z_plus in Hhi. change (inject_Z 1) with 1 in Hhi.
  generalize dependent (inject_Z (Qfloor (x + 0.5))). intros q Hlo Hhi.
  split; lra.
Qed.

Lemma Math_round_le (x y : Q) : x <= y -> (JS.Math_round x <= JS.Math_round y)%Z.
Proof.
  intro H. unfold JS.Math_round. apply Qfloor_resp_le. lra.
Qed.

Lemma Math_round_Z (n : Z) : JS.Math_round (inject_Z n) = n.
Proof.
  unfold JS.Math_round.
  pose proof (Qfloor_le (inject_Z n + 0.5)) as Hlo.
  assert (n <= Qfloor (inject_Z n + 0.5))%Z as H1.
  { rewrite <- (Qfloor_Z n) at 1. apply Qfloor_resp_le.
    generalize (inject_Z n). intro q. lra. }
  assert (inject_Z (Qfloor (inject_Z n + 0.5)) < inject_Z (n + 1)) as H2.
  { rewrite inject_Z_plus. change (inject_Z 1) with 1.
    generalize dependent (inject_Z (Qfloor (inject_Z n + 0.5))).
    generalize (inject_Z n). intros q r Hlo. lra. }
  rewrite <- Zlt_Qlt in H2. lia.
Qed.

(** *** Interpretation buckets *)

(** C6: the interpretation bucket is a function of the effective z-score
    alone: normal iff it is at least -1.0, low-normal iff it lies in
    [-1.5, -1.0), mild iff in [-2.0, -1.5), moderate iff in [-2.5, -2.0),
    severe iff below -2.5; each of the boundary values -1.0, -1.5, -2.0 and
    -2.5 falls in the better of its two neighbouring buckets. *)
Theorem interpretZScore_buckets (zscore : Q) (invert : bool) :
  let effectiveZ := if invert then - zscore else zscore in
  (interpretZScore zscore invert = "normal" <-> -1.0 <= effectiveZ) /\
  (interpretZScore zscore invert = "low-normal" <->
     -1.5 <= effectiveZ /\ effectiveZ < -1.0) /\
  (interpretZScore zscore invert = "mild" <->
     -2.0 <= effectiveZ /\ effectiveZ < -1.5) /\
  (interpretZScore zscore invert = "moderate" <->
     -2.5 <= effectiveZ /\ effectiveZ < -2.0) /\
  (interpretZScore zscore invert = "severe" <-> effectiveZ < -2.5) /\
  interpretZScore (-1.0) false = "normal" /\
  interpretZScore (-1.5) false = "low-normal" /\
  interpretZScore (-2.0) false = "mild" /\
  interpretZScore (-2.5) false = "moderate".
Proof.
  intro effectiveZ. unfold interpretZScore. fold effectiveZ.
  generalize effectiveZ. clear effectiveZ. intro e.
  repeat match goal with
         | |- _ /\ _ => split
         end;
    try reflexivity;
    case_cmp; split; intro H; try discriminate; try reflexivity;
    try match goal with G : _ /\ _ |- _ => destruct G end;
    try match goal with |- _ /\ _ => split end; lra.
Qed.

(** *** ICV normalisation *)

(** C8: for a region with a tabulated regression coefficient, either sex
    and a non-negative volume, normalising at the sex-specific reference
    mean ICV returns the volume unchanged. *)
Theorem applyICVNormalization_at_reference_mean
    (volume : Q) (region : string) (sex : Sex) (b : Q) :
  JS.get ICV_REGRESSION_COEFFICIENTS region = Some b ->
  0 <= volume ->
  applyICVNormalization volume region (ICV_REFERENCE.mean sex) sex == volume.
Proof.
  intros Hb Hvol. unfold applyICVNormalization. rewrite Hb.
  unfold JS.Math_max. rewrite Q.max_r; lra.
Qed.

Lemma applyICVNormalization_at_reference_mean_witness :
  applyICVNormalization 7000 "Hippocampus" (ICV_REFERENCE.mean female) female
  == 7000.
Proof.
  apply (applyICVNormalization_at_reference_mean 7000 "Hippocampus" female
           0.0037).
  - reflexivity.
  - discriminate.
Defined.

(** Regions without a tabulated coefficient pass through unchanged. *)
Lemma applyICVNormalization_untabulated
    (volume : Q) (region : string) (icv : Q) (sex : Sex) :
  JS.get ICV_REGRESSION_COEFFICIENTS region = None ->
  applyICVNormalization volume region icv sex = volume.
Proof.
  intro H. unfold applyICVNormalization. rewrite H. reflexivity.
Qed.

(** The normalised volume is never negative where a coefficient applies. *)
Lemma applyICVNormalization_nonneg
    (volume : Q) (region : string) (icv : Q) (sex : Sex) (b : Q) :
  JS.get ICV_REGRESSION_COEFFICIENTS region = Some b ->
  0 <= applyICVNormalization volume region icv sex.
Proof.
  intro H. unfold applyICVNormalization. rewrite H. apply Q.le_max_l.
Qed.

(** *** The hippocampal occupancy score *)

Section HOC_properties.

Variable Math_exp : Q -> Q.

(** C7: when the hippocampus volume is absent or zero, [calculateHOC]
    returns (it is a total function) the object whose value is null and
    whose interpretation is the explanatory text, with no z-score,
    percentile, conversion-risk or any other field. *)
Theorem calculateHOC_without_hippocampus (volumes : Volumes) (age : Q) :
  (JS.get volumes "Hippocampus" = None \/
   exists v, JS.get volumes "Hippocampus" = Some v /\ v == 0) ->
  calculateHOC Math_exp volumes age =
  {| HOC.value := None;
     HOC.zscore := None;
     HOC.percentile := None;
     HOC.interpretation :=
       "Unable to calculate - hippocampus not segmented";
     HOC.description := None;
     HOC.conversionRisk := None;
     HOC.conversionRate := None;
     HOC.hippoVolume := None;
     HOC.ilvVolume := None;
     HOC.expected := None |}.
Proof.
  intros [Habsent | [v [Hv Hzero]]]; unfold calculateHOC.
  - rewrite Habsent. reflexivity.
  - rewrite Hv. unfold JS.orElse.
    apply isZero_true_iff in Hzero. rewrite Hzero. reflexivity.
Qed.

(** With a non-zero hippocampus volume the value is the occupancy ratio
    rounded to three decimals. *)
Lemma calculateHOC_value (volumes : Volumes) (age : Q) (h : Q) :
  JS.get volumes "Hippocampus" = Some h ->
  ~ h == 0 ->
  HOC.value (calculateHOC Math_exp volumes age) =
  Some (inject_Z (JS.Math_round
          (h / (h + JS.orElse (JS.get volumes "Inferior-Lateral-Ventricle") 0)
           * 1000)) / 1000).
Proof.
  intros Hh Hnz. unfold calculateHOC. rewrite Hh.
  apply isZero_false_iff in Hnz.
  assert (JS.orElse (Some h) 0 = h) as Hor.
  { unfold JS.orElse. rewrite Hnz. reflexivity. }
  rewrite Hor, Hnz.
  repeat match goal with
         | |- context [JS.ge ?x ?y] => destruct (JS.ge x y)
         end; reflexivity.
Qed.

Lemma occupancy_ratio_range (h i : Q) :
  0 < h -> 0 <= i -> 0 < h / (h + i) /\ h / (h + i) <= 1.
Proof.
  intros Hh Hi. split.
  - apply Qlt_shift_div_l; lra.
  - apply Qle_shift_div_r; lra.
Qed.

Lemma round_thousandths_range (x : Q) :
  0 <= x -> x <= 1 ->
  0 <= inject_Z (JS.Math_round (x * 1000)) / 1000 /\
  inject_Z (JS.Math_round (x * 1000)) / 1000 <= 1.
Proof.
  intros Hlo Hhi.
  assert (0 <= JS.Math_round (x * 1000) <= 1000)%Z as [Hn0 Hn1].
  { split.
    - pose proof (Math_round_le (inject_Z 0) (x * 1000)) as H.
      rewrite Math_round_Z in H. apply H.
      change (inject_Z 0) with 0. lra.
    - pose proof (Math_round_le (x * 1000) (inject_Z 1000)) as H.
      rewrite Math_round_Z in H. apply H.
      change (inject_Z 1000) with 1000. lra. }
  rewrite Zle_Qle in Hn0, Hn1.
  change (inject_Z 0) with 0 in Hn0.
  change (inject_Z 1000) with 1000 in Hn1.
  generalize dependent (inject_Z (JS.Math_round (x * 1000))).
  intros q Hq0 Hq1. qdiv_consts. split; lra.
Qed.

(** C10: with a positive hippocampus volume and a non-negative
    inferior-lateral-ventricle volume, the HOC value is a number (not
    null) between 0 and 1 inclusive: the occupancy ratio
    hippocampus / (hippocampus + ILV), which lies in (0, 1], rounded to
    three decimals. *)
Theorem calculateHOC_value_in_unit_interval
    (volumes : Volumes) (age : Q) (h : Q) :
  JS.get volumes "Hippocampus" = Some h ->
  0 < h ->
  (forall i, JS.get volumes "Inferior-Lateral-Ventricle" = Some i -> 0 <= i) ->
  let ilv := JS.orElse (JS.get volumes "Inferior-Lateral-Ventricle") 0 in
  let ratio := h / (h + ilv) in
  0 < ratio /\ ratio <= 1 /\
  exists v,
    HOC.value (calculateHOC Math_exp volumes age) = Some v /\
    v = inject_Z (JS.Math_round (ratio * 1000)) / 1000 /\
    0 <= v /\ v <= 1.
Proof.
  intros Hh Hpos Hilv ilv ratio.
  assert (0 <= ilv) as Hi.
  { unfold ilv, JS.orElse.
    destruct (JS.get volumes "Inferior-Lateral-Ventricle") as [i |].
    - destruct (JS.isZero i); [lra | apply Hilv; reflexivity].
    - lra. }
  destruct (occupancy_ratio_range h ilv Hpos Hi) as [Hr0 Hr1].
  split; [exact Hr0 | split; [exact Hr1 |]].
  eexists. split.
  - apply calculateHOC_value; [exact Hh | lra].
  - split; [reflexivity |].
    apply round_thousandths_range; [apply Qlt_le_weak; exact Hr0 | exact Hr1].
Qed.

End HOC_properties.

Lemma calculateHOC_without_hippocampus_witness :
  HOC.value (calculateHOC Sample.Math_exp Sample.noHippocampus 70) = None.
Proof.
  rewrite (calculateHOC_without_hippocampus Sample.Math_exp
             Sample.noHippocampus 70).
  - reflexivity.
  - left. reflexivity.
Defined.

Lemma calculateHOC_value_in_unit_interval_witness :
  exists v,
    HOC.value (calculateHOC Sample.Math_exp Sample.typical 70) = Some v /\
    0 <= v /\ v <= 1.
Proof.
  destruct (calculateHOC_value_in_unit_interval Sample.Math_exp
              Sample.typical 70 6900) as [_ [_ [v [Hv [_ Hrange]]]]].
  - reflexivity.
  - reflexivity.
  - intros i Hi. vm_compute in Hi. inversion Hi. discriminate.
  - exists v. split; [exact Hv | exact Hrange].
Defined.


(** *** The MTA score *)

(** The age-adjusted threshold the code selects. *)
Lemma calculateMTAScore_ageThreshold
    (volumes : Volumes) (hippoZscore : option Q) (age : Q) :
  MTAResult.ageThreshold (calculateMTAScore volumes hippoZscore age) =
  if JS.lt age 65 then 1.0
  else if JS.lt age 75 then 1.5
  else if JS.lt age 85 then 2.0
  else if JS.lt age 100 then 2.5
  else 2.0.
Proof.
  unfold calculateMTAScore.
  destruct (JS.gt (JS.orElse (JS.get volumes "Hippocampus") 0) 0);
    reflexivity.
Qed.

(** Below 100 the threshold is the one of the table's comments. *)
Lemma calculateMTAScore_ageThreshold_below_100
    (volumes : Volumes) (hippoZscore : option Q) (age : Q) :
  age < 100 ->
  MTAResult.ageThreshold (calculateMTAScore volumes hippoZscore age) =
  if JS.lt age 65 then 1.0
  else if JS.lt age 75 then 1.5
  else if JS.lt age 85 then 2.0
  else 2.5.
Proof.
  intro H. rewrite calculateMTAScore_ageThreshold.
  apply lt_true_iff in H. rewrite H. reflexivity.
Qed.

(** From 100 on no table entry matches and the initial value 2.0 stays. *)
Lemma calculateMTAScore_ageThreshold_from_100
    (volumes : Volumes) (hippoZscore : option Q) (age : Q) :
  100 <= age ->
  MTAResult.ageThreshold (calculateMTAScore volumes hippoZscore age) = 2.0.
Proof.
  intro H. rewrite calculateMTAScore_ageThreshold.
  case_cmp; try reflexivity; exfalso; lra.
Qed.

(** The score is flagged abnormal iff it exceeds the selected threshold. *)
Lemma calculateMTAScore_isAbnormal
    (volumes : Volumes) (hippoZscore : option Q) (age : Q) :
  let r := calculateMTAScore volumes hippoZscore age in
  MTAResult.isAbnormal r = true <->
  MTAResult.ageThreshold r < MTAResult.score r.
Proof.
  unfold calculateMTAScore.
  destruct (JS.gt (JS.orElse (JS.get volumes "Hippocampus") 0) 0);
    cbn [MTAResult.isAbnormal MTAResult.ageThreshold MTAResult.score];
    apply gt_true_iff.
Qed.

(** C3, at the failing input: for a patient aged 100 the threshold the code
    uses is 2.0 where the claim (and the table's own comment) says 2.5, so
    an MTA score of 2.5 is flagged abnormal although it does not exceed
    2.5. *)
Theorem calculateMTAScore_age_100 :
  let r := calculateMTAScore Sample.atrophic (Some (-1.8)) 100 in
  MTAResult.score r == 2.5 /\
  MTAResult.ageThreshold r = 2.0 /\
  MTAResult.isAbnormal r = true /\
  JS.gt (MTAResult.score r) 2.5 = false.
Proof.
  vm_compute. repeat split; reflexivity.
Qed.

(** *** Clinical patterns *)

(** The patterns of the report are those detected on its results. *)
Lemma analyzeAtrophy_patterns (Math_exp : Q -> Q) (regionVolumes : Volumes)
    (age : Q) (sex : Sex) :
  Report.clinicalPatterns (analyzeAtrophy Math_exp regionVolumes age sex) =
  detectClinicalPatterns
    (Report.results (analyzeAtrophy Math_exp regionVolumes age sex)).
Proof. reflexivity. Qed.

(** C5, at the failing input: for a male of 70 whose parenchymal regions
    are at their expected means, [estimateICV] keeps its BPF-based estimate,
    so [calculateBPF] returns a z-score of exactly 0; the hippocampal
    effective z is 0.91 and HOC is 0.873, no other pattern fires, yet the
    Normal-Aging pattern comes out with confidence Moderate, not High: the
    zero z-score is falsy in the guard. *)
Theorem normalAging_with_zero_BPF_zscore (Math_exp : Q -> Q) :
  let report := analyzeAtrophy Math_exp Sample.typical 70 male in
  let results := Report.results report in
  Report.icv report = 1374382%Z /\
  bpfZscoreOf results = Some (0 # 100) /\
  hocValueOf results = Some (873 # 1000) /\
  effectiveZscoreOf results "Hippocampus" = Some 0.91 /\
  map Pattern.pattern (Report.clinicalPatterns report) =
    [CLINICAL_PATTERNS.normalAging_name] /\
  map Pattern.confidence (Report.clinicalPatterns report) = ["Moderate"].
Proof.
  intros report results.
  repeat split; vm_compute; reflexivity.
Qed.

(** With a non-zero BPF z-score of at least -1.5, normal hippocampal z and
    HOC, and no other pattern, the Normal-Aging pattern has confidence
    High. *)
Lemma normalAging_high (results : Results.t) (z : Q) :
  earlyMCIBlock results
    (vascularBlock results
       (frontotemporalBlock results (alzheimerBlock results []))) = [] ->
  bpfZscoreOf results = Some z ->
  ~ z == 0 ->
  -1.5 <= z ->
  falsyOr (effectiveZscoreOf results "Hippocampus")
    (fun h => JS.ge h (-1.5)) = true ->
  falsyOr (hocValueOf results) (fun h => JS.ge h 0.80) = true ->
  map Pattern.confidence (detectClinicalPatterns results) = ["High"].
Proof.
  intros Hnone Hbpf Hnz Hz Hhippo Hhoc.
  unfold detectClinicalPatterns. cbv zeta. rewrite Hnone.
  unfold normalAgingBlock. rewrite Hbpf, Hhippo, Hhoc.
  unfold truthyAnd, JS.truthy.
  apply isZero_false_iff in Hnz. rewrite Hnz.
  apply ge_true_iff in Hz. cbn [definedAnd]. rewrite Hz.
  reflexivity.
Qed.

Lemma truthyAnd_gt_half (x : option Q) :
  truthyAnd x (fun z => JS.gt z 0.5) = definedAnd x (fun z => JS.gt z 0.5).
Proof.
  unfold truthyAnd, JS.truthy. destruct x as [z |]; [| reflexivity].
  cbn [definedAnd]. destruct (JS.isZero z) eqn:Hz; [| reflexivity].
  apply isZero_true_iff in Hz. cbn [negb andb]. symmetry.
  apply gt_false_iff. lra.
Qed.

Lemma falsyOr_ge (x : option Q) (bound : Q) :
  bound <= 0 ->
  (forall z, x = Some z -> bound <= z) ->
  falsyOr x (fun z => JS.ge z bound) = true.
Proof.
  intros Hb Hx. unfold falsyOr, JS.truthy. destruct x as [z |]; [| reflexivity].
  cbn [definedAnd]. apply orb_true_iff. right. apply ge_true_iff.
  apply Hx. reflexivity.
Qed.

Lemma length_snoc_nonzero {A : Type} (l : list A) (a : A) :
  (List.length (l ++ [a]) =? 0)%nat = false.
Proof.
  rewrite length_app. cbn [List.length]. rewrite Nat.add_1_r. reflexivity.
Qed.

(** Once a pattern has been added, neither Normal-Aging block adds one. *)
Lemma normalAging_blocks_skip (results : Results.t)
    (earlier : list Pattern.t) (p : Pattern.t) :
  cautionaryBlock (normalAgingBlock results (earlier ++ [p])) =
  (earlier ++ [p])%list.
Proof.
  unfold normalAgingBlock. rewrite length_snoc_nonzero. cbn [andb].
  unfold cautionaryBlock. rewrite length_snoc_nonzero. reflexivity.
Qed.

(** The levels of the capped escalation, spelled out. *)
Lemma earlyMCI_confidence_capped_cases (h : Q) (ilvZ : option Q) :
  Spec.earlyMCI_confidence_capped h ilvZ =
  if JS.lt h 0.70 then "Moderate"
  else if JS.lt h 0.75
       then (if definedAnd ilvZ (fun z => JS.gt z 0.5)
             then "Moderate" else "Low-Moderate")
       else (if definedAnd ilvZ (fun z => JS.gt z 0.5)
             then "Low-Moderate" else "Low").
Proof.
  unfold Spec.earlyMCI_confidence_capped, Spec.earlyMCI_base.
  destruct (JS.lt h 0.70); destruct (JS.lt h 0.75);
    destruct (definedAnd ilvZ (fun z => JS.gt z 0.5)); reflexivity.
Qed.

(** C4, as the code has it: when HOC is defined, non-zero and below 0.80
    and the hippocampal effective z is undefined or at least -1.5, the
    Early-MCI pattern is the last pattern emitted; its base confidence is
    Moderate for HOC < 0.70, Low-Moderate for 0.70 <= HOC < 0.75 and Low
    otherwise, and an inferior-lateral-ventricle z-score above 0.5 raises it
    one level except that Moderate stays Moderate (High is never reached). *)
Theorem earlyMCI_confidence_capped_at_moderate
    (results : Results.t) (h : Q) :
  hocValueOf results = Some h ->
  ~ h == 0 ->
  h < 0.80 ->
  (forall z, effectiveZscoreOf results "Hippocampus" = Some z -> -1.5 <= z) ->
  exists earlier p,
    detectClinicalPatterns results = (earlier ++ [p])%list /\
    Pattern.pattern p = earlyMCI_name /\
    Pattern.confidence p =
      Spec.earlyMCI_confidence_capped h
        (zscoreOf results "Inferior-Lateral-Ventricle").
Proof.
  intros Hhoc Hnz Hlow Hhippo.
  unfold detectClinicalPatterns. cbv zeta.
  set (earlier :=
         vascularBlock results
           (frontotemporalBlock results (alzheimerBlock results []))).
  assert (exists p,
             earlyMCIBlock results earlier = (earlier ++ [p])%list /\
             Pattern.pattern p = earlyMCI_name /\
             Pattern.confidence p =
               Spec.earlyMCI_confidence_capped h
                 (zscoreOf results "Inferior-Lateral-Ventricle"))
    as [p [Hblock Hp]].
  { unfold earlyMCIBlock. rewrite Hhoc.
    rewrite (falsyOr_ge _ (-1.5)); [| lra | exact Hhippo].
    unfold truthyAnd at 1. unfold JS.truthy.
    apply isZero_false_iff in Hnz. rewrite Hnz.
    apply lt_true_iff in Hlow. cbn [definedAnd negb andb]. rewrite Hlow.
    rewrite truthyAnd_gt_half.
    rewrite earlyMCI_confidence_capped_cases.
    destruct (JS.lt h 0.70); destruct (JS.lt h 0.75);
      destruct (definedAnd (zscoreOf results "Inferior-Lateral-Ventricle")
                  (fun z => JS.gt z 0.5));
      eexists; (split; [reflexivity | split; reflexivity]). }
  exists earlier, p. split; [| exact Hp].
  rewrite Hblock. apply normalAging_blocks_skip.
Qed.

Lemma earlyMCI_confidence_capped_at_moderate_witness :
  exists earlier p,
    Report.clinicalPatterns (Sample.report Sample.horns) =
      (earlier ++ [p])%list /\
    Pattern.pattern p = earlyMCI_name /\
    Pattern.confidence p = "Moderate".
Proof.
  destruct (earlyMCI_confidence_capped_at_moderate
              (Report.results (Sample.report Sample.horns)) (650 # 1000))
    as [earlier [p [Hdetect [Hname Hconf]]]].
  - vm_compute. reflexivity.
  - vm_compute. discriminate.
  - vm_compute. reflexivity.
  - intros z Hz. vm_compute in Hz. inversion Hz. vm_compute. discriminate.
  - exists earlier, p. split; [| split; [exact Hname |]].
    + unfold Sample.report in *. rewrite analyzeAtrophy_patterns.
      exact Hdetect.
    + rewrite Hconf. vm_compute. reflexivity.
Defined.

(** C4, as the specification words it, fails: for a male of 70 with a
    hippocampus of 6500 and temporal horns of 3500 mm3, HOC is 0.65 (base
    Moderate), the hippocampal effective z is 0.35 and the
    inferior-lateral-ventricle z-score is 2.92; one level above Moderate is
    High, but the pattern's confidence is Moderate. *)
Lemma earlyMCI_moderate_not_raised :
  let results := Report.results (Sample.report Sample.horns) in
  let h := 650 # 1000 in
  let ilvZ := 2.92 in
  hocValueOf results = Some h /\
  h < 0.80 /\
  effectiveZscoreOf results "Hippocampus" = Some 0.35 /\
  -1.5 <= 0.35 /\
  zscoreOf results "Inferior-Lateral-Ventricle" = Some ilvZ /\
  0.5 < ilvZ /\
  Spec.earlyMCI_base h = "Moderate" /\
  Spec.earlyMCI_confidence h (Some ilvZ) = "High" /\
  map Pattern.pattern (detectClinicalPatterns results) = [earlyMCI_name] /\
  map Pattern.confidence (detectClinicalPatterns results) = ["Moderate"] /\
  map Pattern.confidence (detectClinicalPatterns results) <>
    [Spec.earlyMCI_confidence h (Some ilvZ)].
Proof.
  intros results h ilvZ.
  repeat split; vm_compute; try reflexivity; discriminate.
Qed.

(** *** The atrophy-risk verdict *)

(** The loop's counters are the sizes of the exclusive severity buckets. *)
Lemma regionLoop_counts (scored : list ScoredRegion) (st : Loop.t) :
  let st' := fold_left regionStep scored st in
  Loop.criticalAtrophyCount st' =
    (Loop.criticalAtrophyCount st + Spec.criticalRegions scored)%nat /\
  Loop.moderateAtrophyCount st' =
    (Loop.moderateAtrophyCount st + Spec.moderateRegions scored)%nat /\
  Loop.mildAtrophyCount st' =
    (Loop.mildAtrophyCount st + Spec.mildRegions scored)%nat.
Proof.
  revert st. induction scored as [| r rest IH]; intro st; cbn zeta.
  - cbn. repeat split; lia.
  - cbn [fold_left]. destruct (IH (regionStep st r)) as [Hc [Hm Hl]].
    rewrite Hc, Hm, Hl.
    unfold Spec.criticalRegions, Spec.moderateRegions, Spec.mildRegions.
    cbn [filter]. unfold regionStep. fold (Spec.effectiveZ r).
    unfold JS.ge.
    destruct (JS.lt (Spec.effectiveZ r) (-2.5)) eqn:H25;
      destruct (JS.lt (Spec.effectiveZ r) (-2.0)) eqn:H20;
      destruct (JS.lt (Spec.effectiveZ r) (-1.5)) eqn:H15;
      cbn [negb andb List.length Loop.criticalAtrophyCount
           Loop.moderateAtrophyCount Loop.mildAtrophyCount];
      try (repeat split; lia);
      exfalso;
      repeat match goal with
             | H : JS.lt _ _ = true |- _ => apply lt_true_iff in H
             | H : JS.lt _ _ = false |- _ => apply lt_false_iff in H
             end; lra.
Qed.

(** The loop's hippocampal z-score is that of the last hippocampal region. *)
Lemma regionLoop_hippocampus (scored : list ScoredRegion) (st : Loop.t) :
  Loop.hippocampusZscore (fold_left regionStep scored st) =
  match Spec.hippocampalZ scored with
  | Some z => Some z
  | None => Loop.hippocampusZscore st
  end.
Proof.
  induction scored as [| r rest IH] using rev_ind.
  - reflexivity.
  - rewrite fold_left_app. cbn [fold_left].
    unfold Spec.hippocampalZ. rewrite rev_unit. cbn [find].
    unfold regionStep at 1. fold (Spec.effectiveZ r).
    fold (Spec.isHippocampal r).
    destruct (JS.lt (Spec.effectiveZ r) (-2.5));
      destruct (JS.lt (Spec.effectiveZ r) (-2.0));
      destruct (JS.lt (Spec.effectiveZ r) (-1.5));
      cbn [Loop.hippocampusZscore];
      (destruct (Spec.isHippocampal r); [reflexivity | exact IH]).
Qed.

Lemma truthyAnd_below (x : option Q) (bound : Q) :
  (forall v, x = Some v -> ~ v == 0) ->
  truthyAnd x (fun v => JS.lt v bound) = Spec.below x bound.
Proof.
  intro Hx. unfold truthyAnd, Spec.below, JS.truthy.
  destruct x as [v |]; [| reflexivity].
  assert (JS.isZero v = false) as Hz.
  { apply isZero_false_iff. apply Hx. reflexivity. }
  rewrite Hz. reflexivity.
Qed.

Lemma truthyAnd_below_negative (x : option Q) (bound : Q) :
  bound <= 0 ->
  truthyAnd x (fun v => JS.lt v bound) = Spec.below x bound.
Proof.
  intro Hb. unfold truthyAnd, Spec.below, JS.truthy.
  destruct x as [v |]; [| reflexivity].
  cbn [definedAnd]. destruct (JS.isZero v) eqn:Hz; [| reflexivity].
  apply isZero_true_iff in Hz. cbn [negb andb]. symmetry.
  apply lt_false_iff. lra.
Qed.

(** Step 4 is the first-match cascade over the evidence in the loop state,
    as long as a defined HOC is not zero. *)
Lemma atrophyRisk_cascade (st : Loop.t) (hocValue bpfZscore : option Q) :
  (forall h, hocValue = Some h -> ~ h == 0) ->
  fst (atrophyRisk st hocValue bpfZscore) =
  Spec.verdict
    {| Spec.critical := Loop.criticalAtrophyCount st;
       Spec.moderate := Loop.moderateAtrophyCount st;
       Spec.mild := Loop.mildAtrophyCount st;
       Spec.hippoZ := Loop.hippocampusZscore st;
       Spec.hoc := hocValue;
       Spec.bpfZ := bpfZscore |}.
Proof.
  intro Hhoc. unfold atrophyRisk. cbv zeta.
  rewrite !(truthyAnd_below hocValue) by exact Hhoc.
  rewrite (truthyAnd_below_negative bpfZscore) by lra.
  unfold Spec.verdict, Spec.rules. cbn [find fst snd].
  unfold Spec.highRule, Spec.moderateRule, Spec.mildRule, Spec.lowNormalRule.
  cbn [Spec.critical Spec.moderate Spec.mild Spec.hippoZ Spec.hoc Spec.bpfZ].
  fold (Spec.below (Loop.hippocampusZscore st) (-2.5)).
  fold (Spec.below (Loop.hippocampusZscore st) (-2.0)).
  fold (Spec.below (Loop.hippocampusZscore st) (-1.5)).
  fold (Spec.below (Loop.hippocampusZscore st) (-1.0)).
  repeat match goal with
         | |- context [if ?c then _ else _] =>
             match c with
             | context [if _ then _ else _] => fail 1
             | _ => destruct c
             end
         end; reflexivity.
Qed.

Lemma regionLoop_evidence (scored : list ScoredRegion)
    (hocValue bpfZscore : option Q) :
  {| Spec.critical := Loop.criticalAtrophyCount (regionLoop scored);
     Spec.moderate := Loop.moderateAtrophyCount (regionLoop scored);
     Spec.mild := Loop.mildAtrophyCount (regionLoop scored);
     Spec.hippoZ := Loop.hippocampusZscore (regionLoop scored);
     Spec.hoc := hocValue;
     Spec.bpfZ := bpfZscore |} =
  Spec.evidenceOf scored hocValue bpfZscore.
Proof.
  unfold regionLoop, Spec.evidenceOf.
  destruct (regionLoop_counts scored Loop.init) as [Hc [Hm Hl]].
  rewrite Hc, Hm, Hl, regionLoop_hippocampus.
  cbn [Loop.init Loop.criticalAtrophyCount Loop.moderateAtrophyCount
       Loop.mildAtrophyCount Loop.hippocampusZscore Nat.add].
  destruct (Spec.hippocampalZ scored); reflexivity.
Qed.

(** The loop over the entries is the loop over the regions that resolve. *)
Lemma analyzeRegions_scored (regionVolumes : Volumes) (age : Q) (sex : Sex)
    (estimatedICV : Q) :
  analyzeRegions regionVolumes age sex estimatedICV =
  regionLoop (scoredRegions regionVolumes age sex estimatedICV).
Proof.
  unfold analyzeRegions, regionLoop, scoredRegions.
  generalize Loop.init.
  induction regionVolumes as [| entry rest IH]; intro st.
  - reflexivity.
  - cbn [fold_left flat_map]. rewrite fold_left_app.
    destruct (scoreRegion age sex estimatedICV entry) as [r |];
      cbn [fold_left]; apply IH.
Qed.

(** The verdict of the whole analysis is the cascade over its evidence. *)
Lemma analyzeAtrophy_verdict (Math_exp : Q -> Q) (regionVolumes : Volumes)
    (age : Q) (sex : Sex) :
  let report := analyzeAtrophy Math_exp regionVolumes age sex in
  let results := Report.results report in
  (forall h, hocValueOf results = Some h -> ~ h == 0) ->
  Report.atrophyRisk report =
  Spec.verdict
    (Spec.evidenceOf
       (scoredRegions regionVolumes age sex (inject_Z (Report.icv report)))
       (hocValueOf results) (bpfZscoreOf results)).
Proof.
  intros report results Hhoc.
  unfold report, results, analyzeAtrophy in *. cbv zeta in *.
  rewrite analyzeRegions_scored in *.
  cbn [Report.atrophyRisk Report.results Report.icv] in *.
  unfold hocValueOf, bpfZscoreOf in *.
  cbn [Results.hoc Results.bpf option_map] in *.
  rewrite atrophyRisk_cascade by exact Hhoc.
  rewrite regionLoop_evidence. reflexivity.
Qed.


(** Where the HOC is undefined or non-zero the code agrees with the
    specification's cascade: the region counts are those of the mutually
    exclusive severity buckets and the verdict is the first matching rule
    in the order High, Moderate, Mild, Low-Normal, else Normal; so a report
    that meets a Moderate condition and a Mild condition, and no High
    condition before them, gets the verdict Moderate. *)
Lemma atrophyRisk_first_match
    (scored : list ScoredRegion) (hocValue bpfZscore : option Q) :
  (forall h, hocValue = Some h -> ~ h == 0) ->
  let st := regionLoop scored in
  let e := Spec.evidenceOf scored hocValue bpfZscore in
  let verdict := fst (atrophyRisk st hocValue bpfZscore) in
  Loop.criticalAtrophyCount st = Spec.criticalRegions scored /\
  Loop.moderateAtrophyCount st = Spec.moderateRegions scored /\
  Loop.mildAtrophyCount st = Spec.mildRegions scored /\
  verdict = Spec.verdict e /\
  (Spec.highRule e = false ->
   Spec.moderateRule e = true ->
   Spec.mildRule e = true ->
   verdict = "Moderate").
Proof.
  intros Hhoc st e verdict.
  destruct (regionLoop_counts scored Loop.init) as [Hc [Hm Hl]].
  fold (regionLoop scored) in Hc, Hm, Hl. fold st in Hc, Hm, Hl.
  cbn [Loop.init Loop.criticalAtrophyCount Loop.moderateAtrophyCount
       Loop.mildAtrophyCount Nat.add] in Hc, Hm, Hl.
  assert (verdict = Spec.verdict e) as Hverdict.
  { unfold verdict, st, e. rewrite atrophyRisk_cascade by exact Hhoc.
    rewrite regionLoop_evidence. reflexivity. }
  repeat split; try assumption.
  intros Hhigh Hmoderate _. rewrite Hverdict.
  unfold Spec.verdict, Spec.rules. cbn [find fst snd].
  rewrite Hhigh, Hmoderate. reflexivity.
Qed.

Lemma atrophyRisk_first_match_witness :
  Report.atrophyRisk (Sample.report Sample.horns) = "Moderate".
Proof.
  pose proof (atrophyRisk_first_match (Sample.scored Sample.horns)
                (Some (650 # 1000)) (Some (0 # 100))) as H.
  cbv zeta in H. destruct H as [_ [_ [_ [_ H]]]].
  - intros h Hh. inversion Hh. discriminate.
  - vm_compute. apply H; vm_compute; reflexivity.
Defined.

(** First match means that a High condition goes before both: for a male
    of 70 with a hippocampus of 4300 mm3 the hippocampal effective z is
    -2.71 (HOC 0.811, BPF z 0); the report meets a Moderate condition (one
    critical region, and hippocampal z < -2.0), a Mild condition
    (hippocampal z < -1.5) and the High condition hippocampal z < -2.5, and
    the verdict is High, in the code as in the cascade. *)
Lemma moderate_and_mild_yet_high :
  let report := Sample.report Sample.shrunken in
  let e :=
    Spec.evidenceOf (Sample.scored Sample.shrunken)
      (hocValueOf (Report.results report))
      (bpfZscoreOf (Report.results report)) in
  Spec.critical e = 1%nat /\
  Spec.hippoZ e = Some (-2.71) /\
  Spec.hoc e = Some (811 # 1000) /\
  Spec.bpfZ e = Some (0 # 100) /\
  Spec.highRule e = true /\
  Spec.moderateRule e = true /\
  Spec.mildRule e = true /\
  Spec.verdict e = "High" /\
  Report.atrophyRisk report = "High".
Proof.
  intros report e. repeat split; vm_compute; reflexivity.
Qed.

(** An HOC value of exactly 0 is falsy in the cascade's guards
    [hocValue && hocValue < t]: with no other evidence the verdict is
    Normal although 0 < 0.60. *)
Lemma atrophyRisk_zero_hoc :
  fst (atrophyRisk (regionLoop []) (Some 0) None) = "Normal" /\
  Spec.verdict (Spec.evidenceOf [] (Some 0) None) = "High".
Proof.
  split; vm_compute; reflexivity.
Qed.

Lemma truthyAnd_zero (h : Q) (test : Q -> bool) :
  h == 0 -> truthyAnd (Some h) test = false.
Proof.
  intro H. unfold truthyAnd, JS.truthy.
  rewrite (proj2 (isZero_true_iff h) H). reflexivity.
Qed.

(** C2: the verdict is the first matching rule over the listed
    conditions, HOC < 0.60 for High among them.  The code writes the HOC
    conditions [hocValue && hocValue < t], so a reported HOC of exactly 0
    (the rational 0 over any denominator) counts as no HOC at all, in
    every state of the loop; and for a
    hippocampus of 6600 mm3 beside temporal horns of 13 300 000 mm3 (male,
    70) the reported HOC is 0, the first matching rule is High (HOC <
    0.60; no other High condition holds: one critical region, hippocampal
    z -2.44) and the code's verdict is Moderate. *)
Theorem atrophyRisk_skips_zero_HOC :
  (forall (st : Loop.t) (d : positive) (bpfZscore : option Q),
     atrophyRisk st (Some (0 # d)) bpfZscore
     = atrophyRisk st None bpfZscore) /\
  let report := Sample.report Sample.flooded in
  let results := Report.results report in
  let e :=
    Spec.evidenceOf (Sample.scored Sample.flooded)
      (hocValueOf results) (bpfZscoreOf results) in
  hocValueOf results = Some (0 # 1000) /\
  Spec.critical e = 1%nat /\
  Spec.hippoZ e = Some (-2.44) /\
  Spec.highRule e = true /\
  Spec.verdict e = "High" /\
  Report.atrophyRisk report = "Moderate".
Proof.
  split.
  - intros st d bpfZscore. unfold atrophyRisk. cbv zeta.
    assert (0 # d == 0) as Hzero by reflexivity.
    rewrite !(truthyAnd_zero (0 # d) _ Hzero). reflexivity.
  - cbv zeta. repeat split; vm_compute; reflexivity.
Qed.

(** *** ICV estimation *)

Lemma accumulateVolumes_from (volumes : Volumes) (b0 v0 : Q) :
  let '(b, v) :=
    fold_left
      (fun (acc : Q * Q) (entry : string * Q) =>
         let '(brainVolume, ventricleVolume) := acc in
         let '(region, volume) := entry in
         if JS.includes (JS.toLowerCase region) "ventricle"
         then (brainVolume, ventricleVolume + volume)
         else (brainVolume + volume, ventricleVolume))
      volumes (b0, v0) in
  b == b0 + Spec.parenchymal volumes /\ v == v0 + Spec.ventricular volumes.
Proof.
  revert b0 v0. induction volumes as [| [region volume] rest IH]; intros b0 v0.
  - cbn. split; lra.
  - cbn [fold_left].
    unfold Spec.parenchymal, Spec.ventricular. cbn [filter fst].
    unfold Spec.isVentricular.
    destruct (JS.includes (JS.toLowerCase region) "ventricle");
      cbn [negb Spec.total fold_right snd].
    + specialize (IH b0 (v0 + volume)).
      destruct (fold_left _ rest (b0, v0 + volume)) as [b v].
      destruct IH as [Hb Hv]. split.
      * exact Hb.
      * rewrite Hv. unfold Spec.ventricular, Spec.isVentricular, Spec.total.
        lra.
    + specialize (IH (b0 + volume) v0).
      destruct (fold_left _ rest (b0 + volume, v0)) as [b v].
      destruct IH as [Hb Hv]. split.
      * rewrite Hb. unfold Spec.parenchymal, Spec.isVentricular, Spec.total.
        lra.
      * exact Hv.
Qed.

(** The loop partitions the volumes into parenchymal and ventricular. *)
Lemma accumulateVolumes_partition (volumes : Volumes) :
  fst (accumulateVolumes volumes) == Spec.parenchymal volumes /\
  snd (accumulateVolumes volumes) == Spec.ventricular volumes.
Proof.
  unfold accumulateVolumes.
  pose proof (accumulateVolumes_from volumes 0 0) as H.
  destruct (fold_left _ volumes (0, 0)) as [b v].
  destruct H as [Hb Hv]. cbn [fst snd]. split; lra.
Qed.

(** Rounding to the decade and clamping commute. *)
Lemma ageDecade_anchor (age : Q) : ageDecade 20 age = Spec.ageAnchor age.
Proof.
  unfold ageDecade, Spec.ageAnchor, Spec.clampAge.
  case_lt age 20; [| unfold JS.gt; case_lt 80 age].
  - assert (JS.Math_round (age / 10) <= 2)%Z as H.
    { rewrite <- (Math_round_Z 2). apply Math_round_le.
      change (inject_Z 2) with 2. qdiv_consts. lra. }
    change (JS.Math_round (20 / 10)) with 2%Z. lia.
  - assert (8 <= JS.Math_round (age / 10))%Z as H.
    { rewrite <- (Math_round_Z 8) at 1. apply Math_round_le.
      change (inject_Z 8) with 8. qdiv_consts. lra. }
    change (JS.Math_round (80 / 10)) with 8%Z. lia.
  - assert (2 <= JS.Math_round (age / 10) <= 8)%Z as H.
    { split.
      - rewrite <- (Math_round_Z 2) at 1. apply Math_round_le.
        change (inject_Z 2) with 2. qdiv_consts. lra.
      - rewrite <- (Math_round_Z 8). apply Math_round_le.
        change (inject_Z 8) with 8. qdiv_consts. lra. }
    lia.
Qed.

Lemma ageDecade_values (age : Q) :
  let d := ageDecade 20 age in
  (d = 20 \/ d = 30 \/ d = 40 \/ d = 50 \/ d = 60 \/ d = 70 \/ d = 80)%Z.
Proof.
  unfold ageDecade. lia.
Qed.

(** The expected BPF the code divides by is the anchor table's entry. *)
Lemma expectedBPF_anchor (age : Q) :
  Spec.expectedBPF age =
  Some (JS.orElse (option_map mean (BPF_NORMATIVE.byAge (ageDecade 20 age)))
          0.76).
Proof.
  unfold Spec.expectedBPF. rewrite <- ageDecade_anchor.
  destruct (ageDecade_values age) as [H | [H | [H | [H | [H | [H | H]]]]]];
    rewrite H; reflexivity.
Qed.

Lemma Math_max_floorAt (x bound : Q) :
  JS.Math_max x bound == Spec.floorAt bound x.
Proof.
  unfold JS.Math_max, Spec.floorAt. case_lt x bound.
  - apply Q.max_r. lra.
  - apply Q.max_l. exact Hcmp.
Qed.

Lemma Math_min_ceilingAt (x bound : Q) :
  JS.Math_min x bound == Spec.ceilingAt bound x.
Proof.
  unfold JS.Math_min, Spec.ceilingAt, JS.gt. case_lt bound x.
  - apply Q.min_r. lra.
  - apply Q.min_l. exact Hcmp.
Qed.

#[local] Instance floorAt_compat : Proper (Qeq ==> Qeq ==> Qeq) Spec.floorAt.
Proof.
  intros b b' Hb x x' Hx. unfold Spec.floorAt.
  rewrite (lt_compat x x' Hx b b' Hb). destruct (JS.lt x' b'); assumption.
Qed.

#[local] Instance ceilingAt_compat
  : Proper (Qeq ==> Qeq ==> Qeq) Spec.ceilingAt.
Proof.
  intros b b' Hb x x' Hx. unfold Spec.ceilingAt, JS.gt.
  rewrite (lt_compat b b' Hb x x' Hx). destruct (JS.lt b' x'); assumption.
Qed.

(** The blend with the anatomical estimate happens exactly when the
    BPF-based estimate is outside the physiological band. *)
Lemma primary_estimate (a a' b b' lower upper : Q) :
  a == a' -> b == b' ->
  (if (JS.lt a lower || JS.gt a upper)%bool then (a + b) / 2 else a) ==
  (if (JS.le lower a' && JS.le a' upper)%bool then a' else (a' + b') / 2).
Proof.
  intros Ha Hb. unfold JS.gt, JS.le.
  rewrite (lt_compat a a' Ha lower lower (Qeq_refl lower)).
  rewrite (lt_compat upper upper (Qeq_refl upper) a a' Ha).
  destruct (JS.lt a' lower); destruct (JS.lt upper a'); cbn [negb andb orb];
    try exact Ha; rewrite Ha, Hb; reflexivity.
Qed.

(** An integer nearest to [x], ties going up, is unique. *)
Lemma nearestInteger_unique (x : Q) (n m : Z) :
  Spec.nearestInteger x n -> Spec.nearestInteger x m -> n = m.
Proof.
  unfold Spec.nearestInteger. intros [Hn1 Hn2] [Hm1 Hm2].
  assert (inject_Z n < inject_Z m + 1) as H1.
  { generalize dependent (inject_Z n). generalize dependent (inject_Z m).
    intros. lra. }
  assert (inject_Z m < inject_Z n + 1) as H2.
  { generalize dependent (inject_Z n). generalize dependent (inject_Z m).
    intros. lra. }
  change 1 with (inject_Z 1) in H1, H2.
  rewrite <- inject_Z_plus, <- Zlt_Qlt in H1, H2. lia.
Qed.

(** C1: [estimateICV] partitions the volumes into parenchymal and
    ventricular by the case-insensitive "ventricle" test, divides the
    parenchymal volume by the expected BPF of the nearest age decade
    (clamped to 20..80), replaces that estimate by its average with
    segmentedTotal x 1.12 exactly when it is outside mean +/- 3 SD for the
    sex, then applies the floor at segmentedTotal x 1.05, the ceiling at the
    upper bound and the floor at the lower bound, and returns the nearest
    integer. *)
Theorem estimateICV_spec (volumes : Volumes) (age : Q) (sex : Sex) :
  fst (accumulateVolumes volumes) == Spec.parenchymal volumes /\
  snd (accumulateVolumes volumes) == Spec.ventricular volumes /\
  exists bpf,
    Spec.expectedBPF age = Some bpf /\
    Spec.nearestInteger (Spec.icvBeforeRounding volumes bpf sex)
      (estimateICV volumes age sex).
Proof.
  destruct (accumulateVolumes_partition volumes) as [Hb Hv].
  split; [exact Hb | split; [exact Hv |]].
  eexists. split; [apply expectedBPF_anchor |].
  unfold estimateICV.
  destruct (accumulateVolumes volumes) as [b v]. cbn [fst snd] in Hb, Hv.
  cbv zeta.
  set (bpf := JS.orElse _ 0.76).
  match goal with
  | |- Spec.nearestInteger ?s (JS.Math_round ?c) =>
      assert (c == s) as Heq
  end.
  { unfold Spec.icvBeforeRounding. cbv zeta.
    rewrite !Math_max_floorAt, Math_min_ceilingAt.
    apply floorAt_compat; [reflexivity |].
    apply ceilingAt_compat; [reflexivity |].
    apply floorAt_compat; [rewrite Hb, Hv; reflexivity |].
    apply primary_estimate; rewrite Hb, ?Hv; reflexivity. }
  unfold Spec.nearestInteger. rewrite <- Heq. apply Math_round_nearest.
Qed.


(** *** The normal CDF approximation *)

Lemma poly_difference (u v : Q) :
  Erfc.poly u - Erfc.poly v == (u - v) * Erfc.meanSlope u v.
Proof.
  unfold Erfc.poly, Erfc.meanSlope, Erfc.r1, Erfc.r2, Erfc.m. ring.
Qed.

Lemma form_nonneg (x y : Q) : 0 <= x * x + x * y + y * y.
Proof. nra. Qed.

Lemma meanSlope_nonneg (u v : Q) : 0 <= Erfc.meanSlope u v.
Proof.
  unfold Erfc.meanSlope. cbv zeta.
  assert (0 < Erfc.r1) as Hr1 by reflexivity.
  assert (0 < Erfc.r2) as Hr2 by reflexivity.
  pose proof (form_nonneg (u + -0.284496736) (v + -0.284496736)) as Hk.
  pose proof (form_nonneg u v) as Huv.
  set (A := v * v + Erfc.m * v + (u - v) * (2 * v + Erfc.m) * (1 # 2)
            + (u - v) * (u - v) * (1 # 3)).
  set (B := (u - v) * (2 * v + Erfc.m) + (u - v) * (u - v)).
  set (C := (u - v) * (u - v)).
  assert (0 <= A * A) as HA by nra.
  assert (0 <= B * B) as HB by nra.
  assert (0 <= C * C) as HC by nra.
  nra.
Qed.

(** The polynomial is non-decreasing. *)
Lemma poly_mono (u v : Q) : v <= u -> Erfc.poly v <= Erfc.poly u.
Proof.
  intro H. pose proof (poly_difference u v) as Hd.
  pose proof (meanSlope_nonneg u v) as Hs. nra.
Qed.

Lemma poly_range (t : Q) :
  0 <= t -> t <= 1 -> 0 <= Erfc.poly t /\ Erfc.poly t <= 0.999999999.
Proof.
  intros H0 H1. split.
  - assert (Erfc.poly 0 == 0) as Hz by reflexivity.
    rewrite <- Hz. apply poly_mono. exact H0.
  - assert (Erfc.poly 1 == 0.999999999) as Ho by reflexivity.
    rewrite <- Ho. apply poly_mono. exact H1.
Qed.

(** [1 / (1 + p x)] lies in (0, 1] and does not increase with [x >= 0]. *)
Lemma reciprocal_range (x : Q) :
  0 <= x ->
  0 < 1.0 / (1.0 + 0.3275911 * x) /\ 1.0 / (1.0 + 0.3275911 * x) <= 1.
Proof.
  intro H. split.
  - apply Qlt_shift_div_l; lra.
  - apply Qle_shift_div_r; lra.
Qed.


Section CDF_properties.

Variable Math_exp : Q -> Q.

(** [Math.exp(0)] is 1 (ECMAScript fixes this value); the implementation
    is non-decreasing and never negative, as the exponential is. *)
Hypothesis exp_zero : Math_exp 0 == 1.
Hypothesis exp_mono : forall x y, x <= y -> Math_exp x <= Math_exp y.
Hypothesis exp_nonneg : forall x, 0 <= Math_exp x.


Lemma exp_le_one (x : Q) : x <= 0 -> Math_exp x <= 1.
Proof.
  intro H. rewrite <- exp_zero. apply exp_mono. exact H.
Qed.

Lemma normalCDF_unfold (z : Q) :
  normalCDF Math_exp z =
  0.5 * (1.0 + (if JS.lt z 0 then -1 else 1)
               * (1.0 - Erfc.tail Math_exp (JS.Math_abs z / JS.Math_sqrt2))).
Proof. reflexivity. Qed.

Lemma tail_range (x : Q) :
  0 <= x ->
  0 <= Erfc.tail Math_exp x /\ Erfc.tail Math_exp x <= 0.999999999.
Proof.
  intro H. unfold Erfc.tail.
  destruct (reciprocal_range x H) as [Ht0 Ht1].
  destruct (poly_range _ (Qlt_le_weak _ _ Ht0) Ht1) as [Hp0 Hp1].
  pose proof (exp_nonneg (- x * x)) as He0.
  assert (Math_exp (- x * x) <= 1) as He1 by (apply exp_le_one; nra).
  split; nra.
Qed.


Lemma scaled_abs_nonneg (z : Q) : 0 <= JS.Math_abs z / JS.Math_sqrt2.
Proof.
  unfold JS.Math_abs, JS.Math_sqrt2. pose proof (Qabs_nonneg z) as H.
  qdiv_consts. generalize dependent (Qabs z). intros a H. lra.
Qed.



End CDF_properties.

(** The rational stand-in for the exponential meets the three assumptions. *)
Lemma sample_exp_zero : Sample.Math_exp 0 == 1.
Proof. reflexivity. Qed.

Lemma sample_exp_nonneg (x : Q) : 0 <= Sample.Math_exp x.
Proof.
  unfold Sample.Math_exp. case_lt x 0.
  - apply Qle_shift_div_l; lra.
  - lra.
Qed.

Lemma sample_exp_mono (x y : Q) :
  x <= y -> Sample.Math_exp x <= Sample.Math_exp y.
Proof.
  intro H. unfold Sample.Math_exp. case_lt x 0; case_lt y 0.
  - apply Qle_shift_div_r; [lra |].
    assert (1 / (1 - y) * (1 - x) == (1 - x) / (1 - y)) as Heq
      by (field; lra).
    rewrite Heq. apply Qle_shift_div_l; lra.
  - apply Qle_shift_div_r; [lra |]. nra.
  - exfalso. lra.
  - lra.
Qed.

Section Binary64_properties.

Import PrimFloat.
#[local] Set Warnings "-inexact-float".





End Binary64_properties.

(** ** Further properties of the engine *)

(** *** ICV estimate and brain parenchymal fraction *)

(** [estimateICV] is the rounding of the bounded estimate. *)
Lemma estimateICV_rounds (volumes : Volumes) (age : Q) (sex : Sex) :
  estimateICV volumes age sex =
  JS.Math_round
    (Spec.icvBeforeRounding volumes
       (JS.orElse (option_map mean (BPF_NORMATIVE.byAge (ageDecade 20 age)))
          0.76)
       sex).
Proof.
  destruct (accumulateVolumes_partition volumes) as [Hb Hv].
  unfold estimateICV.
  destruct (accumulateVolumes volumes) as [b v]. cbn [fst snd] in Hb, Hv.
  cbv zeta. apply Math_round_compat.
  unfold Spec.icvBeforeRounding. cbv zeta.
  rewrite !Math_max_floorAt, Math_min_ceilingAt.
  apply floorAt_compat; [reflexivity |].
  apply ceilingAt_compat; [reflexivity |].
  apply floorAt_compat; [rewrite Hb, Hv; reflexivity |].
  apply primary_estimate; rewrite Hb, ?Hv; reflexivity.
Qed.

Lemma floorAt_range (lower upper x : Q) :
  lower <= upper ->
  lower <= Spec.floorAt lower (Spec.ceilingAt upper x) /\
  Spec.floorAt lower (Spec.ceilingAt upper x) <= upper.
Proof.
  intro H. unfold Spec.floorAt, Spec.ceilingAt, JS.gt.
  case_lt upper x; case_cmp; split; lra.
Qed.

(** X1: whatever the volumes and the age, the estimated ICV lies in the
    sex-specific band mean - 3 SD .. mean + 3 SD: 1160000..1940000 for
    males and 1020000..1680000 for females. *)
Theorem estimateICV_in_band (volumes : Volumes) (age : Q) (sex : Sex) :
  (match sex with
   | male => 1160000 <= estimateICV volumes age sex <= 1940000
   | female => 1020000 <= estimateICV volumes age sex <= 1680000
   end)%Z.
Proof.
  rewrite estimateICV_rounds. unfold Spec.icvBeforeRounding. cbv zeta.
  match goal with
  | |- context [Spec.floorAt ?lo (Spec.ceilingAt ?hi ?x)] =>
      assert (lo <= hi) as Hband by (destruct sex; discriminate);
      destruct (floorAt_range lo hi x Hband) as [Hlo Hhi];
      generalize dependent (Spec.floorAt lo (Spec.ceilingAt hi x))
  end.
  intros y Hlo Hhi.
  destruct sex; cbn [ICV_REFERENCE.mean ICV_REFERENCE.sd] in Hlo, Hhi.
  - split.
    + rewrite <- (Math_round_Z 1160000). apply Math_round_le.
      change (inject_Z 1160000) with 1160000. lra.
    + rewrite <- (Math_round_Z 1940000). apply Math_round_le.
      change (inject_Z 1940000) with 1940000. lra.
  - split.
    + rewrite <- (Math_round_Z 1020000). apply Math_round_le.
      change (inject_Z 1020000) with 1020000. lra.
    + rewrite <- (Math_round_Z 1680000). apply Math_round_le.
      change (inject_Z 1680000) with 1680000. lra.
Qed.

Lemma Math_round_zero (x : Q) : -0.5 <= x -> x < 0.5 -> JS.Math_round x = 0%Z.
Proof.
  intros Hlo Hhi.
  apply (nearestInteger_unique x); [apply Math_round_nearest |].
  unfold Spec.nearestInteger. change (inject_Z 0) with 0. split; lra.
Qed.

(** The loop of [calculateBPF] sums the parenchymal volumes. *)
Lemma brainVolume_from (volumes : Volumes) (b0 : Q) :
  fold_left
    (fun (brainVolume : Q) (entry : string * Q) =>
       let '(region, volume) := entry in
       if negb (JS.includes (JS.toLowerCase region) "ventricle")
       then brainVolume + volume else brainVolume)
    volumes b0 == b0 + Spec.parenchymal volumes.
Proof.
  revert b0. induction volumes as [| [region volume] rest IH]; intro b0.
  - cbn. lra.
  - cbn [fold_left]. rewrite IH.
    unfold Spec.parenchymal. cbn [filter fst]. unfold Spec.isVentricular.
    destruct (JS.includes (JS.toLowerCase region) "ventricle");
      cbn [negb Spec.total fold_right snd]; unfold Spec.total; lra.
Qed.

(** A BPF computed against the rounding of [brain / expected] differs from
    the expected BPF by less than the z-score's rounding step. *)
Lemma bpf_zscore_negligible (par e sd q : Q) :
  0 < e -> e <= 1 -> 0.03 <= sd -> 1000000 <= q ->
  q - 0.5 <= par / e -> par / e < q + 0.5 ->
  -0.5 <= (par / q - e) / sd * 100 /\ (par / q - e) / sd * 100 < 0.5.
Proof.
  intros He0 He1 Hsd Hq Hlo Hhi.
  set (a := par / e) in *.
  assert (par == a * e) as Hpar by (unfold a; field; lra).
  assert ((par / q - e) / sd * 100 == (e * (a - q) * 100) / (q * sd)) as Hz.
  { rewrite Hpar. field. split; lra. }
  rewrite Hz. clear Hz Hpar. clearbody a.
  assert (0 <= (q - 1000000) * (sd - 0.03)) as Hw
    by (apply Qmult_le_0_compat; lra).
  assert (0 <= e * (a - q + 0.5)) as Hy0
    by (apply Qmult_le_0_compat; lra).
  assert (0 <= e * (q + 0.5 - a)) as Hy1
    by (apply Qmult_le_0_compat; lra).
  split.
  - apply Qle_shift_div_l; lra.
  - apply Qlt_shift_div_r; lra.
Qed.

(** The BPF table has an entry for every age decade the code computes. *)
Lemma BPF_normative_entry (age : Q) :
  exists n,
    BPF_NORMATIVE.byAge (ageDecade 20 age) = Some n /\
    0 < mean n /\ mean n <= 1 /\ 0.03 <= sd n /\
    JS.orElse (Some (mean n)) 0.76 = mean n.
Proof.
  destruct (ageDecade_values age) as [H | [H | [H | [H | [H | [H | H]]]]]];
    rewrite H; eexists; (split; [reflexivity |]);
    cbn [mean sd]; repeat split; try reflexivity; discriminate.
Qed.

Section BPF_composition.

Variable Math_exp : Q -> Q.

(** X2: whenever the BPF-based ICV estimate (parenchymal volume divided by
    the expected BPF of the age decade) lies inside the sex-specific band
    and is at least 1.05 times the segmented total, [estimateICV] returns
    its rounding, and [calculateBPF] on that ICV reports a z-score of
    exactly 0: the BPF is then the expected BPF up to rounding. *)
Theorem calculateBPF_zscore_zero (volumes : Volumes) (age : Q) (sex : Sex) :
  let expectedBPF :=
    JS.orElse (option_map mean (BPF_NORMATIVE.byAge (ageDecade 20 age)))
      0.76 in
  let icvFromBPF := Spec.parenchymal volumes / expectedBPF in
  let segmentedTotal := Spec.parenchymal volumes + Spec.ventricular volumes in
  ICV_REFERENCE.mean sex - 3 * ICV_REFERENCE.sd sex <= icvFromBPF ->
  icvFromBPF <= ICV_REFERENCE.mean sex + 3 * ICV_REFERENCE.sd sex ->
  segmentedTotal * 1.05 <= icvFromBPF ->
  estimateICV volumes age sex = JS.Math_round icvFromBPF /\
  BPF.zscore
    (calculateBPF Math_exp volumes
       (inject_Z (estimateICV volumes age sex)) age) == 0.
Proof.
  intros expectedBPF icvFromBPF segmentedTotal Hlo Hhi Hfloor.
  assert (estimateICV volumes age sex = JS.Math_round icvFromBPF) as Hround.
  { rewrite estimateICV_rounds. apply Math_round_compat.
    unfold Spec.icvBeforeRounding. cbv zeta.
    fold expectedBPF. fold icvFromBPF. fold segmentedTotal.
    generalize dependent icvFromBPF. generalize dependent segmentedTotal.
    intros t a Hlo Hhi Hfloor.
    unfold Spec.floorAt, Spec.ceilingAt.
    generalize dependent (ICV_REFERENCE.mean sex - 3 * ICV_REFERENCE.sd sex).
    generalize dependent (ICV_REFERENCE.mean sex + 3 * ICV_REFERENCE.sd sex).
    intros upper Hhi lower Hlo.
    assert (JS.le lower a = true) as H1 by (apply le_true_iff; exact Hlo).
    assert (JS.le a upper = true) as H2 by (apply le_true_iff; exact Hhi).
    rewrite H1, H2. cbn [andb].
    assert (JS.lt a (t * 1.05) = false) as H3
      by (apply lt_false_iff; exact Hfloor).
    rewrite H3.
    assert (JS.gt a upper = false) as H4 by (apply gt_false_iff; exact Hhi).
    rewrite H4.
    assert (JS.lt a lower = false) as H5 by (apply lt_false_iff; exact Hlo).
    rewrite H5. reflexivity. }
  split; [exact Hround |].
  rewrite Hround.
  destruct (BPF_normative_entry age) as [n [Hn [He0 [He1 [Hsd Hor]]]]].
  assert (expectedBPF = mean n) as He.
  { unfold expectedBPF. rewrite Hn. exact Hor. }
  assert (1000000 <= inject_Z (JS.Math_round icvFromBPF)) as Hq.
  { assert (1000000 <= JS.Math_round icvFromBPF)%Z as Hz.
    { rewrite <- (Math_round_Z 1000000). apply Math_round_le.
      change (inject_Z 1000000) with 1000000.
      destruct sex; cbn [ICV_REFERENCE.mean ICV_REFERENCE.sd] in Hlo; lra. }
    rewrite Zle_Qle in Hz. exact Hz. }
  destruct (Math_round_nearest icvFromBPF) as [Hn0 Hn1].
  unfold calculateBPF. cbv zeta. rewrite Hn. cbn [BPF.zscore].
  match goal with
  | |- inject_Z (JS.Math_round ?x) / 100 == 0 =>
      assert (JS.Math_round x = 0%Z) as Hzero
  end.
  { rewrite (Math_round_compat _
               ((Spec.parenchymal volumes / inject_Z (JS.Math_round icvFromBPF)
                 - mean n) / sd n * 100)).
    - set (q := inject_Z (JS.Math_round icvFromBPF)) in *.
      unfold icvFromBPF in Hn0, Hn1. rewrite He in Hn0, Hn1.
      clearbody q.
      destruct (bpf_zscore_negligible (Spec.parenchymal volumes) (mean n)
                  (sd n) q He0 He1 Hsd Hq) as [Hz0 Hz1]; [lra | lra |].
      apply Math_round_zero; assumption.
    - rewrite brainVolume_from. 
      setoid_replace (0 + Spec.parenchymal volumes)
        with (Spec.parenchymal volumes) by ring.
      reflexivity. }
  rewrite Hzero. reflexivity.
Qed.

End BPF_composition.

Lemma calculateBPF_zscore_zero_witness :
  estimateICV Sample.typical 70 male = 1374382%Z /\
  BPF.zscore
    (calculateBPF Sample.Math_exp Sample.typical
       (inject_Z (estimateICV Sample.typical 70 male)) 70) == 0.
Proof.
  destruct (calculateBPF_zscore_zero Sample.Math_exp Sample.typical 70 male)
    as [Hicv Hz].
  - vm_compute. discriminate.
  - vm_compute. discriminate.
  - vm_compute. discriminate.
  - split; [| exact Hz]. rewrite Hicv. vm_compute. reflexivity.
Defined.

(** *** More on the normal CDF approximation *)

Section CDF_range.

Variable Math_exp : Q -> Q.
Hypothesis exp_zero : Math_exp 0 == 1.
Hypothesis exp_mono : forall x y, x <= y -> Math_exp x <= Math_exp y.
Hypothesis exp_nonneg : forall x, 0 <= Math_exp x.

(** X3: the approximation stays a probability: below 0.5 (and at least 0)
    for a negative argument, above 0.5 (and at most 1) from 0 on, so that
    the percentile [Math.round(normalCDF(z) * 100)] lies in 0..100.  In
    particular the value at 0 is above 0.5 and the function jumps there. *)
Theorem normalCDF_range (z : Q) :
  (z < 0 -> 0 <= normalCDF Math_exp z /\ normalCDF Math_exp z < 0.5) /\
  (0 <= z -> 0.5 < normalCDF Math_exp z /\ normalCDF Math_exp z <= 1) /\
  (0 <= JS.Math_round (normalCDF Math_exp z * 100) <= 100)%Z.
Proof.
  pose proof (tail_range Math_exp exp_zero exp_mono exp_nonneg _
                (scaled_abs_nonneg z)) as [Ht0 Ht1].
  assert (0 <= normalCDF Math_exp z /\ normalCDF Math_exp z <= 1) as [H0 H1].
  { rewrite normalCDF_unfold. case_lt z 0; split; lra. }
  split; [| split].
  - intro Hz. rewrite normalCDF_unfold.
    apply lt_true_iff in Hz. rewrite Hz. split; lra.
  - intro Hz. rewrite normalCDF_unfold.
    apply lt_false_iff in Hz. rewrite Hz. split; lra.
  - split.
    + pose proof (Math_round_le (inject_Z 0) (normalCDF Math_exp z * 100))
        as H.
      rewrite Math_round_Z in H. apply H. change (inject_Z 0) with 0. lra.
    + pose proof (Math_round_le (normalCDF Math_exp z * 100) (inject_Z 100))
        as H.
      rewrite Math_round_Z in H. apply H. change (inject_Z 100) with 100.
      lra.
Qed.

End CDF_range.

Lemma normalCDF_range_witness :
  0.5 < normalCDF Sample.Math_exp 0 /\
  (0 <= JS.Math_round (normalCDF Sample.Math_exp (-2) * 100) <= 100)%Z.
Proof.
  split.
  - apply (normalCDF_range Sample.Math_exp sample_exp_zero sample_exp_mono
             sample_exp_nonneg 0). discriminate.
  - apply (normalCDF_range Sample.Math_exp sample_exp_zero sample_exp_mono
             sample_exp_nonneg (-2)).
Defined.

Lemma Qabs_opp_eq (z : Q) : Qabs (- z) = Qabs z.
Proof.
  destruct z as [n d]. unfold Qabs, Qopp. cbn [Qnum Qden].
  rewrite Z.abs_opp. reflexivity.
Qed.

(** X4: for a non-zero argument the approximation is symmetric about 0.5,
    [normalCDF(-z) + normalCDF(z) = 1], whatever [Math.exp] returns. *)
Theorem normalCDF_symmetric (Math_exp : Q -> Q) (z : Q) :
  ~ z == 0 ->
  normalCDF Math_exp (- z) + normalCDF Math_exp z == 1.
Proof.
  intro Hz. unfold normalCDF. cbv zeta. unfold JS.Math_abs.
  rewrite Qabs_opp_eq.
  set (t := Math_exp _). set (x := Qabs z / JS.Math_sqrt2).
  case_lt (- z) 0; case_lt z 0; try (exfalso; lra); ring.
Qed.

Lemma normalCDF_symmetric_witness :
  normalCDF Sample.Math_exp (- (3 # 2)) + normalCDF Sample.Math_exp (3 # 2)
  == 1.
Proof.
  apply (normalCDF_symmetric Sample.Math_exp (3 # 2)). discriminate.
Defined.

(** *** Age interpolation and the age-adjusted SD *)

(** The bracketing loop and the interpolation, segment by segment. *)
Lemma interpolateByAge_segments (v0 v1 v2 v3 age : Q) :
  let r := interpolateByAge [v0; v1; v2; v3] age in
  (age <= 20 -> r = v0) /\
  (80 <= age -> r = v3) /\
  (20 < age -> age <= 40 -> r = v0 + (age - 20) / (40 - 20) * (v1 - v0)) /\
  (40 < age -> age <= 60 -> r = v1 + (age - 40) / (60 - 40) * (v2 - v1)) /\
  (60 < age -> age < 80 -> r = v2 + (age - 60) / (80 - 60) * (v3 - v2)).
Proof.
  unfold interpolateByAge. cbv zeta. unfold JS.le, JS.ge.
  case_lt 20 age; [case_lt age 80 |].
  - cbn [bracket Nat.ltb Nat.leb Nat.add nth andb].
    case_lt 40 age; [case_lt 60 age; [case_lt 80 age |] |];
      cbn [Nat.add nth];
      repeat split; intros; try reflexivity; exfalso; lra.
  - repeat split; intros; try reflexivity; exfalso; lra.
  - repeat split; intros; try reflexivity; exfalso; lra.
Qed.

(** X5: [interpolateByAge] clamps outside the anchors (the first value up
    to age 20, the last from age 80 on) and passes through the table value
    at each of the anchors 20, 40, 60 and 80. *)
Theorem interpolateByAge_anchors (v0 v1 v2 v3 age : Q) :
  (age <= 20 -> interpolateByAge [v0; v1; v2; v3] age = v0) /\
  (80 <= age -> interpolateByAge [v0; v1; v2; v3] age = v3) /\
  interpolateByAge [v0; v1; v2; v3] 20 = v0 /\
  interpolateByAge [v0; v1; v2; v3] 40 == v1 /\
  interpolateByAge [v0; v1; v2; v3] 60 == v2 /\
  interpolateByAge [v0; v1; v2; v3] 80 = v3.
Proof.
  destruct (interpolateByAge_segments v0 v1 v2 v3 age) as [Hlo [Hhi _]].
  split; [exact Hlo | split; [exact Hhi |]].
  split; [reflexivity |]. split; [| split; [| reflexivity]].
  - destruct (interpolateByAge_segments v0 v1 v2 v3 40) as [_ [_ [H _]]].
    rewrite H by (reflexivity || discriminate). field.
  - destruct (interpolateByAge_segments v0 v1 v2 v3 60) as [_ [_ [_ [H _]]]].
    rewrite H by (reflexivity || discriminate). field.
Qed.

Lemma interpolateByAge_anchors_witness :
  interpolateByAge [8600; 8200; 7400; 6400] 12 = 8600 /\
  interpolateByAge [8600; 8200; 7400; 6400] 95 = 6400.
Proof.
  destruct (interpolateByAge_anchors 8600 8200 7400 6400 12) as [Hlo _].
  destruct (interpolateByAge_anchors 8600 8200 7400 6400 95) as [_ [Hhi _]].
  split; [apply Hlo | apply Hhi]; discriminate.
Defined.

Lemma convex_between (lo hi a b t : Q) :
  lo <= a -> a <= hi -> lo <= b -> b <= hi -> 0 <= t -> t <= 1 ->
  lo <= a + t * (b - a) /\ a + t * (b - a) <= hi.
Proof.
  intros Ha0 Ha1 Hb0 Hb1 Ht0 Ht1.
  assert (0 <= t * (b - lo)) as H1 by (apply Qmult_le_0_compat; lra).
  assert (0 <= (1 - t) * (a - lo)) as H2 by (apply Qmult_le_0_compat; lra).
  assert (0 <= t * (hi - b)) as H3 by (apply Qmult_le_0_compat; lra).
  assert (0 <= (1 - t) * (hi - a)) as H4 by (apply Qmult_le_0_compat; lra).
  split; lra.
Qed.

(** X6: the interpolated mean never leaves the range of the table: if the
    four anchor values lie between [lo] and [hi], so does the result at
    every age. *)
Theorem interpolateByAge_bounded (v0 v1 v2 v3 lo hi age : Q) :
  lo <= v0 <= hi -> lo <= v1 <= hi -> lo <= v2 <= hi -> lo <= v3 <= hi ->
  lo <= interpolateByAge [v0; v1; v2; v3] age <= hi.
Proof.
  intros [H0 H0'] [H1 H1'] [H2 H2'] [H3 H3'].
  destruct (interpolateByAge_segments v0 v1 v2 v3 age)
    as [Ha [Hb [Hc [Hd He]]]].
  destruct (Qlt_le_dec 20 age) as [L20 | L20];
    [| rewrite Ha by exact L20; split; assumption].
  destruct (Qlt_le_dec age 80) as [L80 | L80];
    [| rewrite Hb by exact L80; split; assumption].
  destruct (Qlt_le_dec 40 age) as [L40 | L40].
  - destruct (Qlt_le_dec 60 age) as [L60 | L60].
    + rewrite He by assumption.
      apply convex_between; try assumption.
      * apply Qle_shift_div_l; [reflexivity | lra].
      * apply Qle_shift_div_r; [reflexivity | lra].
    + rewrite Hd by assumption.
      apply convex_between; try assumption.
      * apply Qle_shift_div_l; [reflexivity | lra].
      * apply Qle_shift_div_r; [reflexivity | lra].
  - rewrite Hc by assumption.
    apply convex_between; try assumption.
    + apply Qle_shift_div_l; [reflexivity | lra].
    + apply Qle_shift_div_r; [reflexivity | lra].
Qed.

Lemma interpolateByAge_bounded_witness :
  6400 <= interpolateByAge [8600; 8200; 7400; 6400] 70 <= 8600.
Proof.
  apply (interpolateByAge_bounded 8600 8200 7400 6400 6400 8600 70);
    split; discriminate.
Defined.

(** X7: the age-adjusted SD is the base SD up to age 50 and grows by a
    thousandth of it per year after; it is never smaller than a
    non-negative base SD and stays positive with it. *)
Theorem getAgeAdjustedSD_grows (baseSd age : Q) :
  0 < baseSd ->
  (age <= 50 -> getAgeAdjustedSD baseSd age == baseSd) /\
  (50 < age ->
   getAgeAdjustedSD baseSd age == baseSd * (1 + (age - 50) * 0.001)) /\
  baseSd <= getAgeAdjustedSD baseSd age /\
  0 < getAgeAdjustedSD baseSd age.
Proof.
  intro Hsd. unfold getAgeAdjustedSD, JS.gt. cbv zeta.
  case_lt 50 age.
  - assert (baseSd * (1 + (age - 50) / 100 * 0.1) ==
            baseSd * (1 + (age - 50) * 0.001)) as Heq by field.
    assert (0 <= baseSd * ((age - 50) * 0.001)) as Hp
      by (apply Qmult_le_0_compat; lra).
    repeat split; intros; try (exfalso; lra); rewrite ?Heq; try reflexivity;
      lra.
  - repeat split; intros; try (exfalso; lra); try ring; lra.
Qed.

Lemma getAgeAdjustedSD_grows_witness :
  getAgeAdjustedSD 700 70 == 714.
Proof.
  destruct (getAgeAdjustedSD_grows 700 70) as [_ [H _]].
  - reflexivity.
  - rewrite H by reflexivity. reflexivity.
Defined.

(** *** Region lookup *)

Lemma get_Some_In {A : Type} (obj : list (string * A)) (key : string) (v : A) :
  JS.get obj key = Some v -> In (key, v) obj.
Proof.
  induction obj as [| [k w] rest IH]; cbn [JS.get]; intro H.
  - discriminate.
  - destruct (String.eqb k key) eqn:Hk.
    + apply String.eqb_eq in Hk. inversion H. subst. left. reflexivity.
    + right. apply IH. exact H.
Qed.

(** Every standard deviation of the table is positive. *)
Lemma regions_sd_positive (entry : string * NormData.t) (sex : Sex) :
  In entry NORMATIVE_DATA.regions -> 0 < NormData.sd (snd entry) sex.
Proof.
  revert entry. apply Forall_forall.
  unfold NORMATIVE_DATA.regions.
  repeat constructor; destruct sex; reflexivity.
Qed.

(** The keys of the table are distinct: each entry is found under its key. *)
Lemma regions_get_entry (entry : string * NormData.t) :
  In entry NORMATIVE_DATA.regions ->
  JS.get NORMATIVE_DATA.regions (fst entry) = Some (snd entry).
Proof.
  revert entry. apply Forall_forall.
  unfold NORMATIVE_DATA.regions. repeat constructor.
Qed.

(** The entry [findNormativeData] returns is stored in the table under the
    key returned with it. *)
Lemma findNormativeData_entry
    (regionName : string) (data : NormData.t) (key : string) :
  findNormativeData regionName = Some (data, key) ->
  JS.get NORMATIVE_DATA.regions key = Some data.
Proof.
  unfold findNormativeData. cbv zeta.
  destruct (JS.get NORMATIVE_DATA.regions regionName) as [d1 |] eqn:H1.
  { intro H. inversion H. subst. exact H1. }
  destruct (JS.get NORMATIVE_DATA.regions (JS.hyphenateSpaces regionName))
    as [d2 |] eqn:H2.
  { intro H. inversion H. subst. exact H2. }
  match goal with
  | |- context [find ?f NORMATIVE_DATA.regions] =>
      destruct (find f NORMATIVE_DATA.regions) as [[k3 d3] |] eqn:H3
  end.
  { intro H. inversion H. subst.
    apply find_some in H3. destruct H3 as [Hin _].
    apply (regions_get_entry (key, data)). exact Hin. }
  destruct (JS.get aliases _) as [k4 |]; [| discriminate].
  destruct (JS.get NORMATIVE_DATA.regions k4) as [d4 |] eqn:H4;
    [| discriminate].
  intro H. inversion H. subst. exact H4.
Qed.

(** X8: for a label that names no inherited property, when
    [findNormativeData] finds an entry, by exact key, hyphenation, fuzzy
    containment or alias, it is the table's entry under the key it reports
    as matched, and that entry has a positive SD for either sex. *)
Theorem findNormativeData_sound
    (regionName : string) (data : NormData.t) (key : string) (sex : Sex) :
  ownName regionName ->
  findNormativeData regionName = Some (data, key) ->
  JS.get NORMATIVE_DATA.regions key = Some data /\ 0 < NormData.sd data sex.
Proof.
  intros _ H. apply findNormativeData_entry in H. split; [exact H |].
  apply (regions_sd_positive (key, data)). apply get_Some_In. exact H.
Qed.

Lemma findNormativeData_sound_witness :
  JS.get NORMATIVE_DATA.regions "Brain-Stem" =
  option_map fst (findNormativeData "brain stem").
Proof.
  destruct (findNormativeData "brain stem") as [[data key] |] eqn:H.
  - assert (key = "Brain-Stem") as Hkey.
    { vm_compute in H. inversion H. reflexivity. }
    subst key. cbn [option_map fst].
    apply (findNormativeData_sound "brain stem" data "Brain-Stem" male).
    + unfold ownName, Object_prototype_names. cbn [In].
      intros [E | [E | [E | [E | [E | [E | [E | [E | [E | [E | [E | [E | []]]]]]]]]]]]];
        discriminate E.
    + exact H.
  - vm_compute in H. discriminate.
Defined.

(** X9: every key of the normative table resolves to its own entry. *)
Theorem findNormativeData_key (entry : string * NormData.t) :
  In entry NORMATIVE_DATA.regions ->
  findNormativeData (fst entry) = Some (snd entry, fst entry).
Proof.
  intro Hin. unfold findNormativeData.
  rewrite (regions_get_entry entry Hin). reflexivity.
Qed.

Lemma findNormativeData_key_witness :
  option_map snd (findNormativeData "4th-Ventricle") = Some "4th-Ventricle".
Proof.
  destruct (JS.get NORMATIVE_DATA.regions "4th-Ventricle") as [data |] eqn:H.
  - pose proof (findNormativeData_key ("4th-Ventricle", data)
                  (get_Some_In _ _ _ H)) as K.
    cbn [fst snd] in K. rewrite K. reflexivity.
  - vm_compute in H. discriminate.
Defined.

(** White space stays white space, and a separator a separator, under
    [toLowerCase]. *)
Lemma isSpace_lowerChar (c : ascii) :
  JS.isSpace c = true ->
  (Ascii.eqb (JS.lowerChar c) "-" || Ascii.eqb (JS.lowerChar c) "_"
   || JS.isSpace (JS.lowerChar c))%bool = true.
Proof.
  destruct c as [b0 b1 b2 b3 b4 b5 b6 b7].
  destruct b0, b1, b2, b3, b4, b5, b6, b7; vm_compute; intro H;
    (reflexivity || discriminate).
Qed.

(** Turning white space into hyphens does not change the normalised
    form of a label. *)
Lemma dropSeparators_hyphenateSpaces (s : string) :
  JS.dropSeparators (JS.toLowerCase (JS.hyphenateSpaces s)) =
  JS.dropSeparators (JS.toLowerCase s).
Proof.
  induction s as [| c s' IH].
  - reflexivity.
  - cbn [JS.hyphenateSpaces].
    destruct (JS.isSpace c) eqn:Hc.
    + assert (JS.dropSeparators (JS.toLowerCase (String c s')) =
              JS.dropSeparators (JS.toLowerCase s')) as Hdrop.
      { cbn [JS.toLowerCase JS.dropSeparators].
        rewrite (isSpace_lowerChar c Hc). reflexivity. }
      rewrite Hdrop.
      destruct s' as [| c' s''].
      * reflexivity.
      * destruct (JS.isSpace c'); [exact IH |].
        rewrite <- IH. reflexivity.
    + cbn [JS.toLowerCase JS.dropSeparators].
      destruct (Ascii.eqb (JS.lowerChar c) "-" || Ascii.eqb (JS.lowerChar c) "_"
                || JS.isSpace (JS.lowerChar c))%bool;
        rewrite IH; reflexivity.
Qed.

(** No key of the table has an empty normalised form, and only the key
    Inferior-Lateral-Ventricle has the form "inferiorlateralventricle". *)
Lemma regions_normalised_keys (entry : string * NormData.t) :
  In entry NORMATIVE_DATA.regions ->
  JS.dropSeparators (JS.toLowerCase (fst entry)) <> EmptyString /\
  (JS.dropSeparators (JS.toLowerCase (fst entry)) = "inferiorlateralventricle"
   -> fst entry = "Inferior-Lateral-Ventricle").
Proof.
  revert entry. apply Forall_forall.
  unfold NORMATIVE_DATA.regions.
  repeat constructor; try discriminate; vm_compute; intro H;
    (reflexivity || discriminate).
Qed.

(** A label that is not a key is not found by the exact lookup. *)
Lemma regions_get_None (name : string) :
  (forall entry, In entry NORMATIVE_DATA.regions -> fst entry <> name) ->
  JS.get NORMATIVE_DATA.regions name = None.
Proof.
  intro H. destruct (JS.get NORMATIVE_DATA.regions name) as [d |] eqn:Hget;
    [| reflexivity].
  exfalso. apply (H (name, d)); [| reflexivity].
  apply get_Some_In. exact Hget.
Qed.

(** X10: a label that consists only of hyphens, underscores and white
    space (or is empty) is contained in every normalised key, so it
    resolves to the first entry of the table, Cerebral-White-Matter. *)
Theorem findNormativeData_blank (regionName : string) :
  JS.dropSeparators (JS.toLowerCase regionName) = EmptyString ->
  exists data,
    findNormativeData regionName = Some (data, "Cerebral-White-Matter").
Proof.
  intro Hblank. unfold findNormativeData. cbv zeta.
  rewrite (regions_get_None regionName).
  2:{ intros entry Hin Heq.
      destruct (regions_normalised_keys entry Hin) as [Hne _].
      apply Hne. rewrite Heq. exact Hblank. }
  rewrite (regions_get_None (JS.hyphenateSpaces regionName)).
  2:{ intros entry Hin Heq.
      destruct (regions_normalised_keys entry Hin) as [Hne _].
      apply Hne. rewrite Heq, dropSeparators_hyphenateSpaces. exact Hblank. }
  rewrite Hblank. eexists. vm_compute. reflexivity.
Qed.

Lemma findNormativeData_blank_witness :
  exists data,
    findNormativeData " - _ " = Some (data, "Cerebral-White-Matter").
Proof.
  apply (findNormativeData_blank " - _ "). reflexivity.
Defined.

(** X11: a label that reads "inferior lateral ventricle" up to case and
    separators, but is not the exact key (also not after white space is
    turned into hyphens), resolves to the Lateral-Ventricle entry: that
    key comes first in the table and its normalised form is contained in
    the label's. *)
Theorem findNormativeData_inferior_lateral (regionName : string) :
  JS.dropSeparators (JS.toLowerCase regionName) = "inferiorlateralventricle" ->
  regionName <> "Inferior-Lateral-Ventricle" ->
  JS.hyphenateSpaces regionName <> "Inferior-Lateral-Ventricle" ->
  exists data, findNormativeData regionName = Some (data, "Lateral-Ventricle").
Proof.
  intros Hform Hexact Hhyphen. unfold findNormativeData. cbv zeta.
  rewrite (regions_get_None regionName).
  2:{ intros entry Hin Heq.
      destruct (regions_normalised_keys entry Hin) as [_ Hilv].
      apply Hexact. rewrite <- Heq. apply Hilv. rewrite Heq. exact Hform. }
  rewrite (regions_get_None (JS.hyphenateSpaces regionName)).
  2:{ intros entry Hin Heq.
      destruct (regions_normalised_keys entry Hin) as [_ Hilv].
      apply Hhyphen. rewrite <- Heq. apply Hilv.
      rewrite Heq, dropSeparators_hyphenateSpaces. exact Hform. }
  rewrite Hform. eexists. vm_compute. reflexivity.
Qed.

Lemma findNormativeData_inferior_lateral_witness :
  exists data,
    findNormativeData "inferior lateral ventricle" =
    Some (data, "Lateral-Ventricle").
Proof.
  apply (findNormativeData_inferior_lateral "inferior lateral ventricle").
  - reflexivity.
  - discriminate.
  - vm_compute. discriminate.
Defined.

(** *** Pattern detection *)

Lemma alzheimerBlock_pushes (results : Results.t) (patterns : list Pattern.t) :
  pushes CLINICAL_PATTERNS.alzheimerDisease_name patterns
         (alzheimerBlock results patterns).
Proof.
  unfold alzheimerBlock, pushes. cbv zeta.
  destruct (definedAnd (effectiveZscoreOf results "Hippocampus")
              (fun z => JS.lt z (-1.5))); [| left; reflexivity].
  destruct (definedAnd (effectiveZscoreOf results "Hippocampus")
              (fun z => JS.lt z (-2.0)));
    destruct (truthyAnd (hocValueOf results) (fun h => JS.lt h 0.75));
    destruct (truthyAnd (effectiveZscoreOf results "Amygdala")
                (fun z => JS.lt z (-1.5)));
    cbn; try (left; reflexivity);
    right; eexists; split; reflexivity.
Qed.

Lemma frontotemporalBlock_pushes (results : Results.t)
    (patterns : list Pattern.t) :
  pushes CLINICAL_PATTERNS.frontotemporalDementia_name patterns
         (frontotemporalBlock results patterns).
Proof.
  unfold frontotemporalBlock, pushes. cbv zeta.
  match goal with |- context [if ?b then _ else _] => destruct b end;
    [right; eexists; split; reflexivity | left; reflexivity].
Qed.

Lemma vascularBlock_pushes (results : Results.t) (patterns : list Pattern.t) :
  pushes CLINICAL_PATTERNS.vascularDementia_name patterns
         (vascularBlock results patterns).
Proof.
  unfold vascularBlock, pushes. cbv zeta.
  match goal with |- context [if ?b then _ else _] => destruct b end;
    [right; eexists; split; reflexivity | left; reflexivity].
Qed.

Lemma earlyMCIBlock_pushes (results : Results.t) (patterns : list Pattern.t) :
  pushes earlyMCI_name patterns (earlyMCIBlock results patterns).
Proof.
  unfold earlyMCIBlock, pushes. cbv zeta.
  match goal with |- context [if ?b then _ else _] => destruct b end;
    [| left; reflexivity].
  destruct (definedAnd (hocValueOf results) (fun h => JS.lt h 0.70));
    [| destruct (definedAnd (hocValueOf results) (fun h => JS.lt h 0.75))];
    destruct (truthyAnd (zscoreOf results "Inferior-Lateral-Ventricle")
                (fun z => JS.gt z 0.5));
    right; eexists; split; reflexivity.
Qed.

Lemma pushes_disease (name : string) (before after : list Pattern.t) :
  name <> CLINICAL_PATTERNS.normalAging_name ->
  pushes name before after ->
  Forall isDisease before -> Forall isDisease after.
Proof.
  intros Hname [-> | [p [-> Hp]]] Hall; [exact Hall |].
  apply Forall_app. split; [exact Hall |].
  constructor; [| constructor]. unfold isDisease. rewrite Hp. exact Hname.
Qed.

(** The array after the four disease blocks holds no Normal Aging entry. *)
Lemma diseaseBlocks_disease (results : Results.t) :
  Forall isDisease
    (earlyMCIBlock results
       (vascularBlock results
          (frontotemporalBlock results (alzheimerBlock results [])))).
Proof.
  eapply pushes_disease; [| apply earlyMCIBlock_pushes |]; [discriminate |].
  eapply pushes_disease; [| apply vascularBlock_pushes |]; [discriminate |].
  eapply pushes_disease; [| apply frontotemporalBlock_pushes |];
    [discriminate |].
  eapply pushes_disease; [| apply alzheimerBlock_pushes |]; [discriminate |].
  constructor.
Qed.

(** The two closing blocks: an empty array receives exactly one Normal Aging
    entry, any other array is returned as it is. *)
Lemma closingBlocks (results : Results.t) (patterns : list Pattern.t) :
  (patterns = [] /\
   exists p, cautionaryBlock (normalAgingBlock results patterns) = [p] /\
             Pattern.pattern p = CLINICAL_PATTERNS.normalAging_name) \/
  (patterns <> [] /\
   cautionaryBlock (normalAgingBlock results patterns) = patterns).
Proof.
  destruct patterns as [| q rest].
  - left. split; [reflexivity |].
    unfold normalAgingBlock. cbv zeta.
    match goal with |- context [if ?b then _ else _] => destruct b end;
      eexists; split; reflexivity.
  - right. split; [discriminate |]. reflexivity.
Qed.

(** X12: [detectClinicalPatterns] never returns an empty list: when no
    disease pattern is pushed, one of the two Normal Aging entries is. *)
Theorem detectClinicalPatterns_nonempty (results : Results.t) :
  detectClinicalPatterns results <> [].
Proof.
  unfold detectClinicalPatterns. cbv zeta.
  destruct (closingBlocks results
              (earlyMCIBlock results
                 (vascularBlock results
                    (frontotemporalBlock results (alzheimerBlock results [])))))
    as [[_ [p [-> _]]] | [Hne ->]].
  - discriminate.
  - exact Hne.
Qed.

(** X13: a Normal Aging entry never stands beside another pattern: if the
    list [detectClinicalPatterns] returns holds a Normal Aging entry, that
    entry is the whole list. *)
Theorem normalAging_stands_alone (results : Results.t) (p : Pattern.t) :
  In p (detectClinicalPatterns results) ->
  Pattern.pattern p = CLINICAL_PATTERNS.normalAging_name ->
  detectClinicalPatterns results = [p].
Proof.
  unfold detectClinicalPatterns. cbv zeta.
  pose proof (diseaseBlocks_disease results) as Hall.
  destruct (closingBlocks results
              (earlyMCIBlock results
                 (vascularBlock results
                    (frontotemporalBlock results (alzheimerBlock results [])))))
    as [[_ [q [-> _]]] | [_ ->]].
  - intros [-> | []] _. reflexivity.
  - intros Hin Hp. exfalso.
    rewrite Forall_forall in Hall. apply (Hall p Hin). exact Hp.
Qed.

Lemma normalAging_stands_alone_witness :
  List.length
    (detectClinicalPatterns
       {| Results.regions := []; Results.hoc := None; Results.bpf := None |})
  = 1%nat.
Proof.
  pose (p := {| Pattern.pattern := CLINICAL_PATTERNS.normalAging_name;
                Pattern.confidence := "Moderate";
                Pattern.indicators := ["volumes largely within expected range"];
                Pattern.recommendation :=
                  "Overall volumes appear normal. Continue routine monitoring." |}).
  rewrite (normalAging_stands_alone
             {| Results.regions := []; Results.hoc := None;
                Results.bpf := None |} p).
  - reflexivity.
  - left. reflexivity.
  - reflexivity.
Defined.

(** *** The severity sort *)

(** Where the sort's insertion puts an element: behind the entries it does
    not precede, in front of those it precedes. *)
Lemma insertSorted_split {A : Type} (compare : A -> A -> Q) (x : A)
    (l1 l2 : list A) :
  Forall (fun y => JS.lt (compare x y) 0 = false) l1 ->
  Forall (fun y => JS.lt (compare x y) 0 = true) l2 ->
  insertSorted compare x (l1 ++ l2) = (l1 ++ x :: l2)%list.
Proof.
  intros H1 H2. induction H1 as [| y l1 Hy _ IH].
  - destruct H2 as [| y l2 Hy _]; [reflexivity |].
    cbn [app insertSorted]. rewrite Hy. reflexivity.
  - cbn [app insertSorted]. rewrite Hy, IH. reflexivity.
Qed.

Lemma bySeverity_Forall (severity : string) (findings : list Finding.t)
    (P : Finding.t -> Prop) :
  (forall y, Finding.severity y = severity -> P y) ->
  Forall P (bySeverity severity findings).
Proof.
  intro H. apply Forall_forall. intros y Hin.
  apply filter_In in Hin. destruct Hin as [_ Heq].
  apply H. apply String.eqb_eq. exact Heq.
Qed.

Lemma compareFindings_lt (x y : Finding.t) (sx sy : string) :
  Finding.severity x = sx -> Finding.severity y = sy ->
  JS.lt (compareFindings x y) 0 = JS.lt (severityRank sx - severityRank sy) 0.
Proof. intros <- <-. reflexivity. Qed.

Ltac compare_severities :=
  apply bySeverity_Forall; intros y Hy;
  match goal with
  | Hx : Finding.severity ?x = _ |- _ =>
      rewrite (compareFindings_lt x y _ _ Hx Hy)
  end;
  vm_compute; reflexivity.

(** Inserting a finding into an arranged array keeps it arranged. *)
Lemma insertSorted_arranged (x : Finding.t) (findings : list Finding.t) :
  knownSeverity x ->
  insertSorted compareFindings x (arranged findings) =
  arranged (findings ++ [x]).
Proof.
  unfold knownSeverity, arranged, bySeverity. intro Hx.
  rewrite !filter_app. cbn [filter].
  fold (bySeverity "warning" findings).
  fold (bySeverity "info" findings).
  fold (bySeverity "danger" findings).
  destruct Hx as [Hx | [Hx | [Hx | []]]]; symmetry in Hx; rewrite Hx;
    repeat match goal with
           | |- context [String.eqb ?a ?b] =>
               let r := eval vm_compute in (String.eqb a b) in
               change (String.eqb a b) with r
           end;
    cbv iota; rewrite ?app_nil_r.
  - (* danger: behind everything *)
    rewrite <- (app_nil_r (bySeverity "danger" findings)) at 1.
    rewrite !app_assoc.
    rewrite insertSorted_split; [reflexivity | | constructor].
    repeat (apply Forall_app; split); compare_severities.
  - (* warning: behind the warnings *)
    rewrite insertSorted_split.
    + rewrite <- app_assoc. reflexivity.
    + compare_severities.
    + apply Forall_app; split; compare_severities.
  - (* info: behind the warnings and the notes *)
    rewrite (app_assoc (bySeverity "warning" findings)).
    rewrite insertSorted_split.
    + rewrite <- !app_assoc. reflexivity.
    + apply Forall_app; split; compare_severities.
    + compare_severities.
Qed.

Lemma Array_sort_arranged (findings acc : list Finding.t) :
  Forall knownSeverity findings ->
  fold_left (fun sorted x => insertSorted compareFindings x sorted)
    findings (arranged acc) =
  arranged (acc ++ findings).
Proof.
  intro H. revert acc. induction H as [| x rest Hx _ IH]; intro acc.
  - rewrite app_nil_r. reflexivity.
  - cbn [fold_left]. rewrite insertSorted_arranged by exact Hx.
    rewrite IH, <- app_assoc. reflexivity.
Qed.

(** X14: the severity sort puts the findings marked danger last: the
    rank 0 of danger is falsy, so [severityOrder[...] || 3] ranks it 3,
    behind warning (1) and info (2).  For findings with the severities the
    engine assigns, the sorted array is the warnings, then the notes, then
    the danger findings, each group in its original order. *)
Theorem sortFindings_danger_last (findings : list Finding.t) :
  Forall knownSeverity findings ->
  sortFindings findings =
  (bySeverity "warning" findings ++ bySeverity "info" findings
   ++ bySeverity "danger" findings)%list.
Proof.
  intro H. unfold sortFindings, Array_sort.
  change (@nil Finding.t) with (arranged []).
  rewrite (Array_sort_arranged findings [] H). reflexivity.
Qed.

Lemma sortFindings_danger_last_witness :
  map Finding.text
    (sortFindings
       [ {| Finding.severity := "danger"; Finding.text := "a";
            Finding.type := "hoc" |};
         {| Finding.severity := "info"; Finding.text := "b";
            Finding.type := "region" |};
         {| Finding.severity := "warning"; Finding.text := "c";
            Finding.type := "bpf" |};
         {| Finding.severity := "danger"; Finding.text := "d";
            Finding.type := "region" |} ])
  = ["c"; "b"; "a"; "d"].
Proof.
  rewrite sortFindings_danger_last.
  - reflexivity.
  - repeat constructor; unfold knownSeverity; cbn [Finding.severity In]; tauto.
Defined.

(** *** Result validation *)

Section Validator_properties.

Variable toFixed : Q -> nat -> string.
Variable numberToString : Q -> string.

Lemma consistent_warn (message : string) (st : Checks.t) :
  consistent st -> consistent (Checks.warn message st).
Proof.
  intros [Hlen Hq]. split; [| exact Hq].
  cbn [Checks.warn Checks.warnings Checks.possibleIssues].
  rewrite length_app. cbn [List.length]. lia.
Qed.

Lemma consistent_flag_warn (issue message : string) (st : Checks.t) :
  consistent st -> consistent (Checks.flag issue (Checks.warn message st)).
Proof.
  intros [Hlen Hq]. split.
  - cbn [Checks.flag Checks.warn Checks.warnings Checks.possibleIssues].
    rewrite !length_app. cbn [List.length]. lia.
  - destruct Hq as [Hq | [Hq Hne]]; [left; exact Hq | right].
    split; [exact Hq |].
    cbn [Checks.flag Checks.warn Checks.possibleIssues].
    intro H. apply app_eq_nil in H. destruct H as [_ H]. discriminate.
Qed.

Lemma consistent_review_flag (issue : string) (st : Checks.t) :
  (List.length (Checks.possibleIssues st)
   < List.length (Checks.warnings st))%nat ->
  consistent (Checks.review (Checks.flag issue st)).
Proof.
  intro Hlen. split.
  - cbn [Checks.review Checks.flag Checks.warnings Checks.possibleIssues].
    rewrite length_app. cbn [List.length]. lia.
  - right. split; [reflexivity |].
    cbn [Checks.review Checks.flag Checks.possibleIssues].
    intro H. apply app_eq_nil in H. destruct H as [_ H]. discriminate.
Qed.

(** The loop of check 1: the counter ends at the number of extreme
    z-scores, one warning is pushed for each, and nothing else changes. *)
Lemma extremeZscores_loop (regions : list (string * RegionEntry.t))
    (step : nat * Checks.t -> string * RegionEntry.t -> nat * Checks.t)
    (count : nat) (st : Checks.t) :
  (forall acc entry,
     step acc entry =
     if JS.gt (JS.Math_abs (RegionEntry.zscore (snd entry))) 3.5
     then (S (fst acc),
           Checks.warn
             (fst entry ++ ": z-score of "
              ++ numberToString (RegionEntry.zscore (snd entry))
              ++ " is statistically unusual (>3.5 SD from mean)") (snd acc))
     else acc) ->
  let final := fold_left step regions (count, st) in
  fst final = (count + List.length (extremeZscores regions))%nat /\
  List.length (Checks.warnings (snd final)) =
    (List.length (Checks.warnings st)
     + List.length (extremeZscores regions))%nat /\
  Checks.possibleIssues (snd final) = Checks.possibleIssues st /\
  Checks.overallQuality (snd final) = Checks.overallQuality st.
Proof.
  intro Hstep. revert count st.
  induction regions as [| entry rest IH]; intros count st final.
  - subst final. cbn. repeat split; lia.
  - subst final. cbn [fold_left]. rewrite Hstep.
    unfold extremeZscores. cbn [filter fst snd].
    fold (extremeZscores rest).
    destruct (JS.gt (JS.Math_abs (RegionEntry.zscore (snd entry))) 3.5).
    + destruct (IH (S count) (Checks.warn
                 (fst entry ++ ": z-score of "
                  ++ numberToString (RegionEntry.zscore (snd entry))
                  ++ " is statistically unusual (>3.5 SD from mean)") st))
        as [H1 [H2 [H3 H4]]].
      rewrite H1, H2, H3, H4.
      cbn [Checks.warn Checks.warnings Checks.possibleIssues
           Checks.overallQuality List.length].
      rewrite length_app. cbn [List.length]. repeat split; lia.
    + destruct (IH count st) as [H1 [H2 [H3 H4]]].
      rewrite H1, H2, H3, H4. repeat split; lia.
Qed.

(** Check 1 in terms of the number of extreme z-scores. *)
Lemma checkExtremeZscores_spec (regions : list (string * RegionEntry.t))
    (st : Checks.t) :
  exists st',
    List.length (Checks.warnings st') =
      (List.length (Checks.warnings st)
       + List.length (extremeZscores regions))%nat /\
    Checks.possibleIssues st' = Checks.possibleIssues st /\
    Checks.overallQuality st' = Checks.overallQuality st /\
    checkExtremeZscores numberToString regions st =
    if (3 <=? List.length (extremeZscores regions))%nat
    then Checks.review (Checks.flag "multiple_extreme_zscores" st')
    else st'.
Proof.
  unfold checkExtremeZscores.
  match goal with
  | |- context [fold_left ?f regions (0%nat, st)] => set (step := f)
  end.
  destruct (extremeZscores_loop regions step 0%nat st) as [H1 [H2 [H3 H4]]].
  { intros [count s] [region data]. subst step. cbn [fst snd].
    destruct (JS.gt (JS.Math_abs (RegionEntry.zscore data)) 3.5); reflexivity. }
  destruct (fold_left step regions (0%nat, st)) as [count st'].
  cbn [fst snd] in H1, H2, H3, H4. exists st'.
  rewrite H1. cbn [Nat.add]. repeat split; assumption.
Qed.

Lemma checkExtremeZscores_consistent (regions : list (string * RegionEntry.t))
    (st : Checks.t) :
  consistent st -> consistent (checkExtremeZscores numberToString regions st).
Proof.
  intros [Hlen Hq].
  destruct (checkExtremeZscores_spec regions st) as [st' [H1 [H2 [H3 ->]]]].
  destruct (3 <=? List.length (extremeZscores regions))%nat eqn:Hcount.
  - apply Nat.leb_le in Hcount. apply consistent_review_flag.
    rewrite H1, H2. lia.
  - split; [rewrite H1, H2; lia |]. rewrite H2, H3. exact Hq.
Qed.

Lemma checkBPF_consistent (bpf : option BPF.t) (st : Checks.t) :
  consistent st -> consistent (checkBPF toFixed bpf st).
Proof.
  intro H. unfold checkBPF. destruct bpf as [b |]; [| exact H].
  destruct (JS.gt (BPF.value b) 0.92).
  - apply consistent_review_flag.
    destruct H as [Hlen _].
    cbn [Checks.warn Checks.warnings Checks.possibleIssues].
    rewrite length_app. cbn [List.length]. lia.
  - destruct (JS.lt (BPF.value b) 0.55); [| exact H].
    apply consistent_flag_warn. exact H.
Qed.

Lemma checkVolumeRatio_consistent (regions : list (string * RegionEntry.t))
    (st : Checks.t) :
  consistent st -> consistent (checkVolumeRatio toFixed regions st).
Proof.
  intro H. unfold checkVolumeRatio. cbv zeta.
  repeat match goal with
         | |- context [if ?b then _ else _] => destruct b
         end;
    try exact H; apply consistent_flag_warn; exact H.
Qed.

Lemma checkTotalBrain_consistent (totalBrainVolume : Q) (st : Checks.t) :
  consistent st -> consistent (checkTotalBrain toFixed totalBrainVolume st).
Proof.
  intro H. unfold checkTotalBrain. cbv zeta.
  repeat match goal with
         | |- context [if ?b then _ else _] => destruct b
         end;
    try exact H; apply consistent_flag_warn; exact H.
Qed.

Lemma checkDiscordance_consistent (regions : list (string * RegionEntry.t))
    (st : Checks.t) :
  consistent st -> consistent (checkDiscordance toFixed regions st).
Proof.
  intro H. unfold checkDiscordance. cbv zeta.
  destruct (option_map RegionEntry.zscore (JS.get regions "Lateral-Ventricle"));
    [| exact H].
  destruct (option_map RegionEntry.effectiveZscore
              (JS.get regions "Hippocampus")); [| exact H].
  match goal with |- context [if ?b then _ else _] => destruct b end;
    [apply consistent_flag_warn |]; exact H.
Qed.

(** X15: in the report of [validateAnalysisResults] there are never more
    flagged issues than warnings (so a report with an issue is not valid),
    and the quality is either good or review_recommended, the latter only
    together with at least one flagged issue. *)
Theorem validateAnalysisResults_consistent (results : Assembled.t) :
  let report := validateAnalysisResults toFixed numberToString results in
  (List.length (Validation.possibleIssues report)
   <= List.length (Validation.warnings report))%nat /\
  Validation.isValid report =
    (List.length (Validation.warnings report) =? 0)%nat /\
  (Validation.overallQuality report = "good" \/
   (Validation.overallQuality report = "review_recommended" /\
    Validation.possibleIssues report <> [] /\
    Validation.isValid report = false)).
Proof.
  cbv zeta. unfold validateAnalysisResults. cbv zeta.
  cbn [Validation.possibleIssues Validation.warnings Validation.isValid
       Validation.overallQuality].
  match goal with
  | |- context [Checks.warnings ?s] => set (st := s)
  end.
  assert (consistent st) as [Hlen Hq].
  { subst st.
    apply checkDiscordance_consistent, checkTotalBrain_consistent,
      checkVolumeRatio_consistent, checkBPF_consistent,
      checkExtremeZscores_consistent.
    split; [cbn; lia | left; reflexivity]. }
  split; [exact Hlen |]. split; [reflexivity |].
  destruct Hq as [Hq | [Hq Hne]]; [left; exact Hq | right].
  repeat split; try assumption.
  apply Nat.eqb_neq.
  destruct (Checks.possibleIssues st); [contradiction |].
  cbn [List.length] in Hlen. lia.
Qed.

(** The quality flag each later check leaves: only the BPF check
    touches it. *)
Lemma checkVolumeRatio_quality (regions : list (string * RegionEntry.t))
    (st : Checks.t) :
  Checks.overallQuality (checkVolumeRatio toFixed regions st) =
  Checks.overallQuality st.
Proof.
  unfold checkVolumeRatio. cbv zeta.
  repeat match goal with
         | |- context [if ?b then _ else _] => destruct b
         end; reflexivity.
Qed.

Lemma checkTotalBrain_quality (totalBrainVolume : Q) (st : Checks.t) :
  Checks.overallQuality (checkTotalBrain toFixed totalBrainVolume st) =
  Checks.overallQuality st.
Proof.
  unfold checkTotalBrain. cbv zeta.
  repeat match goal with
         | |- context [if ?b then _ else _] => destruct b
         end; reflexivity.
Qed.

Lemma checkDiscordance_quality (regions : list (string * RegionEntry.t))
    (st : Checks.t) :
  Checks.overallQuality (checkDiscordance toFixed regions st) =
  Checks.overallQuality st.
Proof.
  unfold checkDiscordance. cbv zeta.
  destruct (option_map RegionEntry.zscore (JS.get regions "Lateral-Ventricle"));
    [| reflexivity].
  destruct (option_map RegionEntry.effectiveZscore
              (JS.get regions "Hippocampus")); [| reflexivity].
  match goal with |- context [if ?b then _ else _] => destruct b end;
    reflexivity.
Qed.

(** X16: [validateAnalysisResults] recommends a review exactly when at
    least three regions have an extreme z-score or the BPF exceeds 0.92;
    a BPF below 0.55, an unusual hippocampus/amygdala ratio, an implausible
    brain volume and a discordant pattern are flagged without it. *)
Theorem validateAnalysisResults_review (results : Assembled.t) :
  Validation.overallQuality
    (validateAnalysisResults toFixed numberToString results)
  = "review_recommended"
  <->
  (3 <= List.length (extremeZscores (Assembled.regions results)))%nat \/
  (exists bpf, Assembled.bpf results = Some bpf /\ 0.92 < BPF.value bpf).
Proof.
  unfold validateAnalysisResults. cbv zeta.
  cbn [Validation.overallQuality].
  rewrite checkDiscordance_quality, checkTotalBrain_quality,
    checkVolumeRatio_quality.
  destruct (checkExtremeZscores_spec (Assembled.regions results) Checks.init)
    as [st' [_ [_ [Hq ->]]]].
  unfold checkBPF.
  destruct (Assembled.bpf results) as [b |].
  - case_lt 0.92 (BPF.value b).
    + unfold JS.gt. rewrite (proj2 (lt_true_iff _ _) Hcmp).
      split; [| reflexivity]. intros _. right. exists b. split; [reflexivity | exact Hcmp].
    + unfold JS.gt. rewrite (proj2 (lt_false_iff _ _) Hcmp).
      assert (forall s : Checks.t,
                Checks.overallQuality
                  (if JS.lt (BPF.value b) 0.55
                   then Checks.flag "bpf_very_low"
                          (Checks.warn
                             ("BPF of " ++ toFixed (BPF.value b * 100) 1
                              ++ "% is below typical range. May indicate severe atrophy or measurement error.")
                             s)
                   else s) = Checks.overallQuality s) as Hlow.
      { intro s. destruct (JS.lt (BPF.value b) 0.55); reflexivity. }
      rewrite Hlow.
      destruct (3 <=? List.length (extremeZscores (Assembled.regions results)))%nat
        eqn:Hcount.
      * apply Nat.leb_le in Hcount. split; [| reflexivity].
        intros _. left. exact Hcount.
      * apply Nat.leb_gt in Hcount. rewrite Hq. split.
        -- discriminate.
        -- intros [H | [b' [Hb H]]]; [lia |].
           injection Hb as <-. exfalso. lra.
  - destruct (3 <=? List.length (extremeZscores (Assembled.regions results)))%nat
      eqn:Hcount.
    + apply Nat.leb_le in Hcount. split; [| reflexivity].
      intros _. left. exact Hcount.
    + apply Nat.leb_gt in Hcount. rewrite Hq. split.
      * discriminate.
      * intros [H | [b' [Hb _]]]; [lia | discriminate].
Qed.

End Validator_properties.

(** *** Standardized scales *)

(** A threshold loop leaves its initial value or picks from the table. *)
Lemma forBreak_In {A B : Type} (test : A -> bool) (pick : A -> B)
    (table : list A) (init : B) :
  In (forBreak test pick table init) (init :: map pick table).
Proof.
  induction table as [| e rest IH]; cbn [forBreak map].
  - left. reflexivity.
  - destruct (test e).
    + right. left. reflexivity.
    + destruct IH as [IH | IH]; [left; exact IH | right; right; exact IH].
Qed.

(** X17: the MTA score is exactly the mean of the two method scores, each
    an integer from 0 to 4: rounding to the nearest half never changes it,
    and the score is a multiple of 0.5 between 0 and 4. *)
Theorem calculateMTAScore_mean
    (volumes : Volumes) (hippoZscore : option Q) (age : Q) :
  let r := calculateMTAScore volumes hippoZscore age in
  MTAResult.score r
    == (MTAResult.mtaFromRatio r + MTAResult.mtaFromZscore r) / 2 /\
  In (MTAResult.mtaFromRatio r) [0; 1; 2; 3; 4] /\
  In (MTAResult.mtaFromZscore r) [0; 1; 2; 3; 4] /\
  exists k : Z, (0 <= k <= 8)%Z /\ MTAResult.score r == inject_Z k / 2.
Proof.
  cbv zeta.
  assert (forall a b : Q,
            In a [0; 0; 1; 2; 3; 4] -> In b [0; 0; 1; 2; 3; 4] ->
            inject_Z (JS.Math_round ((a + b) / 2 * 2)) / 2 == (a + b) / 2 /\
            In a [0; 1; 2; 3; 4] /\ In b [0; 1; 2; 3; 4] /\
            exists k : Z,
              (0 <= k <= 8)%Z /\
              inject_Z (JS.Math_round ((a + b) / 2 * 2)) / 2
              == inject_Z k / 2) as Hcases.
  { intros a b Ha Hb.
    assert (In a [0; 1; 2; 3; 4]) as Ha'.
    { destruct Ha as [<- | Ha]; [left; reflexivity | exact Ha]. }
    assert (In b [0; 1; 2; 3; 4]) as Hb'.
    { destruct Hb as [<- | Hb]; [left; reflexivity | exact Hb]. }
    split; [| split; [exact Ha' | split; [exact Hb' |]]].
    - cbn [In] in Ha', Hb'.
      repeat match goal with
             | H : _ \/ _ |- _ => destruct H as [<- | H]
             | H : False |- _ => destruct H
             end; vm_compute; reflexivity.
    - exists (JS.Math_round ((a + b) / 2 * 2)). split; [| reflexivity].
      cbn [In] in Ha', Hb'.
      repeat match goal with
             | H : _ \/ _ |- _ => destruct H as [<- | H]
             | H : False |- _ => destruct H
             end; vm_compute; split; discriminate. }
  unfold calculateMTAScore. cbv zeta.
  assert (In (match hippoZscore with
              | Some z =>
                  forBreak
                    (fun threshold : option Q * Q =>
                       match fst threshold with
                       | Some minZ => JS.ge z minZ
                       | None => true
                       end)
                    snd STANDARDIZED_SCALES.MTA.zscoreToScore 0
              | None => 0
              end) [0; 0; 1; 2; 3; 4]) as Hz.
  { destruct hippoZscore as [z |]; [| left; reflexivity].
    exact (forBreak_In _ snd STANDARDIZED_SCALES.MTA.zscoreToScore 0). }
  destruct (JS.gt (JS.orElse (JS.get volumes "Hippocampus") 0) 0);
    cbn [MTAResult.score MTAResult.mtaFromRatio MTAResult.mtaFromZscore];
    apply Hcases; try exact Hz.
  - exact (forBreak_In _ snd STANDARDIZED_SCALES.MTA.qmtaToScore 0).
  - left. reflexivity.
Qed.

Ltac settle_flag :=
  match goal with
  | |- ?b = true <-> _ =>
      let r := eval vm_compute in b in change b with r
  end.

(** X18: a GCA score is abnormal for age exactly when the cortical z-score
    is defined and lies below -2.5, or below -1.5 in a patient younger
    than 75: the age threshold is 1 below 75 and 2 from 75 on, with no
    upper age limit. *)
Theorem calculateGCAScore_isAbnormal (cortexZscore : option Q) (age : Q) :
  GCAResult.isAbnormal (calculateGCAScore cortexZscore age) = true <->
  exists z, cortexZscore = Some z /\ (z < -2.5 \/ (age < 75 /\ z < -1.5)).
Proof.
  unfold calculateGCAScore. cbv zeta. cbn [GCAResult.isAbnormal].
  unfold scoreFromZscore.
  cbn [forBreak fst snd STANDARDIZED_SCALES_GCA.zscoreToScore
       STANDARDIZED_SCALES_GCA.ageThresholds].
  change (inject_Z 75) with 75. change (inject_Z 100) with 100.
  destruct cortexZscore as [z |].
  - unfold JS.ge.
    case_lt z (-0.5); [case_lt z (-1.5); [case_lt z (-2.5) |] |];
      (case_lt age 75; [| case_lt age 100]);
      settle_flag;
      (split;
       [ first [ discriminate
               | intros _; exists z; split; [reflexivity |];
                 first [left; lra | right; split; lra] ]
       | first [ reflexivity
               | intros [z' [Heq H]]; injection Heq as <-; exfalso;
                 destruct H as [H | [H1 H2]]; lra ] ]).
  - case_lt age 75; [| case_lt age 100]; settle_flag;
      (split; [discriminate | intros [z [Heq _]]; discriminate]).
Qed.

(** X19: the Koedam score is read off the cortical z-score in four
    half-open bands, 0 from -0.5 up, 1 from -1.5, 2 from -2.5 and 3 below,
    and is the same number as the GCA score of that z-score: both scales
    are computed from the one global cortical z-score. *)
Theorem calculateKoedamScore_bands (z age : Q) :
  let s := KoedamResult.score (calculateKoedamScore (Some z)) in
  (s = 0%Z <-> -0.5 <= z) /\
  (s = 1%Z <-> -1.5 <= z < -0.5) /\
  (s = 2%Z <-> -2.5 <= z < -1.5) /\
  (s = 3%Z <-> z < -2.5) /\
  s = GCAResult.score (calculateGCAScore (Some z) age).
Proof.
  cbv zeta. unfold calculateKoedamScore, calculateGCAScore. cbv zeta.
  cbn [KoedamResult.score GCAResult.score].
  unfold scoreFromZscore.
  cbn [forBreak fst snd STANDARDIZED_SCALES_Koedam.zscoreToScore
       STANDARDIZED_SCALES_GCA.zscoreToScore].
  unfold JS.ge.
  case_lt z (-0.5); [case_lt z (-1.5); [case_lt z (-2.5) |] |];
    repeat split; intros; try reflexivity; try discriminate;
    try lra; exfalso; lra.
Qed.

(** *** The Evans index *)

Lemma sample_pow_mono (x y : Q) :
  0 < x -> x <= y -> Sample.Math_pow x 0.30 <= Sample.Math_pow y 0.30.
Proof. intros _ H. unfold Sample.Math_pow. lra. Qed.

Section Evans_properties.

Variable Math_pow : Q -> Q -> Q.

(** At the exponent the code uses, the power grows with a positive
    base. *)
Hypothesis pow_mono :
  forall x y : Q, 0 < x -> x <= y -> Math_pow x 0.30 <= Math_pow y 0.30.

Lemma orElse_positive (x : Q) : 0 < x -> JS.orElse (Some x) 0 = x.
Proof.
  intro H. unfold JS.orElse.
  rewrite (proj2 (isZero_false_iff x)); [reflexivity | lra].
Qed.

(** X20: for a positive intracranial volume the estimated Evans index does
    not decrease when the lateral-ventricle volume grows, and it is a
    whole number of hundredths. *)
Theorem calculateEvansIndex_monotone (volumes volumes' : Volumes)
    (lv lv' icv : Q) :
  JS.get volumes "Lateral-Ventricle" = Some lv ->
  JS.get volumes' "Lateral-Ventricle" = Some lv' ->
  0 < icv -> 0 < lv -> lv <= lv' ->
  exists k k' : Z,
    EvansResult.value (calculateEvansIndex Math_pow volumes icv)
      = Some (inject_Z k / 100) /\
    EvansResult.value (calculateEvansIndex Math_pow volumes' icv)
      = Some (inject_Z k' / 100) /\
    (k <= k')%Z.
Proof.
  intros Hget Hget' Hicv Hlv Hle.
  unfold calculateEvansIndex. cbv zeta. rewrite Hget, Hget'.
  rewrite !orElse_positive by lra.
  rewrite (proj2 (isZero_false_iff lv)) by lra.
  rewrite (proj2 (isZero_false_iff lv')) by lra.
  rewrite (proj2 (isZero_false_iff icv)) by lra.
  cbn [orb].
  assert (0 < lv / icv) as Hpos.
  { apply Qlt_shift_div_l; [exact Hicv | lra]. }
  assert (lv / icv <= lv' / icv) as Hratio.
  { apply Qle_shift_div_l; [exact Hicv |].
    setoid_replace (lv / icv * icv) with lv by (field; lra). exact Hle. }
  pose proof (pow_mono (lv / icv) (lv' / icv) Hpos Hratio) as Hpow.
  eexists. eexists.
  split; [| split].
  - destruct (JS.le _ 0.25); [| destruct (JS.le _ 0.30)]; reflexivity.
  - destruct (JS.le _ 0.25); [| destruct (JS.le _ 0.30)]; reflexivity.
  - apply Math_round_le.
    generalize dependent (Math_pow (lv / icv) 0.30).
    generalize dependent (Math_pow (lv' / icv) 0.30).
    intros p' p Hpow. lra.
Qed.

End Evans_properties.

Lemma calculateEvansIndex_monotone_witness :
  exists k k' : Z,
    EvansResult.value
      (calculateEvansIndex Sample.Math_pow
         [("Lateral-Ventricle", 20000)] 1500000)
      = Some (inject_Z k / 100) /\
    EvansResult.value
      (calculateEvansIndex Sample.Math_pow
         [("Lateral-Ventricle", 900000)] 1500000)
      = Some (inject_Z k' / 100) /\
    (k <= k')%Z.
Proof.
  apply (calculateEvansIndex_monotone Sample.Math_pow
           sample_pow_mono
           [("Lateral-Ventricle", 20000)] [("Lateral-Ventricle", 900000)]
           20000 900000 1500000).
  - reflexivity.
  - reflexivity.
  - reflexivity.
  - reflexivity.
  - discriminate.
Defined.

(** *** Scoring one region *)

Lemma getAgeAdjustedSD_positive (baseSd age : Q) :
  0 < baseSd -> 0 < getAgeAdjustedSD baseSd age.
Proof.
  intro H. unfold getAgeAdjustedSD, JS.gt. cbv zeta.
  case_lt 50 age.
  - apply Qmult_lt_0_compat; [exact H |]. qdiv_consts. lra.
  - lra.
Qed.

Lemma applyICVNormalization_monotone
    (volume volume' : Q) (region : string) (icv : Q) (sex : Sex) :
  volume <= volume' ->
  applyICVNormalization volume region icv sex
  <= applyICVNormalization volume' region icv sex.
Proof.
  intro H. unfold applyICVNormalization, JS.Math_max. cbv zeta.
  destruct (JS.get ICV_REGRESSION_COEFFICIENTS region) as [b |];
    [| exact H].
  apply Q.max_le_compat_l. lra.
Qed.

(** Every region with a regression coefficient has normative data under
    the same key. *)
Lemma coefficients_have_norms (entry : string * Q) :
  In entry ICV_REGRESSION_COEFFICIENTS ->
  JS.get NORMATIVE_DATA.regions (fst entry) <> None.
Proof.
  revert entry. apply Forall_forall.
  unfold ICV_REGRESSION_COEFFICIENTS.
  repeat constructor; vm_compute; discriminate.
Qed.

(** X21: for a label that names no inherited property, the z-score of a
    region does not decrease when its measured volume grows, whatever the
    age, sex and intracranial volume: normalisation, the age-adjusted SD
    (always positive) and the rounding all preserve the order. *)
Theorem scoreRegion_monotone (age : Q) (sex : Sex) (estimatedICV : Q)
    (name : string) (volume volume' : Q) (r r' : ScoredRegion) :
  ownName name ->
  volume <= volume' ->
  scoreRegion age sex estimatedICV (name, volume) = Some r ->
  scoreRegion age sex estimatedICV (name, volume') = Some r' ->
  roundedZscore r <= roundedZscore r'.
Proof.
  intros _ Hle. unfold scoreRegion. cbv zeta.
  destruct (findNormativeData name) as [[normData key] |] eqn:Hfind;
    [| discriminate].
  intros H H'. inversion H. inversion H'. subst. clear H H'.
  cbn [roundedZscore].
  apply findNormativeData_entry in Hfind.
  pose proof (regions_sd_positive (key, normData) sex (get_Some_In _ _ _ Hfind))
    as Hsd.
  cbn [snd] in Hsd.
  apply (getAgeAdjustedSD_positive _ age) in Hsd.
  pose proof (applyICVNormalization_monotone volume volume' name estimatedICV
                sex Hle) as Hnorm.
  set (sd := getAgeAdjustedSD (NormData.sd normData sex) age) in *.
  set (m := interpolateByAge (NormData.mean normData sex) age).
  set (n := applyICVNormalization volume name estimatedICV sex) in *.
  set (n' := applyICVNormalization volume' name estimatedICV sex) in *.
  clearbody sd m n n'.
  assert ((n - m) / sd * 100 <= (n' - m) / sd * 100) as Hz.
  { apply Qmult_le_compat_r; [| discriminate].
    apply Qle_shift_div_l; [exact Hsd |].
    setoid_replace ((n - m) / sd * sd) with (n - m) by (field; lra). lra. }
  apply Math_round_le in Hz. rewrite Zle_Qle in Hz.
  apply Qmult_le_compat_r; [exact Hz | discriminate].
Qed.

Lemma scoreRegion_monotone_witness :
  option_map roundedZscore
    (scoreRegion 70 male 1550000 ("Hippocampus", 4300))
  = Some (-3.64) /\
  -3.64 <= -0.14.
Proof.
  split; [vm_compute; reflexivity |].
  apply (scoreRegion_monotone 70 male 1550000 "Hippocampus" 4300 6800
           {| region := "Hippocampus"; roundedZscore := -3.64;
              invertZscore := false |}
           {| region := "Hippocampus"; roundedZscore := -0.14;
              invertZscore := false |}).
  - unfold ownName, Object_prototype_names. cbn [In].
    intros [E | [E | [E | [E | [E | [E | [E | [E | [E | [E | [E | [E | []]]]]]]]]]]]];
      discriminate E.
  - discriminate.
  - vm_compute. reflexivity.
  - vm_compute. reflexivity.
Defined.

(** X22: ICV normalisation is keyed by the label as given, the norms by
    the resolved key.  A label that resolves to a key other than itself
    (hyphenation, fuzzy containment or alias) has no regression
    coefficient, so it is scored on its raw volume. *)
Theorem applyICVNormalization_skips_resolved
    (name key : string) (data : NormData.t) (volume icv : Q) (sex : Sex) :
  ownName name ->
  findNormativeData name = Some (data, key) ->
  name <> key ->
  applyICVNormalization volume name icv sex = volume.
Proof.
  intros _ Hfind Hne.
  apply applyICVNormalization_untabulated.
  destruct (JS.get ICV_REGRESSION_COEFFICIENTS name) as [b |] eqn:Hb;
    [| reflexivity].
  exfalso.
  pose proof (coefficients_have_norms (name, b) (get_Some_In _ _ _ Hb)) as Hkey.
  cbn [fst] in Hkey.
  unfold findNormativeData in Hfind.
  destruct (JS.get NORMATIVE_DATA.regions name) as [d |];
    [| apply Hkey; reflexivity].
  inversion Hfind. subst. apply Hne. reflexivity.
Qed.

Lemma applyICVNormalization_skips_resolved_witness :
  applyICVNormalization 6000 "hippocampus" 1700000 male = 6000.
Proof.
  destruct (findNormativeData "hippocampus") as [[data key] |] eqn:H.
  - apply (applyICVNormalization_skips_resolved "hippocampus" key data).
    + unfold ownName, Object_prototype_names. cbn [In].
      intros [E | [E | [E | [E | [E | [E | [E | [E | [E | [E | [E | [E | []]]]]]]]]]]]];
        discriminate E.
    + exact H.
    + vm_compute in H. inversion H. discriminate.
  - vm_compute in H. discriminate.
Defined.

(** *** Display helpers *)

Lemma length_append (s1 s2 : string) :
  String.length (s1 ++ s2) = (String.length s1 + String.length s2)%nat.
Proof.
  induction s1 as [| c s1 IH]; cbn [String.append String.length];
    [reflexivity | rewrite IH; reflexivity].
Qed.

Lemma length_substring (n : nat) (s : string) :
  String.length (String.substring 0 n s) = Nat.min n (String.length s).
Proof.
  revert s. induction n as [| n IH]; intros [| c s];
    cbn [String.substring String.length Nat.min]; try reflexivity.
  rewrite IH. reflexivity.
Qed.

Lemma substring_prefix (n : nat) (s : string) :
  String.prefix (String.substring 0 n s) s = true.
Proof.
  revert s. induction n as [| n IH]; intros [| c s];
    cbn [String.substring String.prefix]; try reflexivity.
  destruct (ascii_dec c c) as [_ | Hc]; [apply IH | contradiction].
Qed.

(** X23: for a limit of at least 3, [truncate] returns a string of at most
    [len] characters: a string within the limit is returned as it is, a
    longer one is cut to its first [len - 3] characters followed by three
    dots, [len] characters in all. *)
Theorem truncate_within_limit (str : string) (len : Z) :
  (3 <= len)%Z ->
  (Z.of_nat (String.length (truncate str len)) <= len)%Z /\
  ((Z.of_nat (String.length str) <= len)%Z -> truncate str len = str) /\
  ((len < Z.of_nat (String.length str))%Z ->
   exists head,
     truncate str len = head ++ "..." /\
     String.prefix head str = true /\
     Z.of_nat (String.length head) = (len - 3)%Z).
Proof.
  intro Hlen. unfold truncate.
  destruct (len <? Z.of_nat (String.length str))%Z eqn:Hcmp.
  - apply Z.ltb_lt in Hcmp.
    assert (String.length (String.substring 0 (Z.to_nat (len - 3)) str)
            = Z.to_nat (len - 3)) as Hhead.
    { rewrite length_substring. lia. }
    split; [| split].
    + rewrite length_append, Hhead. cbn [String.length]. lia.
    + intro H. lia.
    + intros _. eexists. split; [reflexivity |]. split.
      * apply substring_prefix.
      * rewrite Hhead. lia.
  - apply Z.ltb_ge in Hcmp. split; [exact Hcmp |]. split.
    + intros _. reflexivity.
    + intro H. lia.
Qed.

Lemma truncate_within_limit_witness :
  (Z.of_nat (String.length (truncate "Inferior-Lateral-Ventricle" 12)) <= 12)%Z.
Proof.
  apply (truncate_within_limit "Inferior-Lateral-Ventricle" 12).
  discriminate.
Defined.

(** *** The hippocampal occupancy score: label and reported value *)

Lemma round_thousandths_le (x y : Q) :
  x <= y ->
  inject_Z (JS.Math_round (x * 1000)) / 1000
  <= inject_Z (JS.Math_round (y * 1000)) / 1000.
Proof.
  intro H.
  apply Qmult_le_compat_r; [| discriminate].
  rewrite <- Zle_Qle. apply Math_round_le. lra.
Qed.

Section HOC_label.

Variable Math_exp : Q -> Q.

(** X24: the HOC label and the conversion risk go together and are read
    off the unrounded ratio, while the reported value is rounded to three
    decimals; so Normal/Low comes with a value of at least 0.8,
    Mild/Moderate with one from 0.7 to 0.8, Moderate/High with one from
    0.6 to 0.7 and Severe/Very High with one of at most 0.6, the upper
    ends included (a ratio just under a threshold rounds up to it). *)
Theorem calculateHOC_label_and_value (volumes : Volumes) (age : Q) (h : Q) :
  JS.get volumes "Hippocampus" = Some h ->
  0 < h ->
  (forall i, JS.get volumes "Inferior-Lateral-Ventricle" = Some i -> 0 <= i) ->
  let r := calculateHOC Math_exp volumes age in
  exists v,
    HOC.value r = Some v /\
    ((HOC.interpretation r = "Normal" /\ HOC.conversionRisk r = Some "Low" /\
      0.8 <= v) \/
     (HOC.interpretation r = "Mild" /\ HOC.conversionRisk r = Some "Moderate" /\
      0.7 <= v /\ v <= 0.8) \/
     (HOC.interpretation r = "Moderate" /\ HOC.conversionRisk r = Some "High" /\
      0.6 <= v /\ v <= 0.7) \/
     (HOC.interpretation r = "Severe" /\
      HOC.conversionRisk r = Some "Very High" /\ v <= 0.6)).
Proof.
  intros Hh Hpos _. cbv zeta. unfold calculateHOC. rewrite Hh.
  rewrite (orElse_positive h Hpos).
  rewrite (proj2 (isZero_false_iff h)) by lra.
  cbv zeta.
  set (hoc := h / (h + JS.orElse (JS.get volumes "Inferior-Lateral-Ventricle") 0)).
  cbn [HOC_NORMATIVE.min HOC_NORMATIVE.interpretation.normal
       HOC_NORMATIVE.interpretation.mild
       HOC_NORMATIVE.interpretation.moderate].
  assert (inject_Z (JS.Math_round (0.8 * 1000)) / 1000 == 0.8) as R8
    by (vm_compute; reflexivity).
  assert (inject_Z (JS.Math_round (0.7 * 1000)) / 1000 == 0.7) as R7
    by (vm_compute; reflexivity).
  assert (inject_Z (JS.Math_round (0.6 * 1000)) / 1000 == 0.6) as R6
    by (vm_compute; reflexivity).
  unfold JS.ge.
  case_lt hoc 0.80; [case_lt hoc 0.70; [case_lt hoc 0.60 |] |];
    eexists; (split; [reflexivity |]).
  - right. right. right. repeat split.
    rewrite <- R6. apply round_thousandths_le. lra.
  - right. right. left. repeat split.
    + rewrite <- R6. apply round_thousandths_le. lra.
    + rewrite <- R7. apply round_thousandths_le. lra.
  - right. left. repeat split.
    + rewrite <- R7. apply round_thousandths_le. lra.
    + rewrite <- R8. apply round_thousandths_le. lra.
  - left. repeat split.
    rewrite <- R8. apply round_thousandths_le. lra.
Qed.

End HOC_label.

Lemma calculateHOC_label_and_value_witness :
  let r := calculateHOC Sample.Math_exp Sample.horns 70 in
  exists v,
    HOC.value r = Some v /\
    ((HOC.interpretation r = "Normal" /\ HOC.conversionRisk r = Some "Low" /\
      0.8 <= v) \/
     (HOC.interpretation r = "Mild" /\ HOC.conversionRisk r = Some "Moderate" /\
      0.7 <= v /\ v <= 0.8) \/
     (HOC.interpretation r = "Moderate" /\ HOC.conversionRisk r = Some "High" /\
      0.6 <= v /\ v <= 0.7) \/
     (HOC.interpretation r = "Severe" /\
      HOC.conversionRisk r = Some "Very High" /\ v <= 0.6)).
Proof.
  apply (calculateHOC_label_and_value Sample.Math_exp Sample.horns 70 6500).
  - reflexivity.
  - reflexivity.
  - intros i Hi. vm_compute in Hi. injection Hi as <-. discriminate.
Defined.

(** X25: the colour shown for a region is never the default gray: every
    interpretation [interpretZScore] returns has a colour of its own, red
    below an effective z-score of -2.5, orange from -2.5, amber from -2.0,
    lime from -1.5 and green from -1.0 on. *)
Theorem getInterpretationColor_of_zscore (zscore : Q) (invertZscore : bool) :
  let effectiveZ := if invertZscore then - zscore else zscore in
  let colour := getInterpretationColor (interpretZScore zscore invertZscore) in
  colour <> "#a1a1aa" /\
  (colour = "#ef4444" <-> effectiveZ < -2.5) /\
  (colour = "#f97316" <-> -2.5 <= effectiveZ < -2.0) /\
  (colour = "#f59e0b" <-> -2.0 <= effectiveZ < -1.5) /\
  (colour = "#84cc16" <-> -1.5 <= effectiveZ < -1.0) /\
  (colour = "#22c55e" <-> -1.0 <= effectiveZ).
Proof.
  cbv zeta. unfold interpretZScore. cbv zeta.
  generalize (if invertZscore then - zscore else zscore). intro z.
  unfold JS.ge.
  case_lt z (-1.0);
    [case_lt z (-1.5); [case_lt z (-2.0); [case_lt z (-2.5) |] |] |];
    (split; [vm_compute; discriminate |]);
    repeat split; intros;
    try (vm_compute; reflexivity);
    try lra;
    try (exfalso; lra);
    try match goal with
        | H : getInterpretationColor _ = _ |- _ =>
            vm_compute in H; discriminate H
        end.
Qed.

(** X26: the colour shown for the overall risk is never the default gray:
    each of the five verdicts the risk cascade can give has a colour of
    its own. *)
Theorem getRiskColor_of_verdict (st : Loop.t) (hocValue bpfZscore : option Q) :
  let risk := fst (atrophyRisk st hocValue bpfZscore) in
  In (risk, getRiskColor risk)
     [ ("High", "#ef4444"); ("Moderate", "#f97316"); ("Mild", "#f59e0b");
       ("Low-Normal", "#84cc16"); ("Normal", "#22c55e") ].
Proof.
  cbv zeta. unfold atrophyRisk. cbv zeta.
  repeat match goal with
         | |- context [if ?b then (_, _) else _] => destruct b
         end;
    cbn [fst In];
    [ left | right; left | right; right; left
    | right; right; right; left | right; right; right; right; left ];
    reflexivity.
Qed.
